(** * Conversation-memory store: storage backends and memory manager

    A shallow embedding of the TypeScript classes [LocalStorage],
    [S3Storage], [DynamoDBStorage] and [MemoryManager], and the properties
    of the storage contract checked against them.

    Conventions of the embedding.
    - A JavaScript [Date] is the integer it wraps (milliseconds since the
      epoch, [getTime()]); invalid dates are left out.
    - A JavaScript [number] used as a count, offset or limit is an integer
      of [Z]; fractional and NaN arguments are left out.
    - [Record<string, any>] metadata is never inspected by the code; it is
      a finite map from keys to strings.
    - The average of [getStats] is the double that the division of the
      two counts yields (a primitive float of Rocq, IEEE 754 binary64).
    - A call that spreads an array into its arguments ([Math.min(...a)])
      throws [RangeError] when the array has more elements than the
      engine accepts as arguments.
    - An [async] method is a computation over the state of the object and
      of the process (clock, identifier generator) that either returns or
      throws; state written before a [throw] stays written.
    - The file system and the bucket answer every call made after a
      successful [initialize]; the table has the partition key [PK] and
      the sort key [SK], as the README prescribes, and the service
      answers the requests that this key schema admits.  The text that
      [initialize] appends to its error message is left out. *)

From Stdlib Require Import Floats Uint63.
From stdpp Require Import base numbers list strings gmap sorting.

#[local] Open Scope string_scope.
#[local] Open Scope list_scope.
#[local] Open Scope Z_scope.

(** ** Data model ([types.ts]) *)

Inductive Role := user | assistant | system.

#[global] Instance Role_eq_dec : EqDecision Role.
Proof. solve_decision. Defined.

Definition Metadata : Type := gmap string string.

Module ConversationMessage.
Record t := mk {
  id : string;
  sessionId : string;
  role : Role;
  content : string;
  timestamp : Z;
  metadata : option Metadata
}.

Definition with_id (i : string) (m : t) : t :=
  mk i (sessionId m) (role m) (content m) (timestamp m) (metadata m).
End ConversationMessage.

Module ConversationSession.
Record t := mk {
  id : string;
  title : option string;
  createdAt : Z;
  updatedAt : Z;
  messageCount : Z;
  metadata : option Metadata
}.
End ConversationSession.

Abbreviation Message := ConversationMessage.t.
Abbreviation Session := ConversationSession.t.

(** [Partial<ConversationSession>]: every field may be absent.  For the
    two optional fields a present key may carry [undefined], which the
    spread copies like any other value. *)
Module SessionUpdates.
Record t := mk {
  id : option string;
  title : option (option string);
  createdAt : option Z;
  updatedAt : option Z;
  messageCount : option Z;
  metadata : option (option Metadata)
}.

Definition none : t := mk None None None None None None.

(** [{ ...s, ...u }] *)
Definition spread (s : Session) (u : t) : Session :=
  ConversationSession.mk
    (default (ConversationSession.id s) (id u))
    (default (ConversationSession.title s) (title u))
    (default (ConversationSession.createdAt s) (createdAt u))
    (default (ConversationSession.updatedAt s) (updatedAt u))
    (default (ConversationSession.messageCount s) (messageCount u))
    (default (ConversationSession.metadata s) (metadata u)).
End SessionUpdates.

Definition with_updatedAt (d : Z) (s : Session) : Session :=
  ConversationSession.mk
    (ConversationSession.id s) (ConversationSession.title s)
    (ConversationSession.createdAt s) d
    (ConversationSession.messageCount s) (ConversationSession.metadata s).

Record MemoryQueryOptions := {
  q_sessionId : option string;
  q_limit : option Z;
  q_offset : option Z;
  q_startDate : option Z;
  q_endDate : option Z;
  q_role : option Role
}.

Definition no_options : MemoryQueryOptions :=
  {| q_sessionId := None; q_limit := None; q_offset := None;
     q_startDate := None; q_endDate := None; q_role := None |}.

Record MemorySearchResult := {
  r_messages : list Message;
  r_total : Z;
  r_hasMore : bool
}.

Record MemoryStats := {
  totalSessions : Z;
  totalMessages : Z;
  oldestMessage : option Z;
  newestMessage : option Z;
  averageMessagesPerSession : float
}.

(** ** JavaScript helpers *)

(** Truthiness of an optional string ([if (x)], [!x], [x || y]): absent
    and empty are falsy. *)
Definition truthy (x : option string) : option string :=
  match x with
  | Some "" => None
  | _ => x
  end.

(** [x || d] on an optional number: absent and zero give [d]. *)
Definition or_default (x : option Z) (d : Z) : Z :=
  match x with
  | Some n => if decide (n = 0) then d else n
  | None => d
  end.

(** [Array.prototype.slice(start, end)] on integer arguments. *)
Definition slice {A} (start stop : Z) (l : list A) : list A :=
  let len := Z.of_nat (length l) in
  let rel (k : Z) := if decide (k < 0) then Z.max (len + k) 0 else Z.min k len in
  take (Z.to_nat (rel stop - rel start)) (drop (Z.to_nat (rel start)) l).

(** [Array.prototype.sort(cmp)]: a stable sort; [x] stays before [y] when
    [cmp x y <= 0]. *)
Fixpoint sort_insert {A} (cmp : A → A → Z) (x : A) (l : list A) : list A :=
  match l with
  | [] => [x]
  | y :: l' => if decide (cmp x y ≤ 0) then x :: l else y :: sort_insert cmp x l'
  end.

Definition sort {A} (cmp : A → A → Z) (l : list A) : list A :=
  foldr (sort_insert cmp) [] l.

(** [find(p)].  [findIndex(p)] is stdpp's [list_find], which gives the first
    index that satisfies [p] together with the element there; [None]
    stands for [-1]. *)
Definition find {A} (P : A → Prop) `{∀ x, Decision (P x)} (l : list A)
  : option A := snd <$> list_find P l.

(** The values of [Math.min(...ts)] and [Math.max(...ts)] for a non-empty
    [ts]; the code does not make the call for an empty one. *)
Definition min_of (ts : list Z) : option Z :=
  match ts with
  | [] => None
  | t :: ts' => Some (foldl Z.min t ts')
  end.

Definition max_of (ts : list Z) : option Z :=
  match ts with
  | [] => None
  | t :: ts' => Some (foldl Z.max t ts')
  end.

(** ** Computations *)

(** What a [throw] carries: [new Error(message)]; the [RangeError] with
    which the engine refuses a call with too many arguments; the
    [ValidationException] with which the AWS SDK reports a request that
    the service does not accept.  The messages of the last two are left
    out. *)
Inductive JsError :=
  | Error (message : string)
  | RangeError
  | ValidationException.

Inductive Outcome (A : Type) :=
  | Returned (a : A)
  | Thrown (e : JsError).
Arguments Returned {A} a.
Arguments Thrown {A} e.

(** The process around the objects: [new Date()] reads the clock and
    [uuidv4()] draws an identifier; successive calls may differ.  The
    engine accepts calls with up to [max_arguments] arguments. *)
Record Runtime := {
  clock : nat → Z;
  clock_reads : nat;
  uuid_source : nat → string;
  uuid_draws : nat;
  max_arguments : nat
}.

Definition M (S A : Type) : Type := Runtime * S → Outcome A * (Runtime * S).

Definition ret {S A} (a : A) : M S A := λ w, (Returned a, w).

Definition bind {S A B} (c : M S A) (k : A → M S B) : M S B :=
  λ w, match c w with
       | (Returned a, w') => k a w'
       | (Thrown e, w') => (Thrown e, w')
       end.

Definition throw {S A} (msg : string) : M S A := λ w, (Thrown (Error msg), w).

(** A [throw] of an error that is not built by [new Error]. *)
Definition raise {S A} (e : JsError) : M S A := λ w, (Thrown e, w).

Definition get {S} : M S S := λ w, (Returned (snd w), w).

Definition put {S} (s : S) : M S unit := λ w, (Returned tt, (fst w, s)).

Definition now (rt : Runtime) : Z := clock rt (clock_reads rt).

Definition tick (rt : Runtime) : Runtime :=
  {| clock := clock rt; clock_reads := Datatypes.S (clock_reads rt);
     uuid_source := uuid_source rt; uuid_draws := uuid_draws rt;
     max_arguments := max_arguments rt |}.

Definition fresh_uuid (rt : Runtime) : string := uuid_source rt (uuid_draws rt).

Definition draw (rt : Runtime) : Runtime :=
  {| clock := clock rt; clock_reads := clock_reads rt;
     uuid_source := uuid_source rt; uuid_draws := Datatypes.S (uuid_draws rt);
     max_arguments := max_arguments rt |}.

(** [new Date()] *)
Definition newDate {S} : M S Z := λ w, (Returned (now (fst w)), (tick (fst w), snd w)).

(** [uuidv4()] *)
Definition uuidv4 {S} : M S string :=
  λ w, (Returned (fresh_uuid (fst w)), (draw (fst w), snd w)).

(** [f(...args)]: the call is made when the engine accepts that many
    arguments. *)
Definition spread_call {S A} (f : list Z → A) (args : list Z) : M S A :=
  λ w, if decide (length args ≤ max_arguments (fst w))%nat
       then (Returned (f args), w)
       else (Thrown RangeError, w).

(** [for (const x of xs) await body(x)] *)
Fixpoint for_of {S A} (xs : list A) (body : A → M S unit) : M S unit :=
  match xs with
  | [] => ret tt
  | x :: xs' => bind (body x) (λ _, for_of xs' body)
  end.

Declare Scope js_scope.
Delimit Scope js_scope with js.
Notation "x <- c ;; k" := (bind c (λ x, k))
  (at level 100, c at next level, right associativity) : js_scope.
Notation "c ;; k" := (bind c (λ _, k))
  (at level 100, right associativity) : js_scope.
#[local] Open Scope js_scope.

(** ** Query pipeline

    The three classes repeat the same filter, sort and pagination code in
    [getMessages]; it is written once here, step by step. *)

Definition by_timestamp (a b : Message) : Z :=
  ConversationMessage.timestamp a - ConversationMessage.timestamp b.

(** [if (options.sessionId) ... filter(m => m.sessionId === options.sessionId)] *)
Definition filter_sessionId (o : MemoryQueryOptions) (l : list Message) : list Message :=
  match truthy (q_sessionId o) with
  | Some sid => filter (λ m, ConversationMessage.sessionId m = sid) l
  | None => l
  end.

(** [if (options.role) ... filter(m => m.role === options.role)] *)
Definition filter_role (o : MemoryQueryOptions) (l : list Message) : list Message :=
  match q_role o with
  | Some r => filter (λ m, ConversationMessage.role m = r) l
  | None => l
  end.

(** [if (options.startDate) ... filter(m => m.timestamp >= options.startDate)] *)
Definition filter_startDate (o : MemoryQueryOptions) (l : list Message) : list Message :=
  match q_startDate o with
  | Some d => filter (λ m, d ≤ ConversationMessage.timestamp m) l
  | None => l
  end.

(** [if (options.endDate) ... filter(m => m.timestamp <= options.endDate)] *)
Definition filter_endDate (o : MemoryQueryOptions) (l : list Message) : list Message :=
  match q_endDate o with
  | Some d => filter (λ m, ConversationMessage.timestamp m ≤ d) l
  | None => l
  end.

(** [total], [offset || 0], [limit || total], [slice], [hasMore]. *)
Definition paginate (o : MemoryQueryOptions) (l : list Message) : MemorySearchResult :=
  let total := Z.of_nat (length l) in
  let offset := or_default (q_offset o) 0 in
  let limit := or_default (q_limit o) total in
  {| r_messages := slice offset (offset + limit) l;
     r_total := total;
     r_hasMore := bool_decide (offset + limit < total) |}.

(** A count as a JavaScript number.  Counts are array lengths, which lie
    below [2^32], where the conversion is exact; outside [0, 2^63), which
    no count reaches, the value is clamped. *)
Definition number (z : Z) : float :=
  PrimFloat.of_uint63 (Uint63.of_Z (Z.max 0 (Z.min z (2 ^ 63 - 1)))).

(** [timestamps.length > 0 ? new Date(f(...timestamps)) : null] for [f]
    one of [Math.min] and [Math.max]. *)
Definition extreme {S} (f : list Z → option Z) (timestamps : list Z) : M S (option Z) :=
  if decide (0 < length timestamps)%nat then spread_call f timestamps else ret None.

(** [totalSessions > 0 ? totalMessages / totalSessions : 0] *)
Definition average (nmessages nsessions : Z) : float :=
  if decide (0 < nsessions) then (number nmessages / number nsessions)%float else 0%float.

(** The tail of [getStats], which the three classes share: the
    statistics of [nsessions] sessions and of the messages [msgs],
    [nmessages] in number. *)
Definition stats_of {S} (nsessions : Z) (msgs : list Message) (nmessages : Z)
  : M S MemoryStats :=
  let timestamps := ConversationMessage.timestamp <$> msgs in
  oldestMessage <- extreme min_of timestamps ;;
  newestMessage <- extreme max_of timestamps ;;
  ret {| totalSessions := nsessions;
         totalMessages := nmessages;
         oldestMessage := oldestMessage;
         newestMessage := newestMessage;
         averageMessagesPerSession := average nmessages nsessions |}.

(** ** File-backed and object-storage backends: shared state

    Both classes keep [data] and [ready] and mirror [data] to one durable
    blob (the file at [dataPath], the object at [dataKey]).  The blob is
    represented by the structure its JSON text denotes; writes to it are
    taken to succeed. *)

Record StorageData := {
  messages : list Message;
  sessions : list Session;
  lastUpdated : Z
}.

Inductive Durable :=
  | Absent
  | Unreadable
  | Stored (d : StorageData).

Record BlobStore := {
  data : StorageData;
  ready : bool;
  durable : Durable
}.

Definition set_messages (ms : list Message) (s : BlobStore) : BlobStore :=
  {| data := {| messages := ms; sessions := sessions (data s);
                lastUpdated := lastUpdated (data s) |};
     ready := ready s; durable := durable s |}.

Definition set_sessions (ss : list Session) (s : BlobStore) : BlobStore :=
  {| data := {| messages := messages (data s); sessions := ss;
                lastUpdated := lastUpdated (data s) |};
     ready := ready s; durable := durable s |}.

Definition set_data (d : StorageData) (s : BlobStore) : BlobStore :=
  {| data := d; ready := ready s; durable := durable s |}.

(** Messages of the store that belong to session [sid]:
    [this.data.messages.filter(m => m.sessionId === sid)]. *)
Definition of_session (sid : string) (ms : list Message) : list Message :=
  filter (λ m, ConversationMessage.sessionId m = sid) ms.

Definition has_id (i : string) (m : Message) : Prop := ConversationMessage.id m = i.
Definition session_has_id (i : string) (s : Session) : Prop := ConversationSession.id s = i.

#[global] Instance has_id_dec i m : Decision (has_id i m).
Proof. unfold has_id. apply _. Defined.
#[global] Instance session_has_id_dec i s : Decision (session_has_id i s).
Proof. unfold session_has_id. apply _. Defined.

(** ** [LocalStorage] *)

Module LocalStorage.

(** [constructor]: empty data stamped with the current time, not ready. *)
Definition create (file : Durable) (rt : Runtime) : Runtime * BlobStore :=
  (tick rt,
   {| data := {| messages := []; sessions := []; lastUpdated := now rt |};
      ready := false; durable := file |}).

(** [if (!this.ready) throw new Error('Storage not initialized')] *)
Definition check_ready : M BlobStore unit :=
  s <- get ;;
  if ready s then ret tt else throw "Storage not initialized".

(** Load the file if it exists; a file that cannot be read or parsed
    makes [initialize] throw and leaves the store not ready. *)
Definition initialize : M BlobStore unit :=
  s <- get ;;
  match durable s with
  | Absent => put {| data := data s; ready := true; durable := durable s |}
  | Stored d => put {| data := d; ready := true; durable := durable s |}
  | Unreadable => throw "Failed to initialize local storage"
  end.

(** Stamp [lastUpdated] and overwrite the file with the whole data. *)
Definition saveToFile : M BlobStore unit :=
  now <- newDate ;;
  s <- get ;;
  let d := {| messages := messages (data s); sessions := sessions (data s);
              lastUpdated := now |} in
  put {| data := d; ready := ready s; durable := Stored d |}.

Definition updateSessionInternal (sessionId : string) (updates : SessionUpdates.t)
  : M BlobStore unit :=
  s <- get ;;
  match list_find (session_has_id sessionId) (sessions (data s)) with
  | Some (sessionIndex, old) =>
      now <- newDate ;;
      put (set_sessions
             (<[sessionIndex := with_updatedAt now (SessionUpdates.spread old updates)]>
                (sessions (data s))) s)
  | None =>
      created <- newDate ;;
      updated <- newDate ;;
      let newSession :=
        SessionUpdates.spread
          (ConversationSession.mk sessionId None created updated 1 None) updates in
      put (set_sessions (sessions (data s) ++ [newSession]) s)
  end.

(** The JavaScript method assigns [message.id] in place when it is
    falsy; the message as the caller sees it afterwards is returned. *)
Definition saveMessage (message : Message) : M BlobStore Message :=
  check_ready ;;
  message <- (match truthy (Some (ConversationMessage.id message)) with
              | Some _ => ret message
              | None => u <- uuidv4 ;; ret (ConversationMessage.with_id u message)
              end) ;;
  s <- get ;;
  put (set_messages
         (match list_find (has_id (ConversationMessage.id message)) (messages (data s)) with
          | Some (existingIndex, _) => <[existingIndex := message]> (messages (data s))
          | None => messages (data s) ++ [message]
          end) s) ;;
  now <- newDate ;;
  s <- get ;;
  updateSessionInternal (ConversationMessage.sessionId message)
    (SessionUpdates.mk None None None (Some now)
       (Some (Z.of_nat (length (of_session (ConversationMessage.sessionId message)
                                           (messages (data s))))))
       None) ;;
  saveToFile ;;
  ret message.

Definition saveMessages (msgs : list Message) : M BlobStore unit :=
  for_of msgs (λ message, saveMessage message ;; ret tt).

(** [filteredMessages] starts as a copy ([[...this.data.messages]]) and
    every filter allocates a new array, so the in-place [sort] works on an
    array of its own and never on [this.data.messages]. *)
Definition getMessages (options : MemoryQueryOptions) : M BlobStore MemorySearchResult :=
  check_ready ;;
  s <- get ;;
  ret (paginate options
         (sort by_timestamp
            (filter_endDate options
               (filter_startDate options
                  (filter_role options
                     (filter_sessionId options (messages (data s)))))))).

Definition getMessage (messageId : string) : M BlobStore (option Message) :=
  check_ready ;;
  s <- get ;;
  ret (find (has_id messageId) (messages (data s))).

(** The sort works on the copy [[...this.data.sessions]]. *)
Definition getSessions : M BlobStore (list Session) :=
  check_ready ;;
  s <- get ;;
  ret (sort (λ a b, ConversationSession.updatedAt b - ConversationSession.updatedAt a)
            (sessions (data s))).

Definition getSession (sessionId : string) : M BlobStore (option Session) :=
  check_ready ;;
  s <- get ;;
  ret (find (session_has_id sessionId) (sessions (data s))).

Definition updateSession (sessionId : string) (updates : SessionUpdates.t)
  : M BlobStore unit :=
  check_ready ;;
  updateSessionInternal sessionId updates ;;
  saveToFile.

Definition deleteMessage (messageId : string) : M BlobStore unit :=
  check_ready ;;
  s <- get ;;
  match list_find (has_id messageId) (messages (data s)) with
  | Some (messageIndex, message) =>
      put (set_messages (delete messageIndex (messages (data s))) s) ;;
      s <- get ;;
      updateSessionInternal (ConversationMessage.sessionId message)
        (SessionUpdates.mk None None None None
           (Some (Z.of_nat (length (of_session (ConversationMessage.sessionId message)
                                               (messages (data s))))))
           None) ;;
      saveToFile
  | None => ret tt
  end.

Definition deleteSession (sessionId : string) : M BlobStore unit :=
  check_ready ;;
  s <- get ;;
  put (set_messages
         (filter (λ m, ConversationMessage.sessionId m ≠ sessionId) (messages (data s))) s) ;;
  s <- get ;;
  put (set_sessions
         (filter (λ x, ConversationSession.id x ≠ sessionId) (sessions (data s))) s) ;;
  saveToFile.

Definition getStats : M BlobStore MemoryStats :=
  check_ready ;;
  s <- get ;;
  stats_of (Z.of_nat (length (sessions (data s))))
           (messages (data s))
           (Z.of_nat (length (messages (data s)))).

Definition clear : M BlobStore unit :=
  check_ready ;;
  now <- newDate ;;
  s <- get ;;
  put (set_data {| messages := []; sessions := []; lastUpdated := now |} s) ;;
  saveToFile.

Definition isReady (s : BlobStore) : bool := ready s.

End LocalStorage.

(** ** [S3Storage]

    The class repeats [LocalStorage] method by method over the object at
    [dataKey]; it is transcribed separately and related to [LocalStorage]
    by the equations [S3Storage_as_LocalStorage] below. *)

Module S3Storage.

(** [constructor]: empty data stamped with the current time, not ready. *)
Definition create (object : Durable) (rt : Runtime) : Runtime * BlobStore :=
  (tick rt,
   {| data := {| messages := []; sessions := []; lastUpdated := now rt |};
      ready := false; durable := object |}).

(** [if (!this.ready) throw new Error('Storage not initialized')] *)
Definition check_ready : M BlobStore unit :=
  s <- get ;;
  if ready s then ret tt else throw "Storage not initialized".

(** Load the object if it exists ([NoSuchKey] means an empty store); any
    other failure makes [initialize] throw and leaves the store not
    ready. *)
Definition initialize : M BlobStore unit :=
  s <- get ;;
  match durable s with
  | Absent => put {| data := data s; ready := true; durable := durable s |}
  | Stored d => put {| data := d; ready := true; durable := durable s |}
  | Unreadable => throw "Failed to initialize S3 storage"
  end.

(** Stamp [lastUpdated] and overwrite the object with the whole data. *)
Definition saveToS3 : M BlobStore unit :=
  now <- newDate ;;
  s <- get ;;
  let d := {| messages := messages (data s); sessions := sessions (data s);
              lastUpdated := now |} in
  put {| data := d; ready := ready s; durable := Stored d |}.

Definition updateSessionInternal (sessionId : string) (updates : SessionUpdates.t)
  : M BlobStore unit :=
  s <- get ;;
  match list_find (session_has_id sessionId) (sessions (data s)) with
  | Some (sessionIndex, old) =>
      now <- newDate ;;
      put (set_sessions
             (<[sessionIndex := with_updatedAt now (SessionUpdates.spread old updates)]>
                (sessions (data s))) s)
  | None =>
      created <- newDate ;;
      updated <- newDate ;;
      let newSession :=
        SessionUpdates.spread
          (ConversationSession.mk sessionId None created updated 1 None) updates in
      put (set_sessions (sessions (data s) ++ [newSession]) s)
  end.

(** The JavaScript method assigns [message.id] in place when it is
    falsy; the message as the caller sees it afterwards is returned. *)
Definition saveMessage (message : Message) : M BlobStore Message :=
  check_ready ;;
  message <- (match truthy (Some (ConversationMessage.id message)) with
              | Some _ => ret message
              | None => u <- uuidv4 ;; ret (ConversationMessage.with_id u message)
              end) ;;
  s <- get ;;
  put (set_messages
         (match list_find (has_id (ConversationMessage.id message)) (messages (data s)) with
          | Some (existingIndex, _) => <[existingIndex := message]> (messages (data s))
          | None => messages (data s) ++ [message]
          end) s) ;;
  now <- newDate ;;
  s <- get ;;
  updateSessionInternal (ConversationMessage.sessionId message)
    (SessionUpdates.mk None None None (Some now)
       (Some (Z.of_nat (length (of_session (ConversationMessage.sessionId message)
                                           (messages (data s))))))
       None) ;;
  saveToS3 ;;
  ret message.

Definition saveMessages (msgs : list Message) : M BlobStore unit :=
  for_of msgs (λ message, saveMessage message ;; ret tt).

(** [filteredMessages] starts as a copy ([[...this.data.messages]]) and
    every filter allocates a new array, so the in-place [sort] works on an
    array of its own and never on [this.data.messages]. *)
Definition getMessages (options : MemoryQueryOptions) : M BlobStore MemorySearchResult :=
  check_ready ;;
  s <- get ;;
  ret (paginate options
         (sort by_timestamp
            (filter_endDate options
               (filter_startDate options
                  (filter_role options
                     (filter_sessionId options (messages (data s)))))))).

Definition getMessage (messageId : string) : M BlobStore (option Message) :=
  check_ready ;;
  s <- get ;;
  ret (find (has_id messageId) (messages (data s))).

(** The sort works on the copy [[...this.data.sessions]]. *)
Definition getSessions : M BlobStore (list Session) :=
  check_ready ;;
  s <- get ;;
  ret (sort (λ a b, ConversationSession.updatedAt b - ConversationSession.updatedAt a)
            (sessions (data s))).

Definition getSession (sessionId : string) : M BlobStore (option Session) :=
  check_ready ;;
  s <- get ;;
  ret (find (session_has_id sessionId) (sessions (data s))).

Definition updateSession (sessionId : string) (updates : SessionUpdates.t)
  : M BlobStore unit :=
  check_ready ;;
  updateSessionInternal sessionId updates ;;
  saveToS3.

Definition deleteMessage (messageId : string) : M BlobStore unit :=
  check_ready ;;
  s <- get ;;
  match list_find (has_id messageId) (messages (data s)) with
  | Some (messageIndex, message) =>
      put (set_messages (delete messageIndex (messages (data s))) s) ;;
      s <- get ;;
      updateSessionInternal (ConversationMessage.sessionId message)
        (SessionUpdates.mk None None None None
           (Some (Z.of_nat (length (of_session (ConversationMessage.sessionId message)
                                               (messages (data s))))))
           None) ;;
      saveToS3
  | None => ret tt
  end.

Definition deleteSession (sessionId : string) : M BlobStore unit :=
  check_ready ;;
  s <- get ;;
  put (set_messages
         (filter (λ m, ConversationMessage.sessionId m ≠ sessionId) (messages (data s))) s) ;;
  s <- get ;;
  put (set_sessions
         (filter (λ x, ConversationSession.id x ≠ sessionId) (sessions (data s))) s) ;;
  saveToS3.

Definition getStats : M BlobStore MemoryStats :=
  check_ready ;;
  s <- get ;;
  stats_of (Z.of_nat (length (sessions (data s))))
           (messages (data s))
           (Z.of_nat (length (messages (data s)))).

Definition clear : M BlobStore unit :=
  check_ready ;;
  now <- newDate ;;
  s <- get ;;
  put (set_data {| messages := []; sessions := []; lastUpdated := now |} s) ;;
  saveToS3.

Definition isReady (s : BlobStore) : bool := ready s.

End S3Storage.

(** ** [DynamoDBStorage]

    The table is a finite map from the primary key (partition key [PK],
    sort key [SK]) to the row stored under it.  The class writes two
    kinds of rows, message rows and session rows; a row read back as what
    it was written as yields the attributes written ([toISOString] /
    [new Date], [JSON.stringify] / [JSON.parse] cancel out), and a row
    read as the other kind yields nothing.  A scan or query returns the
    rows that satisfy its filter or key condition, in the order of
    [map_to_list]; the code sorts them afterwards. *)

Module DynamoDBStorage.

Definition Key : Type := string * string.

Inductive Item :=
  | MessageItem (m : Message) (createdAt : Z)
  | SessionItem (s : Session).

Record State := {
  table : gmap Key Item;
  ready : bool;
  reachable : bool
}.

Definition set_table (t : gmap Key Item) (s : State) : State :=
  {| table := t; ready := ready s; reachable := reachable s |}.

Definition MESSAGE (i : string) : string := "MESSAGE#" +:+ i.
Definition SESSION (i : string) : string := "SESSION#" +:+ i.

(** [begins_with(PK, prefix)] *)
Definition begins_with (pk pre : string) : Prop := String.prefix pre pk = true.

#[global] Instance begins_with_dec pk pre : Decision (begins_with pk pre).
Proof. unfold begins_with. apply _. Defined.

(** The attributes of a row read as a message, resp. a session. *)
Definition item_message (it : Item) : option Message :=
  match it with
  | MessageItem m _ => Some m
  | SessionItem _ => None
  end.

Definition item_session (it : Item) : option Session :=
  match it with
  | SessionItem s => Some s
  | MessageItem _ _ => None
  end.

(** [PutCommand], [GetCommand], [DeleteCommand] *)
Definition PutCommand (k : Key) (it : Item) : M State unit :=
  s <- get ;; put (set_table (<[k := it]> (table s)) s).

Definition GetCommand (k : Key) : M State (option Item) :=
  s <- get ;; ret (table s !! k).

Definition DeleteCommand (k : Key) : M State unit :=
  s <- get ;; put (set_table (delete k (table s)) s).

(** [ScanCommand]: the rows whose key satisfies the filter expression
    (all rows without one). *)
Definition rows_where (P : Key → Prop) `{∀ k, Decision (P k)} : M State (list (Key * Item)) :=
  s <- get ;; ret (filter (λ kv, P (fst kv)) (map_to_list (table s))).

(** [QueryCommand] with the key condition
    [SK = :sessionId AND begins_with(PK, :messagePrefix)].  A key
    condition has to test the partition key for equality; this one tests
    the sort key for equality and the partition key for a prefix, and the
    service rejects the request. *)
Definition QueryCommand (sk pre : string) : M State (list (Key * Item)) :=
  raise ValidationException.

Definition create (rows : gmap Key Item) (online : bool) : State :=
  {| table := rows; ready := false; reachable := online |}.

(** [if (!this.ready) throw new Error('Storage not initialized')] *)
Definition check_ready : M State unit :=
  s <- get ;;
  if ready s then ret tt else throw "Storage not initialized".

(** A one-row scan tests the connection. *)
Definition initialize : M State unit :=
  s <- get ;;
  if reachable s
  then put {| table := table s; ready := true; reachable := reachable s |}
  else throw "Failed to initialize DynamoDB storage".

Definition getMessages (options : MemoryQueryOptions) : M State MemorySearchResult :=
  check_ready ;;
  rows <- (match truthy (q_sessionId options) with
           | Some sid => QueryCommand (SESSION sid) "MESSAGE#"
           | None =>
               rows_where (λ k, begins_with (fst k) "MESSAGE#")
           end) ;;
  ret (paginate options
         (sort by_timestamp
            (filter_endDate options
               (filter_startDate options
                  (filter_role options
                     (omap (λ kv, item_message (snd kv)) rows)))))).

Definition getMessage (messageId : string) : M State (option Message) :=
  check_ready ;;
  response <- GetCommand (MESSAGE messageId, MESSAGE messageId) ;;
  ret (response ≫= item_message).

Definition getSessions : M State (list Session) :=
  check_ready ;;
  rows <- rows_where (λ k, begins_with (fst k) "SESSION#") ;;
  ret (sort (λ a b, ConversationSession.updatedAt b - ConversationSession.updatedAt a)
            (omap (λ kv, item_session (snd kv)) rows)).

Definition getSession (sessionId : string) : M State (option Session) :=
  check_ready ;;
  response <- GetCommand (SESSION sessionId, SESSION sessionId) ;;
  ret (response ≫= item_session).

Definition updateSession (sessionId : string) (updates : SessionUpdates.t)
  : M State unit :=
  check_ready ;;
  session <- getSession sessionId ;;
  match session with
  | None => throw ("Session " +:+ sessionId +:+ " not found")
  | Some session =>
      now <- newDate ;;
      let updatedSession := with_updatedAt now (SessionUpdates.spread session updates) in
      PutCommand (SESSION sessionId, SESSION sessionId)
        (SessionItem
           (ConversationSession.mk sessionId
              (ConversationSession.title updatedSession)
              (ConversationSession.createdAt updatedSession)
              (ConversationSession.updatedAt updatedSession)
              (ConversationSession.messageCount updatedSession)
              (ConversationSession.metadata updatedSession)))
  end.

(** The session object built when none is found stays in a local
    variable; only its two [new Date()] reads are visible. *)
Definition updateSessionInternal (sessionId : string) : M State unit :=
  messages <- getMessages
    {| q_sessionId := Some sessionId; q_limit := None; q_offset := None;
       q_startDate := None; q_endDate := None; q_role := None |} ;;
  session <- getSession sessionId ;;
  (match session with
   | Some _ => ret tt
   | None => newDate ;; newDate ;; ret tt
   end) ;;
  now <- newDate ;;
  updateSession sessionId
    (SessionUpdates.mk None None None (Some now) (Some (r_total messages)) None).

Definition saveMessage (message : Message) : M State Message :=
  check_ready ;;
  message <- (match truthy (Some (ConversationMessage.id message)) with
              | Some _ => ret message
              | None => u <- uuidv4 ;; ret (ConversationMessage.with_id u message)
              end) ;;
  createdAt <- newDate ;;
  PutCommand (MESSAGE (ConversationMessage.id message),
              SESSION (ConversationMessage.sessionId message))
             (MessageItem message createdAt) ;;
  updateSessionInternal (ConversationMessage.sessionId message) ;;
  ret message.

Definition saveMessages (msgs : list Message) : M State unit :=
  for_of msgs (λ message, saveMessage message ;; ret tt).

Definition deleteMessage (messageId : string) : M State unit :=
  check_ready ;;
  message <- getMessage messageId ;;
  match message with
  | None => ret tt
  | Some message =>
      DeleteCommand (MESSAGE messageId, SESSION (ConversationMessage.sessionId message)) ;;
      updateSessionInternal (ConversationMessage.sessionId message)
  end.

Definition deleteSession (sessionId : string) : M State unit :=
  check_ready ;;
  messages <- getMessages
    {| q_sessionId := Some sessionId; q_limit := None; q_offset := None;
       q_startDate := None; q_endDate := None; q_role := None |} ;;
  for_of (r_messages messages)
    (λ message, DeleteCommand (MESSAGE (ConversationMessage.id message), SESSION sessionId)) ;;
  DeleteCommand (SESSION sessionId, SESSION sessionId).

Definition getStats : M State MemoryStats :=
  check_ready ;;
  sessions <- getSessions ;;
  messages <- getMessages no_options ;;
  stats_of (Z.of_nat (length sessions)) (r_messages messages) (r_total messages).

Definition clear : M State unit :=
  check_ready ;;
  rows <- rows_where (λ _, True) ;;
  for_of rows (λ kv, DeleteCommand (fst kv)).

Definition isReady (s : State) : bool := ready s.

End DynamoDBStorage.

(** ** [IMemoryStorage] ([interfaces/MemoryInterface.ts]) *)

Module MemoryInterface.
Class IMemoryStorage (B : Type) := {
  initialize : M B unit;
  saveMessage : Message → M B Message;
  saveMessages : list Message → M B unit;
  getMessages : MemoryQueryOptions → M B MemorySearchResult;
  getMessage : string → M B (option Message);
  getSessions : M B (list Session);
  getSession : string → M B (option Session);
  updateSession : string → SessionUpdates.t → M B unit;
  deleteMessage : string → M B unit;
  deleteSession : string → M B unit;
  getStats : M B MemoryStats;
  clear : M B unit;
  isReady : B → bool
}.
End MemoryInterface.

#[global] Instance LocalStorage_storage : MemoryInterface.IMemoryStorage BlobStore := {|
  MemoryInterface.initialize := LocalStorage.initialize;
  MemoryInterface.saveMessage := LocalStorage.saveMessage;
  MemoryInterface.saveMessages := LocalStorage.saveMessages;
  MemoryInterface.getMessages := LocalStorage.getMessages;
  MemoryInterface.getMessage := LocalStorage.getMessage;
  MemoryInterface.getSessions := LocalStorage.getSessions;
  MemoryInterface.getSession := LocalStorage.getSession;
  MemoryInterface.updateSession := LocalStorage.updateSession;
  MemoryInterface.deleteMessage := LocalStorage.deleteMessage;
  MemoryInterface.deleteSession := LocalStorage.deleteSession;
  MemoryInterface.getStats := LocalStorage.getStats;
  MemoryInterface.clear := LocalStorage.clear;
  MemoryInterface.isReady := LocalStorage.isReady
|}.

Definition S3Storage_storage : MemoryInterface.IMemoryStorage BlobStore := {|
  MemoryInterface.initialize := S3Storage.initialize;
  MemoryInterface.saveMessage := S3Storage.saveMessage;
  MemoryInterface.saveMessages := S3Storage.saveMessages;
  MemoryInterface.getMessages := S3Storage.getMessages;
  MemoryInterface.getMessage := S3Storage.getMessage;
  MemoryInterface.getSessions := S3Storage.getSessions;
  MemoryInterface.getSession := S3Storage.getSession;
  MemoryInterface.updateSession := S3Storage.updateSession;
  MemoryInterface.deleteMessage := S3Storage.deleteMessage;
  MemoryInterface.deleteSession := S3Storage.deleteSession;
  MemoryInterface.getStats := S3Storage.getStats;
  MemoryInterface.clear := S3Storage.clear;
  MemoryInterface.isReady := S3Storage.isReady
|}.

#[global] Instance DynamoDBStorage_storage
  : MemoryInterface.IMemoryStorage DynamoDBStorage.State := {|
  MemoryInterface.initialize := DynamoDBStorage.initialize;
  MemoryInterface.saveMessage := DynamoDBStorage.saveMessage;
  MemoryInterface.saveMessages := DynamoDBStorage.saveMessages;
  MemoryInterface.getMessages := DynamoDBStorage.getMessages;
  MemoryInterface.getMessage := DynamoDBStorage.getMessage;
  MemoryInterface.getSessions := DynamoDBStorage.getSessions;
  MemoryInterface.getSession := DynamoDBStorage.getSession;
  MemoryInterface.updateSession := DynamoDBStorage.updateSession;
  MemoryInterface.deleteMessage := DynamoDBStorage.deleteMessage;
  MemoryInterface.deleteSession := DynamoDBStorage.deleteSession;
  MemoryInterface.getStats := DynamoDBStorage.getStats;
  MemoryInterface.clear := DynamoDBStorage.clear;
  MemoryInterface.isReady := DynamoDBStorage.isReady
|}.

(** The values that the LangChain adapter reads from its arguments
    ([Record<string, any>], taken to hold strings) and the object that
    [loadMemoryVariables] returns. *)
Record InputValues := { iv_input : option string }.

Record OutputValues := {
  ov_output : option string;
  ov_response : option string;
  ov_text : option string;
  ov_result : option string
}.

Record MemoryVariables := {
  mv_history : string;
  mv_messages : list Message
}.

(** The text of a role in a template literal. *)
Definition role_text (r : Role) : string :=
  match r with
  | user => "user"
  | assistant => "assistant"
  | system => "system"
  end.

(** [a || b] on optional strings. *)
Definition or_else (a b : option string) : option string :=
  match truthy a with
  | Some x => Some x
  | None => b
  end.

(** [try { c } catch (error) { console.error(...) }]; console output is
    not part of the state. *)
Definition try_catch {S} (c : M S unit) : M S unit :=
  λ w, match c w with
       | (Returned a, w') => (Returned a, w')
       | (Thrown _, w') => (Returned tt, w')
       end.

(** [await new Promise(resolve => setTimeout(resolve, ms))]: time passes,
    which the clock of the process already allows between two reads. *)
Definition setTimeout {S} (ms : Z) : M S unit := ret tt.

(** ** [MemoryManager] *)

Module MemoryManager.
Section Manager.
Context {B : Type} {backend : MemoryInterface.IMemoryStorage B}.

Record t := {
  storage : B;
  currentSessionId : option string;
  ready : bool
}.

(** A call [this.storage.op(...)]: the operation runs on the storage
    field and the process state. *)
Definition on_storage {A} (c : M B A) : M t A :=
  λ w, match c (fst w, storage (snd w)) with
       | (r, (rt', b')) =>
           (r, (rt', {| storage := b';
                        currentSessionId := currentSessionId (snd w);
                        ready := ready (snd w) |}))
       end.

Definition create (b : B) : t :=
  {| storage := b; currentSessionId := None; ready := false |}.

Definition initialize : M t unit :=
  on_storage MemoryInterface.initialize ;;
  s <- get ;;
  put {| storage := storage s; currentSessionId := currentSessionId s; ready := true |}.

Definition getCurrentSessionId (s : t) : option string := currentSessionId s.

Definition setCurrentSession (sessionId : string) : M t unit :=
  s <- get ;;
  put {| storage := storage s; currentSessionId := Some sessionId; ready := ready s |}.

Definition saveUserMessage (content : string) (metadata : option Metadata) : M t string :=
  s <- get ;;
  match truthy (currentSessionId s) with
  | None => throw "No active session. Call startSession() first."
  | Some sessionId =>
      u <- uuidv4 ;;
      now <- newDate ;;
      let message := ConversationMessage.mk u sessionId user content now metadata in
      message <- on_storage (MemoryInterface.saveMessage message) ;;
      ret (ConversationMessage.id message)
  end.

Definition saveSystemMessage (content : string) (metadata : option Metadata) : M t string :=
  s <- get ;;
  match truthy (currentSessionId s) with
  | None => throw "No active session. Call startSession() first."
  | Some sessionId =>
      u <- uuidv4 ;;
      now <- newDate ;;
      let message := ConversationMessage.mk u sessionId system content now metadata in
      message <- on_storage (MemoryInterface.saveMessage message) ;;
      ret (ConversationMessage.id message)
  end.

(** [startSession], up to its [return].  The promise chain it starts
    ([getSession(id).then(...)]) runs after the return and is not awaited;
    its callback is [startSession_then]. *)
Definition startSession (sessionId title : option string) : M t string :=
  s <- get ;;
  if ready s
  then
    id <- (match truthy sessionId with
           | Some i => ret i
           | None => uuidv4
           end) ;;
    s <- get ;;
    put {| storage := storage s; currentSessionId := Some id; ready := ready s |} ;;
    ret id
  else throw "Memory manager not initialized".

(** The callback of [startSession], given the answer [session] of
    [getSession(id)]: [if (!session) this.storage.updateSession(id,
    { title, messageCount: 0 })]. *)
Definition startSession_then (id : string) (title : option string)
    (session : option Session) : M t unit :=
  match session with
  | Some _ => ret tt
  | None =>
      on_storage (MemoryInterface.updateSession id
                    (SessionUpdates.mk None (Some title) None None (Some 0) None))
  end.

Definition saveAssistantMessage (content : string) (metadata : option Metadata) : M t string :=
  s <- get ;;
  match truthy (currentSessionId s) with
  | None => throw "No active session. Call startSession() first."
  | Some sessionId =>
      setTimeout 1 ;;
      u <- uuidv4 ;;
      now <- newDate ;;
      let message := ConversationMessage.mk u sessionId assistant content now metadata in
      message <- on_storage (MemoryInterface.saveMessage message) ;;
      ret (ConversationMessage.id message)
  end.

Definition getCurrentSessionHistory (limit : option Z) : M t (list Message) :=
  s <- get ;;
  match truthy (currentSessionId s) with
  | None => throw "No active session. Call startSession() first."
  | Some sessionId =>
      result <- on_storage (MemoryInterface.getMessages
                              {| q_sessionId := Some sessionId; q_limit := limit;
                                 q_offset := None; q_startDate := None;
                                 q_endDate := None; q_role := None |}) ;;
      ret (r_messages result)
  end.

Definition getSessionHistory (sessionId : string) (limit : option Z) : M t (list Message) :=
  result <- on_storage (MemoryInterface.getMessages
                          {| q_sessionId := Some sessionId; q_limit := limit;
                             q_offset := None; q_startDate := None;
                             q_endDate := None; q_role := None |}) ;;
  ret (r_messages result).

Definition getSessions : M t (list Session) := on_storage MemoryInterface.getSessions.

Definition getSession (sessionId : string) : M t (option Session) :=
  on_storage (MemoryInterface.getSession sessionId).

Definition updateSession (sessionId : string) (updates : SessionUpdates.t) : M t unit :=
  on_storage (MemoryInterface.updateSession sessionId updates).

Definition searchMessages (options : MemoryQueryOptions) : M t MemorySearchResult :=
  on_storage (MemoryInterface.getMessages options).

Definition getMessage (messageId : string) : M t (option Message) :=
  on_storage (MemoryInterface.getMessage messageId).

Definition deleteMessage (messageId : string) : M t unit :=
  on_storage (MemoryInterface.deleteMessage messageId).

Definition deleteSession (sessionId : string) : M t unit :=
  on_storage (MemoryInterface.deleteSession sessionId) ;;
  s <- get ;;
  if decide (currentSessionId s = Some sessionId)
  then put {| storage := storage s; currentSessionId := None; ready := ready s |}
  else ret tt.

Definition getStats : M t MemoryStats := on_storage MemoryInterface.getStats.

Definition clear : M t unit :=
  on_storage MemoryInterface.clear ;;
  s <- get ;;
  put {| storage := storage s; currentSessionId := None; ready := ready s |}.

(** The object returned by [createLangChainMemory]: [saveContext],
    [loadMemoryVariables] and [clear]. *)
Definition saveContext (inputValues : InputValues) (outputValues : OutputValues)
  : M t unit :=
  try_catch
    ((match truthy (iv_input inputValues) with
      | Some input => saveUserMessage input None ;; ret tt
      | None => ret tt
      end) ;;
     match truthy (or_else (ov_output outputValues)
                     (or_else (ov_response outputValues)
                        (or_else (ov_text outputValues) (ov_result outputValues)))) with
     | Some output => setTimeout 10 ;; saveAssistantMessage output None ;; ret tt
     | None => ret tt
     end).

Definition loadMemoryVariables : M t MemoryVariables :=
  history <- getCurrentSessionHistory None ;;
  ret {| mv_history :=
           String.concat (String (Ascii.ascii_of_nat 10) "")
             ((λ msg, role_text (ConversationMessage.role msg) +:+ ": "
                      +:+ ConversationMessage.content msg) <$> history);
         mv_messages := history |}.

Definition langChainClear : M t unit := clear.

Definition isReady (s : t) : bool := ready s && MemoryInterface.isReady (storage s).
End Manager.
Arguments t B : clear implicits.
End MemoryManager.

(** ** Factory ([utils/factory.ts])

    The factory functions end in [new MemoryManager(config)]; their result
    is represented by the [config] they build.  [process.env] is a finite
    map from variable names to strings. *)

Module Factory.

Record LocalStorageConfig := {
  filePath : string;
  encoding : string;
  prettyPrint : bool
}.

Record S3StorageConfig := {
  bucketName : string;
  s3_region : string;
  s3_accessKeyId : option string;
  s3_secretAccessKey : option string;
  s3_sessionToken : option string;
  prefix : string;
  encryption : option string
}.

Record DynamoDBStorageConfig := {
  tableName : string;
  ddb_region : string;
  ddb_accessKeyId : option string;
  ddb_secretAccessKey : option string;
  ddb_sessionToken : option string;
  endpoint : option string
}.

(** [MemoryConfig]: the [type] tag with the options of that type. *)
Inductive MemoryConfig :=
  | local (options : LocalStorageConfig)
  | s3 (options : S3StorageConfig)
  | dynamodb (options : DynamoDBStorageConfig).

(** [x || d] on an optional string. *)
Definition or_string (x : option string) (d : string) : string :=
  default d (truthy x).

Definition createLocalMemoryManager (path : string)
    (enc : option string) (pretty : option bool) : MemoryConfig :=
  local {| filePath := path;
           encoding := or_string enc "utf8";
           prettyPrint := default false pretty |}.

Definition createS3MemoryManager (bucket reg : string)
    (accessKeyId secretAccessKey sessionToken pre enc : option string) : MemoryConfig :=
  s3 {| bucketName := bucket; s3_region := reg;
        s3_accessKeyId := accessKeyId; s3_secretAccessKey := secretAccessKey;
        s3_sessionToken := sessionToken;
        prefix := or_string pre "langchain-memory";
        encryption := enc |}.

Definition createDynamoDBMemoryManager (table reg : string)
    (accessKeyId secretAccessKey sessionToken ep : option string) : MemoryConfig :=
  dynamodb {| tableName := table; ddb_region := reg;
              ddb_accessKeyId := accessKeyId; ddb_secretAccessKey := secretAccessKey;
              ddb_sessionToken := sessionToken; endpoint := ep |}.

Definition createMemoryManagerFromEnv (env : gmap string string) : Outcome MemoryConfig :=
  let storageType := or_string (env !! "MEMORY_STORAGE_TYPE") "local" in
  if decide (storageType = "local") then
    Returned
      (createLocalMemoryManager
         (or_string (env !! "MEMORY_FILE_PATH") "./memory.json")
         (Some (or_string (env !! "MEMORY_FILE_ENCODING") "utf8"))
         (Some (bool_decide (env !! "MEMORY_FILE_PRETTY_PRINT" = Some "true"))))
  else if decide (storageType = "s3") then
    match truthy (env !! "MEMORY_S3_BUCKET"), truthy (env !! "MEMORY_S3_REGION") with
    | Some bucket, Some reg =>
        Returned
          (createS3MemoryManager bucket reg
             (env !! "MEMORY_S3_ACCESS_KEY_ID")
             (env !! "MEMORY_S3_SECRET_ACCESS_KEY")
             (env !! "MEMORY_S3_SESSION_TOKEN")
             (env !! "MEMORY_S3_PREFIX")
             (env !! "MEMORY_S3_ENCRYPTION"))
    | _, _ =>
        Thrown (Error "S3 storage requires MEMORY_S3_BUCKET and MEMORY_S3_REGION environment variables")
    end
  else if decide (storageType = "dynamodb") then
    match truthy (env !! "MEMORY_DYNAMODB_TABLE"), truthy (env !! "MEMORY_DYNAMODB_REGION") with
    | Some table, Some reg =>
        Returned
          (createDynamoDBMemoryManager table reg
             (env !! "MEMORY_DYNAMODB_ACCESS_KEY_ID")
             (env !! "MEMORY_DYNAMODB_SECRET_ACCESS_KEY")
             (env !! "MEMORY_DYNAMODB_SESSION_TOKEN")
             (env !! "MEMORY_DYNAMODB_ENDPOINT"))
    | _, _ =>
        Thrown (Error "DynamoDB storage requires MEMORY_DYNAMODB_TABLE and MEMORY_DYNAMODB_REGION environment variables")
    end
  else Thrown (Error ("Unsupported storage type: " +:+ storageType)).

Definition createMemoryManager (config : MemoryConfig) : MemoryConfig := config.

End Factory.

(** * Vocabulary of the properties

    Predicates, derived functions and sample states used to state and
    prove the properties below. *)

Definition not_initialized {A} : Outcome A := Thrown (Error "Storage not initialized").

Definition ascending (a b : Message) : Prop :=
  ConversationMessage.timestamp a ≤ ConversationMessage.timestamp b.

(** The stored messages that pass the four filters of [getMessages], in
    stored order. *)
Definition candidates (o : MemoryQueryOptions) (ms : list Message) : list Message :=
  filter_endDate o (filter_startDate o (filter_role o (filter_sessionId o ms))).

(** [m] passes every filter that [getMessages] applies for [o]: a filter
    is applied when its option is truthy. *)
Definition matches (o : MemoryQueryOptions) (m : Message) : Prop :=
  from_option (λ sid, ConversationMessage.sessionId m = sid) True (truthy (q_sessionId o))
  ∧ from_option (λ r, ConversationMessage.role m = r) True (q_role o)
  ∧ from_option (λ d, d ≤ ConversationMessage.timestamp m) True (q_startDate o)
  ∧ from_option (λ d, ConversationMessage.timestamp m ≤ d) True (q_endDate o).

#[global] Instance from_option_True_dec {B} (P : B → Prop) `{!∀ b, Decision (P b)}
  (x : option B) : Decision (from_option P True x).
Proof. destruct x; cbn; apply _. Defined.

#[global] Instance matches_dec o m : Decision (matches o m).
Proof. unfold matches. apply _. Defined.

(** What [paginate] promises about a page [res] cut from the sorted
    matches [all], for a non-negative offset: with a positive limit [L]
    the page holds [min(L, max(0, total - O))] messages and [hasMore] is
    [O + L < total]; with the limit omitted, or [0], the page is
    everything from the offset on and [hasMore] is false.  An omitted
    offset is [0]. *)
Definition pagination_contract
    (o : MemoryQueryOptions) (all : list Message) (res : MemorySearchResult) : Prop :=
  r_total res = Z.of_nat (length all)
  ∧ ∀ O, or_default (q_offset o) 0 = O → 0 ≤ O →
      (∀ L, q_limit o = Some L → 0 < L →
            Z.of_nat (length (r_messages res)) = Z.min L (Z.max 0 (r_total res - O))
            ∧ r_hasMore res = bool_decide (O + L < r_total res))
      ∧ (q_limit o = None →
            r_messages res = drop (Z.to_nat O) all ∧ r_hasMore res = false)
      ∧ (q_limit o = Some 0 →
            r_messages res = drop (Z.to_nat O) all ∧ r_hasMore res = false).

(** The message rows of the table, in scan order. *)
Definition stored_messages (t : gmap DynamoDBStorage.Key DynamoDBStorage.Item) : list Message :=
  omap (λ kv, DynamoDBStorage.item_message (snd kv)) (map_to_list t).

Definition stored_sessions (t : gmap DynamoDBStorage.Key DynamoDBStorage.Item) : list Session :=
  omap (λ kv, DynamoDBStorage.item_session (snd kv)) (map_to_list t).

(** Rows as the class writes them: a message row sits under
    [(MESSAGE#id, SESSION#sessionId)], a session row under
    [(SESSION#id, SESSION#id)]. *)
Definition row_wf (k : DynamoDBStorage.Key) (it : DynamoDBStorage.Item) : Prop :=
  match it with
  | DynamoDBStorage.MessageItem m _ =>
      k = (DynamoDBStorage.MESSAGE (ConversationMessage.id m), DynamoDBStorage.SESSION (ConversationMessage.sessionId m))
  | DynamoDBStorage.SessionItem s =>
      k = (DynamoDBStorage.SESSION (ConversationSession.id s), DynamoDBStorage.SESSION (ConversationSession.id s))
  end.

Definition table_wf (t : gmap DynamoDBStorage.Key DynamoDBStorage.Item) : Prop := map_Forall row_wf t.

Definition sample_runtime : Runtime :=
  {| clock := λ n, Z.of_nat n; clock_reads := 0;
     uuid_source := λ _, "generated-id"; uuid_draws := 0;
     max_arguments := 1000 |}.

Definition hello : Message := ConversationMessage.mk "m1" "s1" user "hi" 5 None.

Definition session_s1 (count : Z) : Session :=
  ConversationSession.mk "s1" None 0 0 count None.

(** An initialized blob store holding one message in session ["s1"]. *)
Definition one_message_store : Runtime * BlobStore :=
  let d := {| messages := [hello]; sessions := [session_s1 1]; lastUpdated := 0 |} in
  (sample_runtime, {| data := d; ready := true; durable := Stored d |}).

(** An initialized blob store holding a session and no message. *)
Definition one_session_store : Runtime * BlobStore :=
  let d := {| messages := []; sessions := [session_s1 0]; lastUpdated := 0 |} in
  (sample_runtime, {| data := d; ready := true; durable := Stored d |}).

(** An initialized, empty blob store. *)
Definition empty_store : Runtime * BlobStore :=
  let d := {| messages := []; sessions := []; lastUpdated := 0 |} in
  (sample_runtime, {| data := d; ready := true; durable := Absent |}).

(** An initialized table holding the row of session ["s1"], with and
    without the row of one message. *)
Definition session_row_table : gmap DynamoDBStorage.Key DynamoDBStorage.Item :=
  <[(DynamoDBStorage.SESSION "s1", DynamoDBStorage.SESSION "s1") := DynamoDBStorage.SessionItem (session_s1 0)]> ∅.

Definition one_message_table : gmap DynamoDBStorage.Key DynamoDBStorage.Item :=
  <[(DynamoDBStorage.MESSAGE "m1", DynamoDBStorage.SESSION "s1") := DynamoDBStorage.MessageItem hello 0]>
    (<[(DynamoDBStorage.SESSION "s1", DynamoDBStorage.SESSION "s1") := DynamoDBStorage.SessionItem (session_s1 1)]> ∅).

Definition empty_table : gmap DynamoDBStorage.Key DynamoDBStorage.Item := ∅.

Definition initialized (t : gmap DynamoDBStorage.Key DynamoDBStorage.Item) : Runtime * DynamoDBStorage.State :=
  (sample_runtime, {| DynamoDBStorage.table := t; DynamoDBStorage.ready := true; DynamoDBStorage.reachable := true |}).

Definition only_session (s : string) : MemoryQueryOptions :=
  {| q_sessionId := Some s; q_limit := None; q_offset := None;
     q_startDate := None; q_endDate := None; q_role := None |}.

(** The record that [getStats] returns for [nsessions] sessions and the
    messages [msgs], [nmessages] in number. *)
Definition stats_record (nsessions : Z) (msgs : list Message) (nmessages : Z) : MemoryStats :=
  {| totalSessions := nsessions;
     totalMessages := nmessages;
     oldestMessage := min_of (ConversationMessage.timestamp <$> msgs);
     newestMessage := max_of (ConversationMessage.timestamp <$> msgs);
     averageMessagesPerSession := average nmessages nsessions |}.

(** A double that is positive: finite and above zero, or infinite. *)
Definition positive_float (x : SpecFloat.spec_float) : Prop :=
  match x with
  | SpecFloat.S754_finite false _ _ | SpecFloat.S754_infinity false => True
  | _ => False
  end.

(** The engine accepts a call that spreads the timestamps of [msgs]. *)
Definition spreadable (rt : Runtime) (msgs : list Message) : Prop :=
  (length msgs ≤ max_arguments rt)%nat.

#[global] Instance spreadable_dec rt msgs : Decision (spreadable rt msgs).
Proof. unfold spreadable. apply _. Defined.

Definition no_message_stats (nsessions : Z) : MemoryStats :=
  {| totalSessions := nsessions; totalMessages := 0;
     oldestMessage := None; newestMessage := None;
     averageMessagesPerSession := 0%float |}.

(** The state after [saveToFile] / [saveToS3] at time [t]. *)
Definition persisted (t : Z) (s : BlobStore) : BlobStore :=
  let d := {| messages := messages (data s); sessions := sessions (data s);
              lastUpdated := t |} in
  {| data := d; ready := ready s; durable := Stored d |}.

(** The clock and the session list after [updateSessionInternal]. *)
Definition upsert_session (sessionId : string) (u : SessionUpdates.t)
    (rt : Runtime) (ss : list Session) : Runtime * list Session :=
  match list_find (session_has_id sessionId) ss with
  | Some (i, old) =>
      (tick rt, <[i := with_updatedAt (now rt) (SessionUpdates.spread old u)]> ss)
  | None =>
      (tick (tick rt),
       (ss ++ [SessionUpdates.spread
                 (ConversationSession.mk sessionId None (now rt) (now (tick rt)) 1 None) u])%list)
  end.

(** The table after a loop of [DeleteCommand]s. *)
Definition delete_all (ks : list DynamoDBStorage.Key)
    (t : gmap DynamoDBStorage.Key DynamoDBStorage.Item)
  : gmap DynamoDBStorage.Key DynamoDBStorage.Item :=
  foldl (λ t k, delete k t) t ks.

Definition renaming (other : string) : SessionUpdates.t :=
  SessionUpdates.mk (Some other) None None None None None.

(** [c] keeps [I]: whatever [c] returns or throws, a state in [I] is left
    in [I]. *)
Definition preserves {S A} (I : S → Prop) (c : M S A) : Prop :=
  ∀ w, I (snd w) → I (snd (snd (c w))).

(** The store is initialized and its table satisfies [J]. *)
Definition on_table (J : gmap DynamoDBStorage.Key DynamoDBStorage.Item → Prop)
    (s : DynamoDBStorage.State) : Prop :=
  DynamoDBStorage.ready s = true ∧ J (DynamoDBStorage.table s).

(** The message list after the upsert in [saveMessage]. *)
Definition upsert_message (m : Message) (ms : list Message) : list Message :=
  match list_find (has_id (ConversationMessage.id m)) ms with
  | Some (i, _) => <[i := m]> ms
  | None => ms ++ [m]
  end.

(** The message as [saveMessage] stores it, and the process state after
    the identifier check. *)
Definition assign_id (rt : Runtime) (m : Message) : Runtime * Message :=
  match truthy (Some (ConversationMessage.id m)) with
  | Some _ => (rt, m)
  | None => (draw rt, ConversationMessage.with_id (fresh_uuid rt) m)
  end.

(** The update that [saveMessage] passes to [updateSessionInternal]. *)
Definition count_update (t : Z) (sid : string) (ms : list Message) : SessionUpdates.t :=
  SessionUpdates.mk None None None (Some t)
    (Some (Z.of_nat (length (of_session sid ms)))) None.

Definition no_active_session {A} : Outcome A :=
  Thrown (Error "No active session. Call startSession() first.").

(** The manager state with its storage replaced. *)
Definition with_storage {B} (b : B) (s : MemoryManager.t B) : MemoryManager.t B :=
  {| MemoryManager.storage := b;
     MemoryManager.currentSessionId := MemoryManager.currentSessionId s;
     MemoryManager.ready := MemoryManager.ready s |}.

(** What the manager makes of the backend's answer to [saveMessage]: the
    identifier of the message on return, the same error on throw. *)
Definition answer {B} (s : MemoryManager.t B)
    (res : Outcome Message * (Runtime * B)) : Outcome string * (Runtime * MemoryManager.t B) :=
  match res with
  | (Returned m, (rt, b)) => (Returned (ConversationMessage.id m), (rt, with_storage b s))
  | (Thrown e, (rt, b)) => (Thrown e, (rt, with_storage b s))
  end.

(** The manager call [save] on state [(rt, s)] returns the identifier
    [i] and leaves the manager with its session pointer as it was; the
    backend then holds the message [msg], its durable blob has been
    written with the data that contain it, and [getMessage] finds [msg]
    under [i]. *)
Definition saved_as (s : MemoryManager.t BlobStore) (rt : Runtime) (i : string)
    (msg : Message) (save : M (MemoryManager.t BlobStore) string) : Prop :=
  ∃ rt' b',
    save (rt, s) = (Returned i, (rt', with_storage b' s))
    ∧ msg ∈ messages (data b')
    ∧ durable b' = Stored (data b')
    ∧ LocalStorage.getMessage i (rt', b') = (Returned (Some msg), (rt', b'))
    ∧ S3Storage.getMessage i (rt', b') = (Returned (Some msg), (rt', b')).

(** The manager call [save] on state [(rt, s)], whose message [msg] was
    built after one draw of an identifier and one read of the clock, puts
    the row of [msg] into the table under [(MESSAGE#id, SESSION#sessionId)]
    and then throws the service's [ValidationException], returning no
    identifier. *)
Definition written_then_rejected (s : MemoryManager.t DynamoDBStorage.State)
    (rt : Runtime) (msg : Message)
    (save : M (MemoryManager.t DynamoDBStorage.State) string) : Prop :=
  save (rt, s)
  = (Thrown ValidationException,
     (tick (tick (draw rt)),
      with_storage
        (DynamoDBStorage.set_table
           (<[(DynamoDBStorage.MESSAGE (ConversationMessage.id msg),
               DynamoDBStorage.SESSION (ConversationMessage.sessionId msg))
              := DynamoDBStorage.MessageItem msg (now (tick (draw rt)))]>
              (DynamoDBStorage.table (MemoryManager.storage s)))
           (MemoryManager.storage s)) s)).

Definition manager_on_s1 : Runtime * MemoryManager.t BlobStore :=
  (sample_runtime,
   {| MemoryManager.storage := snd empty_store;
      MemoryManager.currentSessionId := Some "s1";
      MemoryManager.ready := true |}).

Definition table_manager_on_s1 : Runtime * MemoryManager.t DynamoDBStorage.State :=
  (sample_runtime,
   {| MemoryManager.storage := snd (initialized session_row_table);
      MemoryManager.currentSessionId := Some "s1";
      MemoryManager.ready := true |}).

(** Every session record of [ss] carries the number of messages of [ms]
    that belong to it. *)
Definition counts_ok_on (ss : list Session) (ms : list Message) : Prop :=
  ∀ x, x ∈ ss →
       ConversationSession.messageCount x
       = Z.of_nat (length (of_session (ConversationSession.id x) ms)).

Definition counts_ok (d : StorageData) : Prop := counts_ok_on (sessions d) (messages d).

(** No two session records share an id. *)
Definition unique_sessions (d : StorageData) : Prop :=
  NoDup (ConversationSession.id <$> sessions d).

(** The count that [updateSessionInternal] leaves in the record of
    [sid]: the one among the updates if any, else the one already
    recorded, else the default [1] of a new record. *)
Definition recorded_count (sid : string) (u : SessionUpdates.t) (ss : list Session) : Z :=
  default
    (match find (session_has_id sid) ss with
     | Some old => ConversationSession.messageCount old
     | None => 1
     end)
    (SessionUpdates.messageCount u).

(** The update that [deleteMessage] passes to [updateSessionInternal]. *)
Definition recount (sid : string) (ms : list Message) : SessionUpdates.t :=
  SessionUpdates.mk None None None None
    (Some (Z.of_nat (length (of_session sid ms)))) None.

(** What a mutation that recomputes the count of session [sid] leaves
    behind: [getSession(sid)] finds a record whose [messageCount] is the
    number of stored messages of [sid]. *)
Definition recounted (sid : string) (w' : Runtime * BlobStore) : Prop :=
  ∃ x, LocalStorage.getSession sid w' = (Returned (Some x), w')
       ∧ S3Storage.getSession sid w' = (Returned (Some x), w')
       ∧ ConversationSession.messageCount x
         = Z.of_nat (length (of_session sid (messages (data (snd w'))))).

(** The invariant of the store: unique session ids, and every session
    record carries the number of stored messages of its session. *)
Definition count_invariant (w : Runtime * BlobStore) : Prop :=
  unique_sessions (data (snd w)) ∧ counts_ok (data (snd w)).

(** [c] fails on [w] with the "not initialized" error and changes
    nothing. *)
Definition rejected {S A} (c : M S A) (w : Runtime * S) : Prop :=
  c w = (not_initialized, w).

(** Every operation of the interface, [saveMessages] on a non-empty list
    included, is rejected on [w]. *)
Definition all_rejected {B} (backend : MemoryInterface.IMemoryStorage B)
    (w : Runtime * B) : Prop :=
  (∀ m, rejected (MemoryInterface.saveMessage m) w)
  ∧ (∀ m ms, rejected (MemoryInterface.saveMessages (m :: ms)) w)
  ∧ (∀ o, rejected (MemoryInterface.getMessages o) w)
  ∧ (∀ i, rejected (MemoryInterface.getMessage i) w)
  ∧ rejected MemoryInterface.getSessions w
  ∧ (∀ i, rejected (MemoryInterface.getSession i) w)
  ∧ (∀ i u, rejected (MemoryInterface.updateSession i u) w)
  ∧ (∀ i, rejected (MemoryInterface.deleteMessage i) w)
  ∧ (∀ i, rejected (MemoryInterface.deleteSession i) w)
  ∧ rejected MemoryInterface.getStats w
  ∧ rejected MemoryInterface.clear w.

(** The durable blob holds the data of [w], and a new instance over that
    blob holds the same data once initialized. *)
Definition reloads (w : Runtime * BlobStore) : Prop :=
  durable (snd w) = Stored (data (snd w))
  ∧ ∀ rt,
      LocalStorage.initialize (LocalStorage.create (durable (snd w)) rt)
      = (Returned tt,
         (tick rt, {| data := data (snd w); ready := true; durable := durable (snd w) |}))
      ∧ S3Storage.initialize (S3Storage.create (durable (snd w)) rt)
        = (Returned tt,
           (tick rt, {| data := data (snd w); ready := true; durable := durable (snd w) |})).

(** An uninitialized store over no blob and an uninitialized table. *)
Definition fresh_store : Runtime * BlobStore := LocalStorage.create Absent sample_runtime.

Definition uninitialized_table : Runtime * DynamoDBStorage.State :=
  (sample_runtime, DynamoDBStorage.create empty_table true).

(** No two stored messages share an id. *)
Definition unique_messages (d : StorageData) : Prop :=
  NoDup (ConversationMessage.id <$> messages d).

(** A second sample message, a later reply in session ["s1"]. *)
Definition reply : Message := ConversationMessage.mk "m2" "s1" assistant "hello" 7 None.

(** The session row that the wide-column [updateSession] writes for the
    merged record [x]: the [id] attribute is the requested id. *)
Definition under_id (sid : string) (x : Session) : Session :=
  ConversationSession.mk sid
    (ConversationSession.title x) (ConversationSession.createdAt x)
    (ConversationSession.updatedAt x) (ConversationSession.messageCount x)
    (ConversationSession.metadata x).

(** Most recently updated first. *)
Definition newest_first (a b : Session) : Prop :=
  ConversationSession.updatedAt b ≤ ConversationSession.updatedAt a.

(** The query [o] with its page set to offset [O] and limit [L]. *)
Definition with_page (o : MemoryQueryOptions) (O L : Z) : MemoryQueryOptions :=
  {| q_sessionId := q_sessionId o; q_limit := Some L; q_offset := Some O;
     q_startDate := q_startDate o; q_endDate := q_endDate o; q_role := q_role o |}.

(** [lo] and [hi] are the least and the greatest timestamp among [ms],
    each carried by a message of [ms]. *)
Definition extremes (ms : list Message) (lo hi : Z) : Prop :=
  (∃ m, m ∈ ms ∧ ConversationMessage.timestamp m = lo)
  ∧ (∃ m, m ∈ ms ∧ ConversationMessage.timestamp m = hi)
  ∧ ∀ m, m ∈ ms → lo ≤ ConversationMessage.timestamp m ≤ hi.

(** Two sessions and three messages for sample states. *)
Definition session_s2 : Session := ConversationSession.mk "s2" None 3 9 0 None.

Definition two_session_store : Runtime * BlobStore :=
  let d := {| messages := [reply; hello]; sessions := [session_s1 2; session_s2];
              lastUpdated := 0 |} in
  (sample_runtime, {| data := d; ready := true; durable := Stored d |}).

(** The table holds no row for session [sid]. *)
Definition no_session_row (sid : string)
    (t : gmap DynamoDBStorage.Key DynamoDBStorage.Item) : Prop :=
  t !! (DynamoDBStorage.SESSION sid, DynamoDBStorage.SESSION sid) = None.

(** Three sessions and one message: an average that no double holds
    exactly. *)
Definition three_session_store : Runtime * BlobStore :=
  let d := {| messages := [hello];
              sessions := [session_s1 1; session_s2;
                           ConversationSession.mk "s3" None 4 4 0 None];
              lastUpdated := 0 |} in
  (sample_runtime, {| data := d; ready := true; durable := Stored d |}).

(** Updates that carry a title and an [updatedAt] of their own. *)
Definition retitle : SessionUpdates.t :=
  SessionUpdates.mk None (Some (Some "T")) None (Some 99) None None.

(** [hello] as a message of session ["s2"]. *)
Definition hello_s2 : Message := ConversationMessage.mk "m3" "s2" user "hi" 5 None.

(** The manager state with its session pointer replaced. *)
Definition with_pointer {B} (p : option string) (s : MemoryManager.t B) : MemoryManager.t B :=
  {| MemoryManager.storage := MemoryManager.storage s;
     MemoryManager.currentSessionId := p;
     MemoryManager.ready := MemoryManager.ready s |}.

(** A manager over the store [two_session_store], in session ["s1"]. *)
Definition manager_with_history : Runtime * MemoryManager.t BlobStore :=
  (sample_runtime,
   {| MemoryManager.storage := snd two_session_store;
      MemoryManager.currentSessionId := Some "s1";
      MemoryManager.ready := true |}).

(** [rt'] is the process state [rt] after [d] more identifiers were drawn
    and the clock was read at least once more. *)
Definition advanced (d : nat) (rt rt' : Runtime) : Prop :=
  clock rt' = clock rt
  ∧ uuid_source rt' = uuid_source rt
  ∧ uuid_draws rt' = (uuid_draws rt + d)%nat
  ∧ (clock_reads rt < clock_reads rt')%nat.

(** [output || response || text || result] of the adapter, when truthy. *)
Definition chosen_output (o : OutputValues) : option string :=
  truthy (or_else (ov_output o)
            (or_else (ov_response o) (or_else (ov_text o) (ov_result o)))).

(** The two messages of a conversation turn in session [sid], saved from
    the process state [rt]; [t2] is the time of the second save. *)
Definition turn_user (rt : Runtime) (sid q : string) : Message :=
  ConversationMessage.mk (fresh_uuid rt) sid user q (now rt) None.

Definition turn_assistant (rt : Runtime) (sid a : string) (t2 : Z) : Message :=
  ConversationMessage.mk (fresh_uuid (draw rt)) sid assistant a t2 None.

(** The clock never goes back. *)
Definition monotone_clock (rt : Runtime) : Prop :=
  ∀ a b, (a ≤ b)%nat → clock rt a ≤ clock rt b.

(** The line of a message in the [history] string. *)
Definition history_line (m : Message) : string :=
  role_text (ConversationMessage.role m) +:+ ": " +:+ ConversationMessage.content m.

(** A runtime whose identifiers differ from draw to draw. *)
Definition counting_runtime : Runtime :=
  {| clock := λ n, Z.of_nat n; clock_reads := 0;
     uuid_source := λ n, if decide (n = 0%nat) then "id-0" else "id-1"; uuid_draws := 0;
     max_arguments := 1000 |}.

(** A promise chain that is started and not awaited: it runs, and its
    caller sees neither its result nor its rejection. *)
Definition unawaited {S A} (c : M S A) : M S unit :=
  λ w, (Returned tt, snd (c w)).

(** [startSession] together with the promise chain it starts
    ([this.storage.getSession(id).then(...)]), when that chain settles
    before anything else uses the manager. *)
Definition startSession_settled {B} {backend : MemoryInterface.IMemoryStorage B}
    (sessionId title : option string) : M (MemoryManager.t B) string :=
  id <- MemoryManager.startSession sessionId title ;;
  unawaited (session <- MemoryManager.on_storage (MemoryInterface.getSession id) ;;
             MemoryManager.startSession_then id title session) ;;
  ret id.

(** A manager constructed over a new file-backed store for [file]. *)
Definition new_manager (file : Durable) (rt : Runtime) : Runtime * MemoryManager.t BlobStore :=
  (fst (LocalStorage.create file rt), MemoryManager.create (snd (LocalStorage.create file rt))).

(** The environment has no usable value for [name]: unset or empty. *)
Definition unset (env : gmap string string) (name : string) : Prop :=
  truthy (env !! name) = None.

(** * Properties *)

(** ** Running computations *)

Lemma bind_run {S A B} (c : M S A) (k : A → M S B) w a w' :
  c w = (Returned a, w') → bind c k w = k a w'.
Proof. unfold bind. by intros ->. Qed.

Lemma bind_thrown {S A B} (c : M S A) (k : A → M S B) w e w' :
  c w = (Thrown e, w') → bind c k w = (Thrown e, w').
Proof. unfold bind. by intros ->. Qed.

(** [S3Storage] is [LocalStorage] method by method, except for the text
    of the initialization error. *)
Lemma S3Storage_as_LocalStorage :
  S3Storage.check_ready = LocalStorage.check_ready
  ∧ S3Storage.saveMessage = LocalStorage.saveMessage
  ∧ S3Storage.saveMessages = LocalStorage.saveMessages
  ∧ S3Storage.getMessages = LocalStorage.getMessages
  ∧ S3Storage.getMessage = LocalStorage.getMessage
  ∧ S3Storage.getSessions = LocalStorage.getSessions
  ∧ S3Storage.getSession = LocalStorage.getSession
  ∧ S3Storage.updateSession = LocalStorage.updateSession
  ∧ S3Storage.deleteMessage = LocalStorage.deleteMessage
  ∧ S3Storage.deleteSession = LocalStorage.deleteSession
  ∧ S3Storage.getStats = LocalStorage.getStats
  ∧ S3Storage.clear = LocalStorage.clear.
Proof. repeat split. Qed.

(** ** The readiness guard *)

Lemma Local_check_ready_ok rt s :
  ready s = true → LocalStorage.check_ready (rt, s) = (Returned tt, (rt, s)).
Proof. unfold LocalStorage.check_ready, bind, get. cbn. by intros ->. Qed.

Lemma Local_check_ready_fail rt s :
  ready s = false → LocalStorage.check_ready (rt, s) = (not_initialized, (rt, s)).
Proof. unfold LocalStorage.check_ready, bind, get. cbn. by intros ->. Qed.

Lemma Dynamo_check_ready_ok rt s :
  DynamoDBStorage.ready s = true →
  DynamoDBStorage.check_ready (rt, s) = (Returned tt, (rt, s)).
Proof. unfold DynamoDBStorage.check_ready, bind, get. cbn. by intros ->. Qed.

Lemma Dynamo_check_ready_fail rt s :
  DynamoDBStorage.ready s = false →
  DynamoDBStorage.check_ready (rt, s) = (not_initialized, (rt, s)).
Proof. unfold DynamoDBStorage.check_ready, bind, get. cbn. by intros ->. Qed.

(** A method that starts with the guard throws and changes nothing when
    the store is not ready. *)
Lemma Local_guarded_fail {A} (k : M BlobStore A) rt s :
  ready s = false →
  bind LocalStorage.check_ready (λ _, k) (rt, s) = (not_initialized, (rt, s)).
Proof. intros H. by rewrite (bind_thrown _ _ _ _ _ (Local_check_ready_fail rt s H)). Qed.

Lemma Local_guarded_ok {A} (k : M BlobStore A) rt s :
  ready s = true →
  bind LocalStorage.check_ready (λ _, k) (rt, s) = k (rt, s).
Proof. intros H. by rewrite (bind_run _ _ _ _ _ (Local_check_ready_ok rt s H)). Qed.

Lemma Dynamo_guarded_fail {A} (k : M DynamoDBStorage.State A) rt s :
  DynamoDBStorage.ready s = false →
  bind DynamoDBStorage.check_ready (λ _, k) (rt, s) = (not_initialized, (rt, s)).
Proof. intros H. by rewrite (bind_thrown _ _ _ _ _ (Dynamo_check_ready_fail rt s H)). Qed.

Lemma Dynamo_guarded_ok {A} (k : M DynamoDBStorage.State A) rt s :
  DynamoDBStorage.ready s = true →
  bind DynamoDBStorage.check_ready (λ _, k) (rt, s) = k (rt, s).
Proof. intros H. by rewrite (bind_run _ _ _ _ _ (Dynamo_check_ready_ok rt s H)). Qed.

(** Every guarded method of the file-backed store fails with the
    "not initialized" error before [initialize] and leaves the state as
    it was. *)
Lemma Local_not_initialized rt s :
  ready s = false →
  (∀ m, LocalStorage.saveMessage m (rt, s) = (not_initialized, (rt, s)))
  ∧ (∀ m ms, LocalStorage.saveMessages (m :: ms) (rt, s) = (not_initialized, (rt, s)))
  ∧ (∀ o, LocalStorage.getMessages o (rt, s) = (not_initialized, (rt, s)))
  ∧ (∀ i, LocalStorage.getMessage i (rt, s) = (not_initialized, (rt, s)))
  ∧ LocalStorage.getSessions (rt, s) = (not_initialized, (rt, s))
  ∧ (∀ i, LocalStorage.getSession i (rt, s) = (not_initialized, (rt, s)))
  ∧ (∀ i u, LocalStorage.updateSession i u (rt, s) = (not_initialized, (rt, s)))
  ∧ (∀ i, LocalStorage.deleteMessage i (rt, s) = (not_initialized, (rt, s)))
  ∧ (∀ i, LocalStorage.deleteSession i (rt, s) = (not_initialized, (rt, s)))
  ∧ LocalStorage.getStats (rt, s) = (not_initialized, (rt, s))
  ∧ LocalStorage.clear (rt, s) = (not_initialized, (rt, s)).
Proof.
  intros H. repeat split; intros;
    try (by apply Local_guarded_fail).
  unfold LocalStorage.saveMessages. cbn [for_of].
  erewrite bind_thrown; [done|].
  erewrite bind_thrown; [done|]. by apply Local_guarded_fail.
Qed.

Lemma Dynamo_not_initialized rt s :
  DynamoDBStorage.ready s = false →
  (∀ m, DynamoDBStorage.saveMessage m (rt, s) = (not_initialized, (rt, s)))
  ∧ (∀ m ms, DynamoDBStorage.saveMessages (m :: ms) (rt, s) = (not_initialized, (rt, s)))
  ∧ (∀ o, DynamoDBStorage.getMessages o (rt, s) = (not_initialized, (rt, s)))
  ∧ (∀ i, DynamoDBStorage.getMessage i (rt, s) = (not_initialized, (rt, s)))
  ∧ DynamoDBStorage.getSessions (rt, s) = (not_initialized, (rt, s))
  ∧ (∀ i, DynamoDBStorage.getSession i (rt, s) = (not_initialized, (rt, s)))
  ∧ (∀ i u, DynamoDBStorage.updateSession i u (rt, s) = (not_initialized, (rt, s)))
  ∧ (∀ i, DynamoDBStorage.deleteMessage i (rt, s) = (not_initialized, (rt, s)))
  ∧ (∀ i, DynamoDBStorage.deleteSession i (rt, s) = (not_initialized, (rt, s)))
  ∧ DynamoDBStorage.getStats (rt, s) = (not_initialized, (rt, s))
  ∧ DynamoDBStorage.clear (rt, s) = (not_initialized, (rt, s)).
Proof.
  intros H. repeat split; intros;
    try (by apply Dynamo_guarded_fail).
  unfold DynamoDBStorage.saveMessages. cbn [for_of].
  erewrite bind_thrown; [done|].
  erewrite bind_thrown; [done|]. by apply Dynamo_guarded_fail.
Qed.

(** C6, at the input where the code departs from it: [saveMessages] has
    no guard of its own, so on a store that was never initialized
    [saveMessages([])] runs an empty loop and returns normally instead of
    failing with the "not initialized" error.  This holds in the
    file-backed, the object-storage and the wide-column class alike. *)
Theorem saveMessages_empty_before_initialize :
  ∀ (rt : Runtime) (blob : Durable) (rows : gmap DynamoDBStorage.Key DynamoDBStorage.Item),
    let local := LocalStorage.create blob rt in
    let s3 := S3Storage.create blob rt in
    let dynamo := (rt, DynamoDBStorage.create rows false) in
    LocalStorage.isReady (snd local) = false
    ∧ LocalStorage.saveMessages [] local = (Returned tt, local)
    ∧ S3Storage.isReady (snd s3) = false
    ∧ S3Storage.saveMessages [] s3 = (Returned tt, s3)
    ∧ DynamoDBStorage.isReady (snd dynamo) = false
    ∧ DynamoDBStorage.saveMessages [] dynamo = (Returned tt, dynamo).
Proof. intros. repeat split. Qed.

(** ** Sorting and slicing *)

Lemma sort_insert_Permutation {A} (cmp : A → A → Z) x l :
  sort_insert cmp x l ≡ₚ x :: l.
Proof.
  induction l as [|y l IH]; cbn; [done|].
  case_decide; [done|]. rewrite IH. apply Permutation_swap.
Qed.

Lemma sort_Permutation {A} (cmp : A → A → Z) l : sort cmp l ≡ₚ l.
Proof.
  induction l as [|x l IH]; cbn; [done|].
  fold (sort cmp l). by rewrite sort_insert_Permutation, IH.
Qed.

Lemma sort_elem_of {A} (cmp : A → A → Z) l x : x ∈ sort cmp l ↔ x ∈ l.
Proof. by rewrite (sort_Permutation cmp l). Qed.

Lemma sort_insert_ascending x l :
  StronglySorted ascending l → StronglySorted ascending (sort_insert by_timestamp x l).
Proof.
  induction 1 as [|y l Hl IH Hy]; cbn.
  - repeat constructor.
  - case_decide as Hc.
    + constructor; [by constructor|].
      constructor; [unfold ascending, by_timestamp in *; lia|].
      eapply Forall_impl; [exact Hy|].
      unfold ascending, by_timestamp in *. intros; lia.
    + constructor; [done|].
      rewrite (sort_insert_Permutation by_timestamp x l).
      constructor; [unfold ascending, by_timestamp in *; lia|done].
Qed.

Lemma sort_ascending l : StronglySorted ascending (sort by_timestamp l).
Proof.
  induction l as [|x l IH]; cbn; [constructor|].
  by apply sort_insert_ascending.
Qed.

Lemma slice_length {A} (a b : Z) (l : list A) :
  0 ≤ a → a ≤ b →
  Z.of_nat (length (slice a b l))
  = Z.min (b - a) (Z.max 0 (Z.of_nat (length l) - a)).
Proof.
  intros Ha Hb. unfold slice.
  rewrite !decide_False by lia.
  rewrite length_take, length_drop. lia.
Qed.

Lemma slice_all {A} (l : list A) : slice 0 (0 + Z.of_nat (length l)) l = l.
Proof.
  unfold slice. rewrite !decide_False by lia.
  replace (Z.min 0 (Z.of_nat (length l))) with 0 by lia.
  replace (Z.min (0 + Z.of_nat (length l)) (Z.of_nat (length l)))
    with (Z.of_nat (length l)) by lia.
  rewrite Z.sub_0_r, Nat2Z.id. cbn. apply firstn_all.
Qed.

(** ** Reading from the file-backed store *)

Lemma Local_getMessages_run o rt s :
  ready s = true →
  LocalStorage.getMessages o (rt, s)
  = (Returned (paginate o (sort by_timestamp (candidates o (messages (data s))))), (rt, s)).
Proof. intros H. unfold LocalStorage.getMessages. by rewrite Local_guarded_ok. Qed.

Lemma Local_getMessage_run i rt s :
  ready s = true →
  LocalStorage.getMessage i (rt, s)
  = (Returned (find (has_id i) (messages (data s))), (rt, s)).
Proof. intros H. unfold LocalStorage.getMessage. by rewrite Local_guarded_ok. Qed.

Lemma Local_getSession_run i rt s :
  ready s = true →
  LocalStorage.getSession i (rt, s)
  = (Returned (find (session_has_id i) (sessions (data s))), (rt, s)).
Proof. intros H. unfold LocalStorage.getSession. by rewrite Local_guarded_ok. Qed.

Lemma Local_getSessions_run rt s :
  ready s = true →
  LocalStorage.getSessions (rt, s)
  = (Returned (sort (λ a b, ConversationSession.updatedAt b - ConversationSession.updatedAt a)
                    (sessions (data s))), (rt, s)).
Proof. intros H. unfold LocalStorage.getSessions. by rewrite Local_guarded_ok. Qed.

(** ** Doubles

    The double of a positive count is positive, so that zero divided by
    it is zero. *)

Lemma iter_pos_nat {A} (f : A → A) p x :
  SpecFloat.iter_pos f p x = Nat.iter (Pos.to_nat p) f x.
Proof.
  revert x. induction p as [p IH|p IH|]; intros x; cbn [SpecFloat.iter_pos].
  - rewrite !IH. rewrite <-Nat.iter_add, <-Nat.iter_succ_r. f_equal. lia.
  - rewrite !IH. rewrite <-Nat.iter_add. f_equal. lia.
  - done.
Qed.

Lemma shr_1_iter_positive k : ∀ r m,
  SpecFloat.shr_m r = Z.pos m → (k < Pos.to_nat (SpecFloat.digits2_pos m))%nat →
  ∃ m', SpecFloat.shr_m (Nat.iter k SpecFloat.shr_1 r) = Z.pos m'.
Proof.
  induction k as [|k IH]; intros r m Hr Hk; [by exists m|].
  rewrite Nat.iter_succ_r. destruct r as [mz rb sb]. cbn in Hr. subst mz.
  destruct m as [p|p|]; cbn [SpecFloat.digits2_pos] in Hk.
  - apply (IH _ p); [done|lia].
  - apply (IH _ p); [done|lia].
  - cbn in Hk. lia.
Qed.

Lemma shr_fexp_positive m e l :
  SpecFloat.emin prec emax ≤ e →
  ∃ m', SpecFloat.shr_m (fst (SpecFloat.shr_fexp prec emax (Z.pos m) e l)) = Z.pos m'
        ∧ SpecFloat.emin prec emax ≤ snd (SpecFloat.shr_fexp prec emax (Z.pos m) e l).
Proof.
  intros He. unfold SpecFloat.shr_fexp, SpecFloat.shr.
  assert (Hrec : SpecFloat.shr_m (SpecFloat.shr_record_of_loc (Z.pos m) l) = Z.pos m)
    by (destruct l as [|[]]; done).
  destruct (SpecFloat.fexp prec emax (SpecFloat.Zdigits2 (Z.pos m) + e) - e) as [|q|q] eqn:E;
    cbn [fst snd]; [by exists m|..|by exists m].
  rewrite iter_pos_nat.
  destruct (shr_1_iter_positive (Pos.to_nat q) _ m Hrec) as [m' Hm'].
  { unfold SpecFloat.fexp, SpecFloat.emin, prec, emax in *.
    cbn [SpecFloat.Zdigits2] in E. lia. }
  exists m'. split; [done|lia].
Qed.

Lemma binary_normalize_positive p :
  positive_float (SpecFloat.binary_normalize prec emax (Z.pos p) 0 false).
Proof.
  unfold SpecFloat.binary_normalize, SpecFloat.binary_round.
  destruct (SpecFloat.shl_align p 0 _) as [mz ez] eqn:Ea.
  assert (Hez : SpecFloat.emin prec emax ≤ ez).
  { unfold SpecFloat.shl_align, SpecFloat.fexp in Ea.
    destruct (_ - 0) eqn:E in Ea; injection Ea as <- <-;
      unfold SpecFloat.emin, prec, emax in *; lia. }
  unfold SpecFloat.binary_round_aux.
  destruct (shr_fexp_positive mz ez SpecFloat.loc_Exact Hez) as (m1 & H1 & He1).
  destruct (SpecFloat.shr_fexp prec emax (Z.pos mz) ez SpecFloat.loc_Exact) as [mrs1 e1].
  cbn [fst snd] in H1, He1.
  assert (∃ m2, SpecFloat.round_nearest_even (SpecFloat.shr_m mrs1)
                  (SpecFloat.loc_of_shr_record mrs1) = Z.pos m2) as [m2 H2].
  { rewrite H1. unfold SpecFloat.round_nearest_even.
    destruct (SpecFloat.loc_of_shr_record mrs1) as [|[]]; try destruct (Z.even _); eauto. }
  rewrite H2.
  destruct (shr_fexp_positive m2 e1 SpecFloat.loc_Exact He1) as (m3 & H3 & _).
  destruct (SpecFloat.shr_fexp prec emax (Z.pos m2) e1 SpecFloat.loc_Exact) as [mrs2 e2].
  cbn [fst] in H3. rewrite H3. by destruct (_ <=? _).
Qed.

Lemma zero_div_number n : 0 < n → (number 0 / number n)%float = 0%float.
Proof.
  intros Hn. apply Prim2SF_inj. rewrite FloatAxioms.div_spec. unfold number at 2.
  rewrite FloatAxioms.of_uint63_spec, Uint63.of_Z_spec.
  assert (Hw : wB = 2 ^ 63) by reflexivity.
  rewrite Z.mod_small by lia.
  destruct (Z.max 0 (Z.min n (2 ^ 63 - 1))) as [|p|p] eqn:E; [lia| |lia].
  pose proof (binary_normalize_positive p) as Hp.
  destruct (SpecFloat.binary_normalize prec emax (Z.pos p) 0 false) as [| [] | | [] ? ?];
    cbn in Hp; try done.
Qed.

Lemma average_of_none n : average 0 n = 0%float.
Proof. unfold average. case_decide; [by apply zero_div_number|done]. Qed.

Lemma stats_record_no_messages n : stats_record n [] 0 = no_message_stats n.
Proof. unfold stats_record, no_message_stats. cbn. f_equal. apply average_of_none. Qed.

(** ** The statistics *)

Lemma spread_call_run {S A} (f : list Z → A) ts rt (s : S) :
  (length ts ≤ max_arguments rt)%nat →
  spread_call f ts (rt, s) = (Returned (f ts), (rt, s)).
Proof. intros H. unfold spread_call. cbn [fst]. by rewrite decide_True. Qed.

Lemma spread_call_overflow {S A} (f : list Z → A) ts rt (s : S) :
  (max_arguments rt < length ts)%nat →
  spread_call f ts (rt, s) = (Thrown RangeError, (rt, s)).
Proof. intros H. unfold spread_call. cbn [fst]. rewrite decide_False; [done|lia]. Qed.

Lemma stats_of_run {S} n msgs k rt (s : S) :
  spreadable rt msgs →
  stats_of n msgs k (rt, s) = (Returned (stats_record n msgs k), (rt, s)).
Proof.
  unfold spreadable, stats_of, extreme, stats_record. intros H.
  rewrite length_fmap. destruct msgs as [|m msgs]; [done|].
  rewrite decide_True by (cbn; lia).
  set (ts := ConversationMessage.timestamp <$> m :: msgs).
  assert (Hts : (length ts ≤ max_arguments rt)%nat) by (unfold ts; by rewrite length_fmap).
  rewrite (bind_run _ _ _ _ _ (spread_call_run min_of ts rt s Hts)).
  by rewrite (bind_run _ _ _ _ _ (spread_call_run max_of ts rt s Hts)).
Qed.

Lemma stats_of_overflow {S} n msgs k rt (s : S) :
  ¬ spreadable rt msgs →
  stats_of n msgs k (rt, s) = (Thrown RangeError, (rt, s)).
Proof.
  unfold spreadable, stats_of, extreme. intros H.
  rewrite length_fmap. rewrite decide_True by lia.
  apply bind_thrown, spread_call_overflow. rewrite length_fmap. lia.
Qed.

Lemma stats_of_state {S} n msgs k (w : Runtime * S) :
  ∃ r, stats_of n msgs k w = (r, w).
Proof.
  destruct w as [rt s]. destruct (decide (spreadable rt msgs)) as [H|H].
  - eexists. by apply stats_of_run.
  - eexists. by apply stats_of_overflow.
Qed.

Lemma Local_getStats_run rt s :
  ready s = true →
  LocalStorage.getStats (rt, s)
  = stats_of (Z.of_nat (length (sessions (data s)))) (messages (data s))
             (Z.of_nat (length (messages (data s)))) (rt, s).
Proof. intros H. unfold LocalStorage.getStats. by rewrite Local_guarded_ok. Qed.

(** C10: on an initialized file-backed or object-storage store the five
    read operations leave the whole state (messages, sessions, their
    fields, the durable mirror, and the process state) as it was.
    [getMessages], [getMessage], [getSession] and [getSessions] return
    normally; so does [getStats] when the engine accepts a call with as
    many arguments as there are stored messages, and otherwise it throws,
    the state unchanged all the same. *)
Theorem reads_leave_state_unchanged :
  ∀ (w : Runtime * BlobStore),
    ready (snd w) = true →
    (∀ o, ∃ r, LocalStorage.getMessages o w = (Returned r, w))
    ∧ (∀ i, ∃ r, LocalStorage.getMessage i w = (Returned r, w))
    ∧ (∀ i, ∃ r, LocalStorage.getSession i w = (Returned r, w))
    ∧ (∃ r, LocalStorage.getSessions w = (Returned r, w))
    ∧ (∃ r, LocalStorage.getStats w = (r, w))
    ∧ (spreadable (fst w) (messages (data (snd w))) →
       ∃ r, LocalStorage.getStats w = (Returned r, w))
    ∧ (∀ o, ∃ r, S3Storage.getMessages o w = (Returned r, w))
    ∧ (∀ i, ∃ r, S3Storage.getMessage i w = (Returned r, w))
    ∧ (∀ i, ∃ r, S3Storage.getSession i w = (Returned r, w))
    ∧ (∃ r, S3Storage.getSessions w = (Returned r, w))
    ∧ (∃ r, S3Storage.getStats w = (r, w))
    ∧ (spreadable (fst w) (messages (data (snd w))) →
       ∃ r, S3Storage.getStats w = (Returned r, w)).
Proof.
  intros [rt s] H. cbn [fst snd] in *.
  assert (Hl :
    (∀ o, ∃ r, LocalStorage.getMessages o (rt, s) = (Returned r, (rt, s)))
    ∧ (∀ i, ∃ r, LocalStorage.getMessage i (rt, s) = (Returned r, (rt, s)))
    ∧ (∀ i, ∃ r, LocalStorage.getSession i (rt, s) = (Returned r, (rt, s)))
    ∧ (∃ r, LocalStorage.getSessions (rt, s) = (Returned r, (rt, s)))
    ∧ (∃ r, LocalStorage.getStats (rt, s) = (r, (rt, s)))
    ∧ (spreadable rt (messages (data s)) →
       ∃ r, LocalStorage.getStats (rt, s) = (Returned r, (rt, s)))).
  { split; [|split; [|split; [|split; [|split]]]].
    - intros o. eexists. by apply Local_getMessages_run.
    - intros i. eexists. by apply Local_getMessage_run.
    - intros i. eexists. by apply Local_getSession_run.
    - eexists. by apply Local_getSessions_run.
    - rewrite Local_getStats_run by done. apply stats_of_state.
    - intros Hs. rewrite Local_getStats_run by done. eexists.
      by apply stats_of_run. }
  destruct Hl as (H1 & H2 & H3 & H4 & H5 & H6).
  split; [exact H1|]. split; [exact H2|]. split; [exact H3|]. split; [exact H4|].
  split; [exact H5|]. split; [exact H6|].
  split; [exact H1|]. split; [exact H2|]. split; [exact H3|]. split; [exact H4|].
  split; [exact H5|exact H6].
Qed.

(** ** The filters as one predicate *)

Lemma filter_True_id {A} (l : list A) : filter (λ _, True) l = l.
Proof.
  induction l as [|x l IH]; [done|].
  by rewrite filter_cons_True, IH.
Qed.

Lemma filter_option {A B} (x : option B) (P : B → A → Prop)
    `{!∀ b a, Decision (P b a)} (l : list A) :
  match x with Some b => filter (P b) l | None => l end
  = filter (λ a, from_option (λ b, P b a) True x) l.
Proof. destruct x; cbn; [done|]. by rewrite filter_True_id. Qed.

Lemma candidates_filter o ms : candidates o ms = filter (matches o) ms.
Proof.
  unfold candidates, filter_endDate, filter_startDate, filter_role, filter_sessionId.
  rewrite (filter_option (truthy (q_sessionId o))
             (λ sid m, ConversationMessage.sessionId m = sid)).
  rewrite (filter_option (q_role o) (λ r m, ConversationMessage.role m = r)).
  rewrite (filter_option (q_startDate o) (λ d m, d ≤ ConversationMessage.timestamp m)).
  rewrite (filter_option (q_endDate o) (λ d m, ConversationMessage.timestamp m ≤ d)).
  rewrite !list_filter_filter.
  apply list_filter_iff. unfold matches. tauto.
Qed.

(** ** Pagination *)

Lemma paginate_contract o all : pagination_contract o all (paginate o all).
Proof.
  split; [done|]. intros O HO Hpos.
  assert (Hall : or_default (q_limit o) (Z.of_nat (length all)) = Z.of_nat (length all) →
                 r_messages (paginate o all) = drop (Z.to_nat O) all
                 ∧ r_hasMore (paginate o all) = false).
  { intros Hlim. unfold paginate. cbn [r_messages r_hasMore]. rewrite HO, Hlim. split.
    + unfold slice. rewrite !decide_False by lia.
      rewrite take_ge by (rewrite length_drop; lia).
      destruct (decide (O ≤ Z.of_nat (length all))).
      * f_equal. lia.
      * rewrite !drop_ge; [done|lia..].
    + apply bool_decide_eq_false. lia. }
  split; [|split].
  - intros L HL HLpos. unfold paginate. cbn. rewrite HO, HL. cbn.
    rewrite decide_False by lia. split; [|done].
    rewrite slice_length by lia. lia.
  - intros HL. apply Hall. by rewrite HL.
  - intros HL. apply Hall. rewrite HL. cbn. by rewrite decide_True.
Qed.

(** ** Reading from the wide-column table *)

Lemma SESSION_inj a b : DynamoDBStorage.SESSION a = DynamoDBStorage.SESSION b → a = b.
Proof. unfold DynamoDBStorage.SESSION. intros [= H]. exact H. Qed.

Lemma MESSAGE_not_SESSION a b : DynamoDBStorage.MESSAGE a ≠ DynamoDBStorage.SESSION b.
Proof. unfold DynamoDBStorage.MESSAGE, DynamoDBStorage.SESSION. by intros [=]. Qed.

Lemma begins_with_MESSAGE i : DynamoDBStorage.begins_with (DynamoDBStorage.MESSAGE i) "MESSAGE#".
Proof. unfold DynamoDBStorage.begins_with, DynamoDBStorage.MESSAGE. by destruct i. Qed.

(** On well-formed rows a key condition selects the same messages as the
    corresponding condition on the attributes. *)
Lemma omap_filter_rows (Q : DynamoDBStorage.Key * DynamoDBStorage.Item → Prop) `{!∀ kv, Decision (Q kv)}
    (P : Message → Prop) `{!∀ m, Decision (P m)} (rows : list (DynamoDBStorage.Key * DynamoDBStorage.Item)) :
  Forall (λ kv, row_wf (fst kv) (snd kv)) rows →
  (∀ m c, Q ((DynamoDBStorage.MESSAGE (ConversationMessage.id m), DynamoDBStorage.SESSION (ConversationMessage.sessionId m)),
             DynamoDBStorage.MessageItem m c) ↔ P m) →
  omap (λ kv, DynamoDBStorage.item_message (snd kv)) (filter Q rows)
  = filter P (omap (λ kv, DynamoDBStorage.item_message (snd kv)) rows).
Proof.
  intros Hwf HQP. induction Hwf as [|[k it] rows Hrow _ IH]; [done|].
  rewrite filter_cons. destruct it as [m c|s]; cbn in Hrow; subst k; cbn.
  - destruct (decide (Q _)) as [HQ|HQ]; cbn.
    + rewrite decide_True by (by eapply HQP). by rewrite IH.
    + rewrite decide_False by (by rewrite <-(HQP m c)). done.
  - destruct (decide (Q _)); cbn; by rewrite IH.
Qed.

Lemma table_wf_rows t :
  table_wf t → Forall (λ kv, row_wf (fst kv) (snd kv)) (map_to_list t).
Proof.
  intros H. apply map_Forall_to_list in H.
  eapply Forall_impl; [exact H|]. by intros [k it].
Qed.

(** Without a session id [getMessages] scans the table. *)
Lemma Dynamo_getMessages_run o rt s :
  DynamoDBStorage.ready s = true → table_wf (DynamoDBStorage.table s) →
  truthy (q_sessionId o) = None →
  DynamoDBStorage.getMessages o (rt, s)
  = (Returned (paginate o (sort by_timestamp (candidates o (stored_messages (DynamoDBStorage.table s))))),
     (rt, s)).
Proof.
  intros Hr Hwf Hs. unfold DynamoDBStorage.getMessages.
  rewrite Dynamo_guarded_ok by done.
  unfold candidates, filter_sessionId, stored_messages.
  apply table_wf_rows in Hwf. rewrite Hs.
  unfold DynamoDBStorage.rows_where, bind, get, ret; cbn. do 7 f_equal.
  rewrite <-(filter_True_id (omap _ (map_to_list _))).
  apply (omap_filter_rows _ (λ _, True)); [done|].
  intros m c. cbn. split; [done|]. intros _. apply begins_with_MESSAGE.
Qed.

(** With a session id [getMessages] sends the query that the service
    rejects. *)
Lemma Dynamo_getMessages_query o rt s sid :
  DynamoDBStorage.ready s = true →
  truthy (q_sessionId o) = Some sid →
  DynamoDBStorage.getMessages o (rt, s) = (Thrown ValidationException, (rt, s)).
Proof.
  intros Hr Hs. unfold DynamoDBStorage.getMessages.
  rewrite Dynamo_guarded_ok by done. by rewrite Hs.
Qed.

(** ** Sample states *)

Lemma session_row_table_wf : table_wf session_row_table.
Proof. apply map_Forall_insert_2; [done|]. apply map_Forall_empty. Qed.

Lemma one_message_table_wf : table_wf one_message_table.
Proof.
  apply map_Forall_insert_2; [done|].
  apply map_Forall_insert_2; [done|]. apply map_Forall_empty.
Qed.

Lemma empty_table_wf : table_wf ∅.
Proof. apply map_Forall_empty. Qed.

Lemma reads_leave_state_unchanged_witness :
  (∃ r, LocalStorage.getMessages no_options one_message_store = (Returned r, one_message_store))
  ∧ (∃ r, S3Storage.getStats one_message_store = (Returned r, one_message_store)).
Proof.
  destruct (reads_leave_state_unchanged one_message_store eq_refl)
    as (H1 & _ & _ & _ & _ & _ & _ & _ & _ & _ & _ & H12).
  split; [exact (H1 no_options)|].
  apply H12. unfold spreadable. cbn. lia.
Defined.

(** ** C3: pagination *)

(** C3 as stated fails at limit [0]: the code reads [limit || total], so
    a limit of [0] is replaced by [total].  On a store with one matching
    message, offset [0] and limit [0] (which is [total - 1]) return that
    message with [hasMore = false], where the claim promises no message
    and [hasMore = true]. *)
Lemma pagination_limit_zero :
  ¬ (∀ (w : Runtime * BlobStore) (o : MemoryQueryOptions) (O L : Z) (res : MemorySearchResult),
       ready (snd w) = true →
       q_offset o = Some O → q_limit o = Some L → 0 ≤ O → 0 ≤ L →
       LocalStorage.getMessages o w = (Returned res, w) →
       Z.of_nat (length (r_messages res)) = Z.min L (Z.max 0 (r_total res - O))
       ∧ r_hasMore res = bool_decide (O + L < r_total res)).
Proof.
  intros H.
  specialize (H one_message_store
                {| q_sessionId := None; q_limit := Some 0; q_offset := Some 0;
                   q_startDate := None; q_endDate := None; q_role := None |}
                0 0 _ eq_refl eq_refl eq_refl (Z.le_refl 0) (Z.le_refl 0) eq_refl).
  destruct H as [H _]. vm_compute in H. discriminate.
Qed.

(** C3, amended: for a non-negative offset [O] (omitted means [0]) and a
    positive limit [L], [getMessages] returns
    [min(L, max(0, total - O))] messages of the sorted matches and sets
    [hasMore] to [O + L < total]; with the limit omitted, or [0], it
    returns every match from the offset on, with [hasMore = false];
    [total] is the number of matches.  At offset [0], limit [total] gives
    [hasMore = false], and a positive limit [total - 1] gives
    [hasMore = true].  This holds in the file-backed and object-storage
    classes for every query, and in the wide-column class for the queries
    without a session id, over the rows the class writes. *)
Theorem getMessages_pagination :
  ∀ (o : MemoryQueryOptions) (wl : Runtime * BlobStore) (wd : Runtime * DynamoDBStorage.State),
    ready (snd wl) = true →
    DynamoDBStorage.ready (snd wd) = true → table_wf (DynamoDBStorage.table (snd wd)) →
    (∃ res,
        LocalStorage.getMessages o wl = (Returned res, wl)
        ∧ S3Storage.getMessages o wl = (Returned res, wl)
        ∧ pagination_contract o
            (sort by_timestamp (candidates o (messages (data (snd wl))))) res
        ∧ (or_default (q_offset o) 0 = 0 → q_limit o = Some (r_total res) →
           r_hasMore res = false)
        ∧ (or_default (q_offset o) 0 = 0 → q_limit o = Some (r_total res - 1) →
           0 < r_total res - 1 → r_hasMore res = true))
    ∧ (truthy (q_sessionId o) = None →
       ∃ res,
        DynamoDBStorage.getMessages o wd = (Returned res, wd)
        ∧ pagination_contract o
            (sort by_timestamp (candidates o (stored_messages (DynamoDBStorage.table (snd wd))))) res
        ∧ (or_default (q_offset o) 0 = 0 → q_limit o = Some (r_total res) →
           r_hasMore res = false)
        ∧ (or_default (q_offset o) 0 = 0 → q_limit o = Some (r_total res - 1) →
           0 < r_total res - 1 → r_hasMore res = true)).
Proof.
  intros o [rt s] [rt' s'] Hr Hr' Hwf. cbn in *.
  assert (Hb : ∀ all,
    (or_default (q_offset o) 0 = 0 → q_limit o = Some (r_total (paginate o all)) →
     r_hasMore (paginate o all) = false)
    ∧ (or_default (q_offset o) 0 = 0 → q_limit o = Some (r_total (paginate o all) - 1) →
       0 < r_total (paginate o all) - 1 → r_hasMore (paginate o all) = true)).
  { intros all. unfold paginate. cbn. split.
    - intros -> ->. cbn. apply bool_decide_eq_false. case_decide; lia.
    - intros -> -> Hpos. cbn. apply bool_decide_eq_true.
      rewrite decide_False by lia. lia. }
  split.
  - eexists. split; [by apply Local_getMessages_run|].
    split; [by apply Local_getMessages_run|].
    split; [apply paginate_contract|apply Hb].
  - intros Hs. eexists. split; [by apply Dynamo_getMessages_run|].
    split; [apply paginate_contract|apply Hb].
Qed.

Lemma getMessages_pagination_witness :
  (∃ res,
     LocalStorage.getMessages
       {| q_sessionId := None; q_limit := Some 1; q_offset := Some 0;
          q_startDate := None; q_endDate := None; q_role := None |}
       one_message_store = (Returned res, one_message_store)
     ∧ Z.of_nat (length (r_messages res)) = Z.min 1 (Z.max 0 (r_total res - 0))
     ∧ r_hasMore res = bool_decide (0 + 1 < r_total res))
  ∧ (∃ res,
       DynamoDBStorage.getMessages
         {| q_sessionId := None; q_limit := Some 1; q_offset := Some 0;
            q_startDate := None; q_endDate := None; q_role := None |}
         (initialized one_message_table) = (Returned res, initialized one_message_table)
       ∧ Z.of_nat (length (r_messages res)) = Z.min 1 (Z.max 0 (r_total res - 0))
       ∧ r_hasMore res = bool_decide (0 + 1 < r_total res)).
Proof.
  destruct (getMessages_pagination
              {| q_sessionId := None; q_limit := Some 1; q_offset := Some 0;
                 q_startDate := None; q_endDate := None; q_role := None |}
              one_message_store (initialized one_message_table)
              eq_refl eq_refl one_message_table_wf)
    as [[res (Hl & _ & (_ & Hc) & _)] Hd].
  destruct (Hd eq_refl) as [res' (Hd' & (_ & Hc') & _)].
  split.
  - exists res. split; [exact Hl|].
    exact (proj1 (Hc 0 eq_refl (Z.le_refl 0)) 1 eq_refl eq_refl).
  - exists res'. split; [exact Hd'|].
    exact (proj1 (Hc' 0 eq_refl (Z.le_refl 0)) 1 eq_refl eq_refl).
Defined.

(** ** C4: filters and order *)

(** C4 as stated fails for the session id [""]: the code applies the
    filter under [if (options.sessionId)], and the empty string is falsy,
    so [getMessages({sessionId: ""})] returns every stored message
    instead of those whose [sessionId] is [""]. *)
Lemma empty_sessionId_filter_ignored :
  ¬ (∀ (w : Runtime * BlobStore) (s : string) (res : MemorySearchResult),
       ready (snd w) = true →
       LocalStorage.getMessages (only_session s) w = (Returned res, w) →
       ∀ m, m ∈ r_messages res
            ↔ m ∈ messages (data (snd w)) ∧ ConversationMessage.sessionId m = s).
Proof.
  intros H.
  specialize (H one_message_store "" _ eq_refl eq_refl hello).
  destruct H as [H _].
  assert (Hin : hello ∈ [hello]) by apply list_elem_of_here.
  destruct (H Hin) as [_ Heq]. discriminate Heq.
Qed.

Lemma unpaginated o all :
  q_limit o = None → q_offset o = None → r_messages (paginate o all) = all.
Proof.
  intros Hl Ho. unfold paginate. cbn. rewrite Hl, Ho. cbn. apply slice_all.
Qed.

Lemma matches_only_session s m :
  s ≠ "" → matches (only_session s) m ↔ ConversationMessage.sessionId m = s.
Proof.
  intros Hs. unfold matches, only_session. cbn.
  destruct s; [done|]. cbn. tauto.
Qed.

(** C4, amended: a filter is applied when its option is truthy, so a
    session id filter counts when it is a non-empty string.  With that
    reading, [getMessages] cuts its page out of the stored messages that
    satisfy the conjunction of the filters, sorted ascending by
    timestamp; when offset and limit are omitted it returns exactly those
    messages (each as often as it is stored), in ascending order.  In
    particular [getMessages({sessionId: s})] with [s] non-empty returns
    exactly the messages whose [sessionId] is [s].  This holds in the
    file-backed and object-storage classes for every query, and in the
    wide-column class for the queries without a session id (role and
    date filters), over the rows the class writes. *)
Theorem getMessages_filters :
  ∀ (o : MemoryQueryOptions) (wl : Runtime * BlobStore)
    (wd : Runtime * DynamoDBStorage.State),
    ready (snd wl) = true →
    DynamoDBStorage.ready (snd wd) = true → table_wf (DynamoDBStorage.table (snd wd)) →
    (∃ res,
        LocalStorage.getMessages o wl = (Returned res, wl)
        ∧ S3Storage.getMessages o wl = (Returned res, wl)
        ∧ res = paginate o (sort by_timestamp (filter (matches o) (messages (data (snd wl)))))
        ∧ (q_limit o = None → q_offset o = None →
           r_messages res ≡ₚ filter (matches o) (messages (data (snd wl)))
           ∧ StronglySorted ascending (r_messages res))
        ∧ (∀ s, o = only_session s → s ≠ "" →
           ∀ m, m ∈ r_messages res
                ↔ m ∈ messages (data (snd wl)) ∧ ConversationMessage.sessionId m = s))
    ∧ (truthy (q_sessionId o) = None →
       ∃ res,
        DynamoDBStorage.getMessages o wd = (Returned res, wd)
        ∧ res = paginate o (sort by_timestamp
                              (filter (matches o)
                                 (stored_messages (DynamoDBStorage.table (snd wd)))))
        ∧ (q_limit o = None → q_offset o = None →
           r_messages res ≡ₚ filter (matches o) (stored_messages (DynamoDBStorage.table (snd wd)))
           ∧ StronglySorted ascending (r_messages res))).
Proof.
  intros o [rt s] [rt' s'] Hr Hr' Hwf. cbn in *.
  assert (Hgen : ∀ all,
    (q_limit o = None → q_offset o = None →
     r_messages (paginate o (sort by_timestamp (filter (matches o) all)))
       ≡ₚ filter (matches o) all
     ∧ StronglySorted ascending
         (r_messages (paginate o (sort by_timestamp (filter (matches o) all)))))
    ∧ (∀ sid, o = only_session sid → sid ≠ "" →
       ∀ m, m ∈ r_messages (paginate o (sort by_timestamp (filter (matches o) all)))
            ↔ m ∈ all ∧ ConversationMessage.sessionId m = sid)).
  { intros all. split.
    - intros Hl Ho. rewrite (unpaginated _ _ Hl Ho).
      split; [apply sort_Permutation|apply sort_ascending].
    - intros sid -> Hsid m. rewrite unpaginated by done.
      rewrite sort_elem_of, list_elem_of_filter, (matches_only_session _ _ Hsid). tauto. }
  split.
  - eexists. split; [by apply Local_getMessages_run|].
    split; [by apply Local_getMessages_run|].
    rewrite candidates_filter. split; [done|apply Hgen].
  - intros Hs. eexists. split; [by apply Dynamo_getMessages_run|].
    rewrite candidates_filter. split; [done|apply Hgen].
Qed.

Lemma getMessages_filters_witness :
  ∃ res,
    LocalStorage.getMessages (only_session "s1") one_message_store
    = (Returned res, one_message_store)
    ∧ ∀ m, m ∈ r_messages res
           ↔ m ∈ [hello] ∧ ConversationMessage.sessionId m = "s1".
Proof.
  destruct (getMessages_filters (only_session "s1")
              one_message_store (initialized one_message_table)
              eq_refl eq_refl one_message_table_wf)
    as [[res (Hl & _ & _ & _ & Hs)] _].
  exists res. split; [exact Hl|].
  apply (Hs "s1" eq_refl). discriminate.
Defined.

(** ** C9: statistics *)

Lemma stats_of_no_messages {S} n rt (s : S) :
  stats_of n [] 0 (rt, s) = (Returned (no_message_stats n), (rt, s)).
Proof.
  rewrite stats_of_run by (unfold spreadable; cbn; lia).
  by rewrite stats_record_no_messages.
Qed.

Lemma begins_with_SESSION i : DynamoDBStorage.begins_with (DynamoDBStorage.SESSION i) "SESSION#".
Proof. unfold DynamoDBStorage.begins_with, DynamoDBStorage.SESSION. by destruct i. Qed.

Lemma omap_session_rows (Q : DynamoDBStorage.Key * DynamoDBStorage.Item → Prop)
    `{!∀ kv, Decision (Q kv)} (rows : list (DynamoDBStorage.Key * DynamoDBStorage.Item)) :
  Forall (λ kv, row_wf (fst kv) (snd kv)) rows →
  (∀ x, Q ((DynamoDBStorage.SESSION (ConversationSession.id x),
            DynamoDBStorage.SESSION (ConversationSession.id x)),
           DynamoDBStorage.SessionItem x)) →
  omap (λ kv, DynamoDBStorage.item_session (snd kv)) (filter Q rows)
  = omap (λ kv, DynamoDBStorage.item_session (snd kv)) rows.
Proof.
  intros Hwf HQ. induction Hwf as [|[k it] rows Hrow _ IH]; [done|].
  rewrite filter_cons. destruct it as [m c|x]; cbn in Hrow; subst k; cbn.
  - destruct (decide (Q _)); cbn; by rewrite IH.
  - rewrite decide_True by apply HQ. cbn. by rewrite IH.
Qed.

Lemma Dynamo_getSessions_run rt s :
  DynamoDBStorage.ready s = true → table_wf (DynamoDBStorage.table s) →
  DynamoDBStorage.getSessions (rt, s)
  = (Returned (sort (λ a b, ConversationSession.updatedAt b - ConversationSession.updatedAt a)
                    (stored_sessions (DynamoDBStorage.table s))), (rt, s)).
Proof.
  intros Hr Hwf. unfold DynamoDBStorage.getSessions.
  rewrite Dynamo_guarded_ok by done.
  unfold DynamoDBStorage.rows_where, bind, get, ret, stored_sessions. cbn.
  do 3 f_equal. apply omap_session_rows; [by apply table_wf_rows|].
  intros x. cbn. apply begins_with_SESSION.
Qed.

(** [getStats] of the wide-column class, on the rows the class writes:
    the statistics of the session rows and the message rows. *)
Lemma Dynamo_getStats_run rt s :
  DynamoDBStorage.ready s = true → table_wf (DynamoDBStorage.table s) →
  DynamoDBStorage.getStats (rt, s)
  = stats_of (Z.of_nat (length (stored_sessions (DynamoDBStorage.table s))))
             (sort by_timestamp (stored_messages (DynamoDBStorage.table s)))
             (Z.of_nat (length (stored_messages (DynamoDBStorage.table s)))) (rt, s).
Proof.
  intros Hr Hwf. unfold DynamoDBStorage.getStats.
  rewrite Dynamo_guarded_ok by done.
  rewrite (bind_run _ _ _ _ _ (Dynamo_getSessions_run rt s Hr Hwf)).
  rewrite (bind_run _ _ _ _ _ (Dynamo_getMessages_run no_options rt s Hr Hwf eq_refl)).
  rewrite (Permutation_length (sort_Permutation _ (stored_sessions _))).
  rewrite unpaginated by done. unfold paginate. cbn [r_total].
  rewrite (Permutation_length (sort_Permutation by_timestamp _)).
  done.
Qed.

(** C9 as stated fails on a store that has a session and no message (as
    left by [updateSession] on a fresh store, or by deleting the last
    message of a session): [totalSessions] is then the number of
    sessions, not [0]. *)
Lemma stats_count_sessions_without_messages :
  ¬ (∀ (w : Runtime * BlobStore) (st : MemoryStats),
       ready (snd w) = true → messages (data (snd w)) = [] →
       LocalStorage.getStats w = (Returned st, w) →
       totalSessions st = 0).
Proof.
  intros H.
  specialize (H one_session_store _ eq_refl eq_refl eq_refl).
  vm_compute in H. discriminate.
Qed.

(** C9, amended: on an initialized store with no messages [getStats]
    returns [totalMessages = 0], [oldestMessage = null],
    [newestMessage = null], [averageMessagesPerSession = 0] and
    [totalSessions] = the number of session records, which is [0] on an
    empty store; and whatever the messages, the average is [0] when there
    is no session and [getStats] returns.  The three classes satisfy it
    on every such state, the wide-column class over the rows the class
    writes. *)
Theorem getStats_without_messages :
  ∀ (wl : Runtime * BlobStore) (wd : Runtime * DynamoDBStorage.State),
    ready (snd wl) = true →
    DynamoDBStorage.ready (snd wd) = true → table_wf (DynamoDBStorage.table (snd wd)) →
    (messages (data (snd wl)) = [] →
       LocalStorage.getStats wl
       = (Returned (no_message_stats (Z.of_nat (length (sessions (data (snd wl)))))), wl)
       ∧ S3Storage.getStats wl
         = (Returned (no_message_stats (Z.of_nat (length (sessions (data (snd wl)))))), wl))
    ∧ (messages (data (snd wl)) = [] → sessions (data (snd wl)) = [] →
       LocalStorage.getStats wl = (Returned (no_message_stats 0), wl)
       ∧ S3Storage.getStats wl = (Returned (no_message_stats 0), wl))
    ∧ (sessions (data (snd wl)) = [] →
       spreadable (fst wl) (messages (data (snd wl))) →
       ∃ st, LocalStorage.getStats wl = (Returned st, wl)
             ∧ S3Storage.getStats wl = (Returned st, wl)
             ∧ totalSessions st = 0
             ∧ averageMessagesPerSession st = 0%float)
    ∧ (stored_messages (DynamoDBStorage.table (snd wd)) = [] →
       DynamoDBStorage.getStats wd
       = (Returned (no_message_stats
                      (Z.of_nat (length (stored_sessions (DynamoDBStorage.table (snd wd)))))),
          wd))
    ∧ (stored_messages (DynamoDBStorage.table (snd wd)) = [] →
       stored_sessions (DynamoDBStorage.table (snd wd)) = [] →
       DynamoDBStorage.getStats wd = (Returned (no_message_stats 0), wd))
    ∧ (stored_sessions (DynamoDBStorage.table (snd wd)) = [] →
       spreadable (fst wd) (stored_messages (DynamoDBStorage.table (snd wd))) →
       ∃ st, DynamoDBStorage.getStats wd = (Returned st, wd)
             ∧ totalSessions st = 0
             ∧ averageMessagesPerSession st = 0%float).
Proof.
  intros [rt s] [rt' s'] Hr Hr' Hwf. cbn [fst snd] in *.
  change S3Storage.getStats with LocalStorage.getStats.
  rewrite Local_getStats_run by done. rewrite Dynamo_getStats_run by done.
  split; [|split; [|split; [|split; [|split]]]].
  - intros ->. cbn [length]. by rewrite stats_of_no_messages.
  - intros -> ->. cbn [length]. by rewrite stats_of_no_messages.
  - intros -> Hs. eexists. rewrite stats_of_run by done. by cbn.
  - intros ->. cbn [length sort foldr]. by rewrite stats_of_no_messages.
  - intros -> ->. cbn [length sort foldr]. by rewrite stats_of_no_messages.
  - intros -> Hs. eexists. rewrite stats_of_run; [by cbn|].
    unfold spreadable in *. by rewrite (Permutation_length (sort_Permutation _ _)).
Qed.

Lemma getStats_without_messages_witness :
  LocalStorage.getStats one_session_store = (Returned (no_message_stats 1), one_session_store)
  ∧ DynamoDBStorage.getStats (initialized session_row_table)
    = (Returned (no_message_stats 1), initialized session_row_table).
Proof.
  destruct (getStats_without_messages one_session_store (initialized session_row_table)
              eq_refl eq_refl session_row_table_wf)
    as (Hl & _ & _ & Hd & _).
  split; [exact (proj1 (Hl eq_refl))|].
  exact (Hd ltac:(vm_compute; reflexivity)).
Defined.

(** ** Writing to the file-backed store *)

Lemma Local_saveToFile_run rt s :
  LocalStorage.saveToFile (rt, s) = (Returned tt, (tick rt, persisted (now rt) s)).
Proof. done. Qed.

Lemma Local_updateSessionInternal_run sid u rt s :
  LocalStorage.updateSessionInternal sid u (rt, s)
  = (Returned tt,
     (fst (upsert_session sid u rt (sessions (data s))),
      set_sessions (snd (upsert_session sid u rt (sessions (data s)))) s)).
Proof.
  unfold LocalStorage.updateSessionInternal, upsert_session, bind, get. cbn.
  by destruct (list_find _ _) as [[i old]|].
Qed.

Lemma Local_updateSession_run sid u rt s :
  ready s = true →
  LocalStorage.updateSession sid u (rt, s)
  = (Returned tt,
     (tick (fst (upsert_session sid u rt (sessions (data s)))),
      persisted (now (fst (upsert_session sid u rt (sessions (data s)))))
        (set_sessions (snd (upsert_session sid u rt (sessions (data s)))) s))).
Proof.
  intros H. unfold LocalStorage.updateSession.
  rewrite Local_guarded_ok by done.
  rewrite (bind_run _ _ _ _ _ (Local_updateSessionInternal_run sid u rt s)).
  apply Local_saveToFile_run.
Qed.

Lemma Local_deleteSession_run sid rt s :
  ready s = true →
  LocalStorage.deleteSession sid (rt, s)
  = (Returned tt,
     (tick rt,
      persisted (now rt)
        (set_sessions (filter (λ x, ConversationSession.id x ≠ sid) (sessions (data s)))
           (set_messages
              (filter (λ m, ConversationMessage.sessionId m ≠ sid) (messages (data s))) s)))).
Proof. intros H. unfold LocalStorage.deleteSession. by rewrite Local_guarded_ok. Qed.

(** ** Writing to the wide-column table *)

Lemma Dynamo_getSession_run sid rt s :
  DynamoDBStorage.ready s = true →
  DynamoDBStorage.getSession sid (rt, s)
  = (Returned (DynamoDBStorage.table s
                 !! (DynamoDBStorage.SESSION sid, DynamoDBStorage.SESSION sid)
                 ≫= DynamoDBStorage.item_session), (rt, s)).
Proof. intros H. unfold DynamoDBStorage.getSession. by rewrite Dynamo_guarded_ok. Qed.

Lemma Dynamo_getMessage_run i rt s :
  DynamoDBStorage.ready s = true →
  DynamoDBStorage.getMessage i (rt, s)
  = (Returned (DynamoDBStorage.table s
                 !! (DynamoDBStorage.MESSAGE i, DynamoDBStorage.MESSAGE i)
                 ≫= DynamoDBStorage.item_message), (rt, s)).
Proof. intros H. unfold DynamoDBStorage.getMessage. by rewrite Dynamo_guarded_ok. Qed.

Lemma Dynamo_delete_loop {A} (key : A → DynamoDBStorage.Key) (xs : list A) rt s :
  for_of xs (λ x, DynamoDBStorage.DeleteCommand (key x)) (rt, s)
  = (Returned tt,
     (rt, DynamoDBStorage.set_table (delete_all (key <$> xs) (DynamoDBStorage.table s)) s)).
Proof.
  revert s. induction xs as [|x xs IH]; intros s.
  - by destruct s.
  - cbn [for_of]. unfold bind at 1. cbn. by rewrite IH.
Qed.

Lemma delete_all_lookup_in ks t k : k ∈ ks → delete_all ks t !! k = None.
Proof.
  revert t. induction ks as [|k' ks IH]; intros t Hin; [by apply elem_of_nil in Hin|].
  cbn. destruct (decide (k ∈ ks)) as [Hk|Hk]; [by apply IH|].
  apply elem_of_cons in Hin as [->|?]; [|done].
  clear IH. revert t. induction ks as [|k'' ks IH]; intros t.
  - cbn. apply lookup_delete_eq.
  - cbn. apply not_elem_of_cons in Hk as [Hne Hk].
    rewrite delete_delete. by apply IH.
Qed.

Lemma delete_all_lookup_Some ks t k it :
  delete_all ks t !! k = Some it → t !! k = Some it.
Proof.
  revert t. induction ks as [|k' ks IH]; intros t; [done|].
  cbn. intros H%IH. by apply lookup_delete_Some in H as [_ ?].
Qed.

Lemma elem_of_stored_messages t m :
  m ∈ stored_messages t ↔ ∃ k c, t !! k = Some (DynamoDBStorage.MessageItem m c).
Proof.
  unfold stored_messages. rewrite list_elem_of_omap. split.
  - intros [[k it] [Hin Hm]]. apply elem_of_map_to_list in Hin.
    destruct it as [m' c|]; cbn in Hm; [|done]. injection Hm as ->. eauto.
  - intros (k & c & H). exists (k, DynamoDBStorage.MessageItem m c).
    split; [by apply elem_of_map_to_list|done].
Qed.

Lemma elem_of_stored_sessions t x :
  x ∈ stored_sessions t ↔ ∃ k, t !! k = Some (DynamoDBStorage.SessionItem x).
Proof.
  unfold stored_sessions. rewrite list_elem_of_omap. split.
  - intros [[k it] [Hin Hm]]. apply elem_of_map_to_list in Hin.
    destruct it as [|x']; cbn in Hm; [done|]. injection Hm as ->. eauto.
  - intros (k & H). exists (k, DynamoDBStorage.SessionItem x).
    split; [by apply elem_of_map_to_list|done].
Qed.

(** [deleteSession] starts with [getMessages({ sessionId })]: for a
    non-empty id that is the query which the service rejects, and nothing
    is deleted. *)
Lemma Dynamo_deleteSession_throws sid rt s :
  DynamoDBStorage.ready s = true → sid ≠ "" →
  DynamoDBStorage.deleteSession sid (rt, s) = (Thrown ValidationException, (rt, s)).
Proof.
  intros Hr Hsid. unfold DynamoDBStorage.deleteSession.
  rewrite Dynamo_guarded_ok by done.
  apply bind_thrown, (Dynamo_getMessages_query _ rt s sid Hr).
  cbn. by destruct sid.
Qed.

(** For the empty id the session filter is skipped: the table is scanned
    and the loop addresses every message under the empty session. *)
Lemma Dynamo_deleteSession_run rt s :
  DynamoDBStorage.ready s = true → table_wf (DynamoDBStorage.table s) →
  DynamoDBStorage.deleteSession "" (rt, s)
  = (Returned tt,
     (rt, DynamoDBStorage.set_table
            (delete (DynamoDBStorage.SESSION "", DynamoDBStorage.SESSION "")
               (delete_all
                  ((λ m, (DynamoDBStorage.MESSAGE (ConversationMessage.id m),
                          DynamoDBStorage.SESSION ""))
                     <$> sort by_timestamp (stored_messages (DynamoDBStorage.table s)))
                  (DynamoDBStorage.table s))) s)).
Proof.
  intros Hr Hwf. unfold DynamoDBStorage.deleteSession.
  rewrite Dynamo_guarded_ok by done.
  rewrite (bind_run _ _ _ _ _ (Dynamo_getMessages_run (only_session "") rt s Hr Hwf eq_refl)).
  rewrite unpaginated by done.
  rewrite (bind_run _ _ _ _ _ (Dynamo_delete_loop _ _ rt s)).
  by destruct s.
Qed.

(** ** C5: [deleteSession] cascades *)

(** C5, as the code behaves.  In the file-backed and object-storage
    classes [deleteSession(s)] on an initialized store returns normally
    and afterwards the store holds no message whose [sessionId] is [s]
    and no session record with id [s], whether or not [s] existed, the
    durable mirror written with that state.  In the wide-column class
    [deleteSession(s)] for a non-empty [s] throws [ValidationException]
    and removes nothing: it starts with [getMessages({ sessionId: s })],
    whose query the service rejects, so the rows of the session and of
    its messages stay.  Only for the empty id, where the session filter is
    skipped and the table scanned, does it return, with the cascade done
    (over the rows the class writes). *)
Theorem deleteSession_cascades :
  ∀ (sid : string) (wl : Runtime * BlobStore) (wd : Runtime * DynamoDBStorage.State),
    ready (snd wl) = true →
    DynamoDBStorage.ready (snd wd) = true → table_wf (DynamoDBStorage.table (snd wd)) →
    (∃ wl',
        LocalStorage.deleteSession sid wl = (Returned tt, wl')
        ∧ S3Storage.deleteSession sid wl = (Returned tt, wl')
        ∧ (∀ m, m ∈ messages (data (snd wl')) → ConversationMessage.sessionId m ≠ sid)
        ∧ (∀ x, x ∈ sessions (data (snd wl')) → ConversationSession.id x ≠ sid)
        ∧ durable (snd wl') = Stored (data (snd wl')))
    ∧ (sid ≠ "" →
       DynamoDBStorage.deleteSession sid wd = (Thrown ValidationException, wd))
    ∧ (sid = "" →
       ∃ wd',
        DynamoDBStorage.deleteSession sid wd = (Returned tt, wd')
        ∧ (∀ m, m ∈ stored_messages (DynamoDBStorage.table (snd wd')) →
                ConversationMessage.sessionId m ≠ sid)
        ∧ (∀ x, x ∈ stored_sessions (DynamoDBStorage.table (snd wd')) →
                ConversationSession.id x ≠ sid)
        ∧ DynamoDBStorage.getSession sid wd' = (Returned None, wd')).
Proof.
  intros sid [rt s] [rt' s'] Hr Hr' Hwf. cbn in *. split; [|split].
  - eexists. split; [by apply Local_deleteSession_run|].
    split; [by apply Local_deleteSession_run|]. cbn.
    split; [|split; [|done]].
    + intros m Hm%list_elem_of_filter. tauto.
    + intros x Hx%list_elem_of_filter. tauto.
  - intros Hsid. by apply Dynamo_deleteSession_throws.
  - intros ->. eexists. split; [by apply Dynamo_deleteSession_run|]. cbn.
    split; [|split].
    + intros m (k & c & Hk)%elem_of_stored_messages Hsid.
      apply lookup_delete_Some in Hk as [_ Hk].
      pose proof (delete_all_lookup_Some _ _ _ _ Hk) as Hk0.
      pose proof (Hwf _ _ Hk0) as Hrow. cbn in Hrow. subst k.
      rewrite delete_all_lookup_in in Hk; [done|].
      rewrite Hsid. apply list_elem_of_fmap.
      exists m. split; [done|].
      apply sort_elem_of, elem_of_stored_messages. eauto.
    + intros x (k & Hk)%elem_of_stored_sessions Hsid.
      apply lookup_delete_Some in Hk as [Hne Hk].
      pose proof (delete_all_lookup_Some _ _ _ _ Hk) as Hk0.
      pose proof (Hwf _ _ Hk0) as Hrow. cbn in Hrow. subst k.
      by rewrite Hsid in Hne.
    + rewrite Dynamo_getSession_run by done. cbn. by rewrite lookup_delete_eq.
Qed.

Lemma deleteSession_cascades_witness :
  (∃ wl',
      LocalStorage.deleteSession "s1" one_message_store = (Returned tt, wl')
      ∧ messages (data (snd wl')) = [] ∧ sessions (data (snd wl')) = [])
  ∧ DynamoDBStorage.deleteSession "s1" (initialized one_message_table)
    = (Thrown ValidationException, initialized one_message_table).
Proof.
  destruct (deleteSession_cascades "s1" one_message_store (initialized one_message_table)
              eq_refl eq_refl one_message_table_wf)
    as [(wl' & Hl & _) [Hd _]].
  split; [|exact (Hd ltac:(discriminate))].
  exists wl'. split; [exact Hl|].
  assert (El : wl' = snd (LocalStorage.deleteSession "s1" one_message_store))
    by (by rewrite Hl).
  split; by rewrite El.
Defined.

(** ** C7: [updateSession] on an absent session *)

Lemma find_None_list_find {A} (P : A → Prop) `{!∀ x, Decision (P x)} (l : list A) :
  find P l = None ↔ list_find P l = None.
Proof. unfold find. by destruct (list_find P l). Qed.

Lemma find_Some_elem {A} (P : A → Prop) `{!∀ x, Decision (P x)} (l : list A) x :
  find P l = Some x → x ∈ l ∧ P x.
Proof.
  unfold find. destruct (list_find P l) as [[i y]|] eqn:E; [|done].
  cbn. intros [= ->]. apply list_find_Some in E as (Hl & HP & _).
  split; [|done]. apply list_elem_of_lookup. eauto.
Qed.

Lemma find_list_find {A} (P : A → Prop) `{!∀ x, Decision (P x)} (l : list A) i x :
  list_find P l = Some (i, x) → find P l = Some x.
Proof. unfold find. by intros ->. Qed.

Lemma find_snoc_absent {A} (P : A → Prop) `{!∀ x, Decision (P x)} (l : list A) x :
  find P l = None → P x → find P (l ++ [x]) = Some x.
Proof.
  intros Hn%find_None_list_find HP. unfold find.
  rewrite list_find_app_r by done. cbn. by rewrite decide_True.
Qed.

Lemma upsert_session_absent sid u rt ss :
  find (session_has_id sid) ss = None →
  upsert_session sid u rt ss
  = (tick (tick rt),
     ss ++ [SessionUpdates.spread
              (ConversationSession.mk sid None (now rt) (now (tick rt)) 1 None) u]).
Proof. intros Hn%find_None_list_find. unfold upsert_session. by rewrite Hn. Qed.

(** C7 as stated fails for updates that carry an [id]: the new record is
    built as [{ id: sessionId, ..., ...updates }], so an [id] among the
    updates replaces the requested one and no record with the requested
    id is created. *)
Lemma updateSession_creates_under_other_id :
  ¬ (∀ (w : Runtime * BlobStore) (sid : string) (u : SessionUpdates.t),
       LocalStorage.getSession sid w = (Returned None, w) →
       ∃ w' x,
         LocalStorage.updateSession sid u w = (Returned tt, w')
         ∧ LocalStorage.getSession sid w' = (Returned (Some x), w')).
Proof.
  intros H.
  destruct (H empty_store "s1" (renaming "s2") eq_refl) as (w' & x & Hu & Hg).
  assert (E : w' = snd (LocalStorage.updateSession "s1" (renaming "s2") empty_store))
    by (by rewrite Hu).
  rewrite E in Hg. vm_compute in Hg. discriminate.
Qed.

(** C7, amended: on an initialized store where [getSession(id)] finds no
    record, [updateSession(id, updates)] with updates that carry no [id]
    (or that same id) returns normally in the file-backed and
    object-storage classes, having appended one session record with that
    id, which [getSession(id)] then finds; the messages are untouched and
    the durable mirror is written.  In the wide-column class it throws
    ["Session <id> not found"] and leaves the table and the process state
    as they were. *)
Theorem updateSession_absent_session :
  ∀ (sid : string) (u : SessionUpdates.t)
    (wl : Runtime * BlobStore) (wd : Runtime * DynamoDBStorage.State),
    LocalStorage.getSession sid wl = (Returned None, wl) →
    SessionUpdates.id u = None ∨ SessionUpdates.id u = Some sid →
    DynamoDBStorage.getSession sid wd = (Returned None, wd) →
    (∃ wl' x,
        LocalStorage.updateSession sid u wl = (Returned tt, wl')
        ∧ S3Storage.updateSession sid u wl = (Returned tt, wl')
        ∧ LocalStorage.getSession sid wl' = (Returned (Some x), wl')
        ∧ ConversationSession.id x = sid
        ∧ sessions (data (snd wl')) = sessions (data (snd wl)) ++ [x]
        ∧ messages (data (snd wl')) = messages (data (snd wl))
        ∧ durable (snd wl') = Stored (data (snd wl')))
    ∧ DynamoDBStorage.updateSession sid u wd
      = (Thrown (Error ("Session " +:+ sid +:+ " not found")), wd).
Proof.
  intros sid u [rt s] [rt' s'] Hl Hid Hd. split.
  - assert (Hr : ready s = true).
    { destruct (ready s) eqn:E; [done|].
      unfold LocalStorage.getSession in Hl.
      rewrite (Local_guarded_fail _ rt s E) in Hl. discriminate. }
    rewrite Local_getSession_run in Hl by done. injection Hl as Hl.
    set (x := SessionUpdates.spread
                (ConversationSession.mk sid None (now rt) (now (tick rt)) 1 None) u).
    assert (Hx : session_has_id sid x).
    { unfold session_has_id, x. cbn. by destruct Hid as [->| ->]. }
    pose proof (Local_updateSession_run sid u rt s Hr) as Hrun.
    rewrite (upsert_session_absent _ _ _ _ Hl) in Hrun.
    cbn [fst snd] in Hrun. fold x in Hrun.
    eexists _, x. split; [exact Hrun|]. split; [exact Hrun|].
    rewrite Local_getSession_run by done.
    cbn [persisted set_sessions data sessions messages durable ready fst snd].
    rewrite (find_snoc_absent _ _ _ Hl Hx). done.
  - assert (Hr : DynamoDBStorage.ready s' = true).
    { destruct (DynamoDBStorage.ready s') eqn:E; [done|].
      unfold DynamoDBStorage.getSession in Hd.
      rewrite (Dynamo_guarded_fail _ rt' s' E) in Hd. discriminate. }
    unfold DynamoDBStorage.updateSession.
    rewrite Dynamo_guarded_ok by done.
    by rewrite (bind_run _ _ _ _ _ Hd).
Qed.

Lemma updateSession_absent_session_witness :
  ∃ wl' x,
    LocalStorage.updateSession "s1" SessionUpdates.none empty_store = (Returned tt, wl')
    ∧ LocalStorage.getSession "s1" wl' = (Returned (Some x), wl')
    ∧ DynamoDBStorage.updateSession "s1" SessionUpdates.none (initialized empty_table)
      = (Thrown (Error "Session s1 not found"), initialized empty_table).
Proof.
  destruct (updateSession_absent_session "s1" SessionUpdates.none
              empty_store (initialized empty_table) eq_refl (or_introl eq_refl)
              ltac:(vm_compute; reflexivity))
    as [(wl' & x & Hu & _ & Hg & _) Hd].
  exists wl', x. split; [exact Hu|]. split; [exact Hg|exact Hd].
Defined.

(** ** Invariants of the wide-column table *)

Section Preservation.
Context {S : Type} (I : S → Prop).

Lemma preserves_ret {A} (a : A) : preserves I (ret a).
Proof. by intros w. Qed.

Lemma preserves_throw {A} msg : preserves I (@throw S A msg).
Proof. by intros w. Qed.

Lemma preserves_get : preserves I get.
Proof. by intros w. Qed.

Lemma preserves_newDate : preserves I newDate.
Proof. by intros w. Qed.

Lemma preserves_uuidv4 : preserves I uuidv4.
Proof. by intros w. Qed.

Lemma preserves_bind {A B} (c : M S A) (k : A → M S B) :
  preserves I c → (∀ a, preserves I (k a)) → preserves I (bind c k).
Proof.
  intros Hc Hk w Hw. unfold bind. specialize (Hc w Hw).
  destruct (c w) as [[a|e] w']; cbn in *; [by apply Hk|done].
Qed.

Lemma preserves_for_of {A} (xs : list A) (body : A → M S unit) :
  (∀ x, preserves I (body x)) → preserves I (for_of xs body).
Proof.
  intros Hb. induction xs as [|x xs IH]; cbn [for_of].
  - apply preserves_ret.
  - apply preserves_bind; [apply Hb|by intros _].
Qed.
End Preservation.

Section TableInvariant.
(** [J] is a property of the table alone that writing a row the class
    may write ([ok]) and deleting any row maintain. *)
Context (J : gmap DynamoDBStorage.Key DynamoDBStorage.Item → Prop).
Context (ok : DynamoDBStorage.Key → DynamoDBStorage.Item → Prop).
Hypothesis J_insert : ∀ t k it, J t → ok k it → J (<[k := it]> t).
Hypothesis J_delete : ∀ t k, J t → J (delete k t).
Hypothesis ok_message : ∀ m c,
  ok (DynamoDBStorage.MESSAGE (ConversationMessage.id m),
      DynamoDBStorage.SESSION (ConversationMessage.sessionId m))
     (DynamoDBStorage.MessageItem m c).
Hypothesis ok_session : ∀ sid ti c u n md,
  ok (DynamoDBStorage.SESSION sid, DynamoDBStorage.SESSION sid)
     (DynamoDBStorage.SessionItem (ConversationSession.mk sid ti c u n md)).

Lemma preserves_PutCommand k it :
  ok k it → preserves (on_table J) (DynamoDBStorage.PutCommand k it).
Proof. intros Hok [rt s] [Hr HJ]. split; [done|]. cbn. by apply J_insert. Qed.

Lemma preserves_DeleteCommand k : preserves (on_table J) (DynamoDBStorage.DeleteCommand k).
Proof. intros [rt s] [Hr HJ]. split; [done|]. cbn. by apply J_delete. Qed.

Lemma preserves_GetCommand k : preserves (on_table J) (DynamoDBStorage.GetCommand k).
Proof. by intros w. Qed.

Lemma preserves_rows_where (P : DynamoDBStorage.Key → Prop) `{!∀ k, Decision (P k)} :
  preserves (on_table J) (DynamoDBStorage.rows_where P).
Proof. by intros w. Qed.

Lemma preserves_check_ready : preserves (on_table J) DynamoDBStorage.check_ready.
Proof.
  intros [rt s] H. unfold DynamoDBStorage.check_ready, bind, get. cbn.
  by destruct (DynamoDBStorage.ready s).
Qed.

Ltac step :=
  first
    [ apply preserves_ret | apply preserves_throw | apply preserves_get
    | apply preserves_newDate | apply preserves_uuidv4
    | apply preserves_check_ready | apply preserves_GetCommand
    | apply preserves_rows_where | apply preserves_DeleteCommand
    | apply preserves_PutCommand; solve [apply ok_message | apply ok_session]
    | apply preserves_for_of; intros ?
    | match goal with |- preserves _ (match ?x with _ => _ end) => destruct x end
    | apply preserves_bind; [|intros ?] ].

Lemma preserves_getMessages o : preserves (on_table J) (DynamoDBStorage.getMessages o).
Proof. unfold DynamoDBStorage.getMessages. repeat step. Qed.

Lemma preserves_getMessage i : preserves (on_table J) (DynamoDBStorage.getMessage i).
Proof. unfold DynamoDBStorage.getMessage. repeat step. Qed.

Lemma preserves_getSession i : preserves (on_table J) (DynamoDBStorage.getSession i).
Proof. unfold DynamoDBStorage.getSession. repeat step. Qed.

Lemma preserves_getSessions : preserves (on_table J) DynamoDBStorage.getSessions.
Proof. unfold DynamoDBStorage.getSessions. repeat step. Qed.

Lemma preserves_updateSession sid u :
  preserves (on_table J) (DynamoDBStorage.updateSession sid u).
Proof.
  unfold DynamoDBStorage.updateSession.
  apply preserves_bind; [step|intros _].
  apply preserves_bind; [apply preserves_getSession|intros [x|]]; repeat step.
Qed.

Lemma preserves_updateSessionInternal sid :
  preserves (on_table J) (DynamoDBStorage.updateSessionInternal sid).
Proof.
  unfold DynamoDBStorage.updateSessionInternal.
  apply preserves_bind; [apply preserves_getMessages|intros res].
  apply preserves_bind; [apply preserves_getSession|intros x].
  apply preserves_bind; [destruct x; repeat step|intros _].
  apply preserves_bind; [step|intros t]. apply preserves_updateSession.
Qed.

Lemma preserves_saveMessage m : preserves (on_table J) (DynamoDBStorage.saveMessage m).
Proof.
  unfold DynamoDBStorage.saveMessage.
  apply preserves_bind; [step|intros _].
  apply preserves_bind; [destruct (truthy _); repeat step|intros m'].
  apply preserves_bind; [step|intros t].
  apply preserves_bind; [step|intros _].
  apply preserves_bind; [apply preserves_updateSessionInternal|intros _]. step.
Qed.

Lemma preserves_saveMessages ms : preserves (on_table J) (DynamoDBStorage.saveMessages ms).
Proof.
  unfold DynamoDBStorage.saveMessages. apply preserves_for_of. intros m.
  apply preserves_bind; [apply preserves_saveMessage|intros _]. step.
Qed.

Lemma preserves_deleteMessage i : preserves (on_table J) (DynamoDBStorage.deleteMessage i).
Proof.
  unfold DynamoDBStorage.deleteMessage.
  apply preserves_bind; [step|intros _].
  apply preserves_bind; [apply preserves_getMessage|intros [m|]]; [|step].
  apply preserves_bind; [step|intros _]. apply preserves_updateSessionInternal.
Qed.

Lemma preserves_deleteSession sid : preserves (on_table J) (DynamoDBStorage.deleteSession sid).
Proof.
  unfold DynamoDBStorage.deleteSession.
  apply preserves_bind; [step|intros _].
  apply preserves_bind; [apply preserves_getMessages|intros res].
  apply preserves_bind; [|intros _; step].
  apply preserves_for_of. intros m. step.
Qed.

Lemma preserves_clear : preserves (on_table J) DynamoDBStorage.clear.
Proof.
  unfold DynamoDBStorage.clear.
  apply preserves_bind; [step|intros _].
  apply preserves_bind; [step|intros rows].
  apply preserves_for_of. intros kv. step.
Qed.

End TableInvariant.

(** The rows stay as the class writes them: every operation keeps an
    initialized store initialized and its table well-formed. *)
Lemma table_wf_insert t k it : table_wf t → row_wf k it → table_wf (<[k := it]> t).
Proof. intros Ht Hr. by apply map_Forall_insert_2. Qed.

Lemma table_wf_delete t k : table_wf t → table_wf (delete k t).
Proof. apply map_Forall_delete. Qed.

Lemma row_wf_message m c :
  row_wf (DynamoDBStorage.MESSAGE (ConversationMessage.id m),
          DynamoDBStorage.SESSION (ConversationMessage.sessionId m))
         (DynamoDBStorage.MessageItem m c).
Proof. done. Qed.

Lemma row_wf_session sid ti c u n md :
  row_wf (DynamoDBStorage.SESSION sid, DynamoDBStorage.SESSION sid)
         (DynamoDBStorage.SessionItem (ConversationSession.mk sid ti c u n md)).
Proof. done. Qed.

(** X24: the wide-column class keeps the layout of its table.  On an
    initialized table in which every message row sits under
    [(MESSAGE#id, SESSION#sessionId)] and every session row under
    [(SESSION#id, SESSION#id)], each writing operation, whether it returns
    or throws, leaves a table of that layout, still initialized. *)
Lemma Dynamo_keeps_table_wf :
  (∀ m, preserves (on_table table_wf) (DynamoDBStorage.saveMessage m))
  ∧ (∀ ms, preserves (on_table table_wf) (DynamoDBStorage.saveMessages ms))
  ∧ (∀ sid u, preserves (on_table table_wf) (DynamoDBStorage.updateSession sid u))
  ∧ (∀ i, preserves (on_table table_wf) (DynamoDBStorage.deleteMessage i))
  ∧ (∀ sid, preserves (on_table table_wf) (DynamoDBStorage.deleteSession sid))
  ∧ preserves (on_table table_wf) DynamoDBStorage.clear.
Proof.
  split; [|split; [|split; [|split; [|split]]]].
  - intros m. exact (preserves_saveMessage table_wf row_wf table_wf_insert
                       row_wf_message row_wf_session m).
  - intros ms. exact (preserves_saveMessages table_wf row_wf table_wf_insert
                        row_wf_message row_wf_session ms).
  - intros sid u. exact (preserves_updateSession table_wf row_wf table_wf_insert
                           row_wf_session sid u).
  - intros i. exact (preserves_deleteMessage table_wf row_wf table_wf_insert
                       table_wf_delete row_wf_session i).
  - intros sid. exact (preserves_deleteSession table_wf table_wf_delete sid).
  - exact (preserves_clear table_wf table_wf_delete).
Qed.

(** ** C1: saving then reading a message *)

Lemma assign_id_set rt m : ConversationMessage.id m ≠ "" → assign_id rt m = (rt, m).
Proof. unfold assign_id. cbn. by destruct (ConversationMessage.id m). Qed.

Lemma assign_id_sessionId rt m :
  ConversationMessage.sessionId (snd (assign_id rt m)) = ConversationMessage.sessionId m.
Proof. unfold assign_id. by destruct (truthy _). Qed.

Lemma Local_saveMessage_run m rt s :
  ready s = true →
  let rt0 := fst (assign_id rt m) in
  let m' := snd (assign_id rt m) in
  let ms' := upsert_message m' (messages (data s)) in
  let up := upsert_session (ConversationMessage.sessionId m')
              (count_update (now rt0) (ConversationMessage.sessionId m') ms')
              (tick rt0) (sessions (data s)) in
  LocalStorage.saveMessage m (rt, s)
  = (Returned m',
     (tick (fst up), persisted (now (fst up)) (set_sessions (snd up) (set_messages ms' s)))).
Proof.
  intros Hr. cbv zeta. unfold LocalStorage.saveMessage.
  rewrite Local_guarded_ok by done.
  unfold assign_id, upsert_message.
  destruct (truthy (Some (ConversationMessage.id m))) as [i|]; cbn [fst snd].
  - unfold bind at 1. cbn [ret].
    unfold bind at 1. cbn [get snd fst].
    unfold bind at 1. cbn [put snd fst].
    unfold bind at 1. cbn [newDate snd fst].
    unfold bind at 1. cbn [get snd fst].
    rewrite (bind_run _ _ _ _ _ (Local_updateSessionInternal_run _ _ _ _)).
    rewrite (bind_run _ _ _ _ _ (Local_saveToFile_run _ _)).
    unfold ret, count_update.
    by destruct (list_find _ (messages (data s))) as [[j old]|].
  - unfold bind at 1. unfold bind at 1. cbn [uuidv4 ret snd fst].
    unfold bind at 1. cbn [get snd fst].
    unfold bind at 1. cbn [put snd fst].
    unfold bind at 1. cbn [newDate snd fst].
    unfold bind at 1. cbn [get snd fst].
    rewrite (bind_run _ _ _ _ _ (Local_updateSessionInternal_run _ _ _ _)).
    rewrite (bind_run _ _ _ _ _ (Local_saveToFile_run _ _)).
    unfold ret, count_update.
    by destruct (list_find _ (messages (data s))) as [[j old]|].
Qed.

Lemma find_insert_found {A} (P : A → Prop) `{!∀ x, Decision (P x)} (l : list A) i old x :
  list_find P l = Some (i, old) → P x → find P (<[i := x]> l) = Some x.
Proof.
  intros (Hl & HP & Hlt)%list_find_Some Hx. unfold find.
  assert (Hi : (i < length l)%nat) by (by eapply lookup_lt_Some).
  assert (E : list_find P (<[i := x]> l) = Some (i, x)); [|by rewrite E].
  apply list_find_Some. split; [by apply list_lookup_insert_eq|]. split; [done|].
  intros j y Hj Hji. rewrite list_lookup_insert_ne in Hj by lia. by eapply Hlt.
Qed.

Lemma find_upsert_message m ms :
  find (has_id (ConversationMessage.id m)) (upsert_message m ms) = Some m.
Proof.
  unfold upsert_message.
  destruct (list_find _ ms) as [[i old]|] eqn:E.
  - by eapply find_insert_found.
  - apply find_snoc_absent; [by apply find_None_list_find|done].
Qed.

(** Round trip in the file-backed and object-storage classes: on an
    initialized store [saveMessage(m)] returns normally and
    [getMessage] then gives back the message as stored, which is [m]
    itself when [m.id] was set. *)
Lemma blob_roundtrip m (w : Runtime * BlobStore) :
  ready (snd w) = true →
  ∃ m' w',
    LocalStorage.saveMessage m w = (Returned m', w')
    ∧ S3Storage.saveMessage m w = (Returned m', w')
    ∧ LocalStorage.getMessage (ConversationMessage.id m') w' = (Returned (Some m'), w')
    ∧ S3Storage.getMessage (ConversationMessage.id m') w' = (Returned (Some m'), w')
    ∧ (ConversationMessage.id m ≠ "" → m' = m).
Proof.
  destruct w as [rt s]. cbn. intros Hr.
  pose proof (Local_saveMessage_run m rt s Hr) as Hrun. cbv zeta in Hrun.
  eexists _, _. split; [exact Hrun|]. split; [exact Hrun|].
  change S3Storage.getMessage with LocalStorage.getMessage.
  rewrite Local_getMessage_run by done.
  cbn [persisted set_sessions set_messages data messages].
  rewrite find_upsert_message. split; [done|]. split; [done|].
  intros Hid. by rewrite assign_id_set.
Qed.

Lemma Dynamo_getMessage_None i rt s :
  DynamoDBStorage.ready s = true → table_wf (DynamoDBStorage.table s) →
  DynamoDBStorage.getMessage i (rt, s) = (Returned None, (rt, s)).
Proof.
  intros Hr Hwf. rewrite Dynamo_getMessage_run by done.
  destruct (DynamoDBStorage.table s !! _) as [it|] eqn:E; [|done].
  apply Hwf in E. destruct it as [m c|x]; cbn in E.
  - apply (f_equal snd) in E. cbn [snd] in E. by apply MESSAGE_not_SESSION in E.
  - apply (f_equal fst) in E. cbn [fst] in E. by apply MESSAGE_not_SESSION in E.
Qed.

(** C1, at the input where the code departs from it: in the wide-column
    class [saveMessage(m)] writes the row of [m] under the key
    [(MESSAGE#id, SESSION#sessionId)], while [getMessage(id)] reads the
    key [(MESSAGE#id, MESSAGE#id)], under which no row is ever written.
    So whatever the table held, after [saveMessage(m)] the row of [m] is
    in the table and [getMessage(m.id)] returns null, not [m]. *)
Theorem DynamoDB_getMessage_misses_saved_message :
  ∀ (m : Message) (w w' : Runtime * DynamoDBStorage.State) (r : Outcome Message),
    DynamoDBStorage.ready (snd w) = true →
    table_wf (DynamoDBStorage.table (snd w)) →
    ConversationMessage.id m ≠ "" →
    DynamoDBStorage.saveMessage m w = (r, w') →
    (∃ c, DynamoDBStorage.table (snd w')
            !! (DynamoDBStorage.MESSAGE (ConversationMessage.id m),
                DynamoDBStorage.SESSION (ConversationMessage.sessionId m))
          = Some (DynamoDBStorage.MessageItem m c))
    ∧ DynamoDBStorage.getMessage (ConversationMessage.id m) w' = (Returned None, w').
Proof.
  intros m [rt s] [rt' s'] r Hr Hwf Hid Hsave. cbn in Hr, Hwf.
  set (key := (DynamoDBStorage.MESSAGE (ConversationMessage.id m),
               DynamoDBStorage.SESSION (ConversationMessage.sessionId m))).
  set (J := λ t : gmap DynamoDBStorage.Key DynamoDBStorage.Item,
              table_wf t ∧ ∃ c, t !! key = Some (DynamoDBStorage.MessageItem m c)).
  set (ok := λ (k : DynamoDBStorage.Key) (it : DynamoDBStorage.Item),
               row_wf k it ∧ k ≠ key).
  assert (HJ : on_table J s').
  { unfold DynamoDBStorage.saveMessage in Hsave.
    rewrite Dynamo_guarded_ok in Hsave by done.
    assert (Ht : truthy (Some (ConversationMessage.id m)) = Some (ConversationMessage.id m))
      by (cbn; by destruct (ConversationMessage.id m)).
    rewrite Ht in Hsave.
    unfold bind at 1 in Hsave. cbn [ret] in Hsave.
    unfold bind at 1 in Hsave. cbn [newDate fst snd] in Hsave.
    unfold bind at 1 in Hsave.
    unfold DynamoDBStorage.PutCommand at 1 in Hsave.
    unfold bind at 1 in Hsave. cbn [get put fst snd] in Hsave.
    pose proof (preserves_updateSessionInternal J ok) as Hp.
    match type of Hsave with
    | bind (DynamoDBStorage.updateSessionInternal ?sid) _ ?w1 = _ =>
        specialize (Hp ltac:(intros t k it [Hw [c Hc]] [Hrow Hne]; split;
                             [by apply table_wf_insert
                             |exists c; by rewrite lookup_insert_ne])
                       ltac:(intros; split;
                             [done|unfold key; intros E;
                              apply (f_equal fst) in E; cbn [fst] in E;
                              symmetry in E; by apply MESSAGE_not_SESSION in E])
                       sid w1);
        unfold bind in Hsave;
        destruct (DynamoDBStorage.updateSessionInternal sid w1) as [[[]|e] [rt1 s1]]
    end.
    all: cbn in Hsave; injection Hsave as _ _ <-; apply Hp; cbn;
      (split; [done|]); (split; [by apply table_wf_insert|]);
      exists (now rt); apply lookup_insert_eq. }
  destruct HJ as [Hr' [Hwf' Hrow]]. split; [exact Hrow|].
  by apply Dynamo_getMessage_None.
Qed.

Lemma DynamoDB_getMessage_misses_saved_message_witness :
  ∃ w',
    DynamoDBStorage.saveMessage hello (initialized session_row_table)
    = (Thrown ValidationException, w')
    ∧ DynamoDBStorage.getMessage "m1" w' = (Returned None, w').
Proof.
  exists (snd (DynamoDBStorage.saveMessage hello (initialized session_row_table))).
  assert (E : DynamoDBStorage.saveMessage hello (initialized session_row_table)
              = (Thrown ValidationException,
                 snd (DynamoDBStorage.saveMessage hello (initialized session_row_table))))
    by (vm_compute; reflexivity).
  split; [exact E|].
  exact (proj2 (DynamoDB_getMessage_misses_saved_message hello
                  (initialized session_row_table) _ _
                  eq_refl session_row_table_wf ltac:(discriminate) E)).
Defined.

(** ** C8: [saveUserMessage] and [saveSystemMessage] *)

(** The wide-column [saveMessage] for a message with a non-empty session
    id: the row of the message is put, then [updateSessionInternal] asks
    [getMessages] for the session, whose query the service rejects. *)
Lemma Dynamo_saveMessage_query m rt s :
  DynamoDBStorage.ready s = true → ConversationMessage.sessionId m ≠ "" →
  DynamoDBStorage.saveMessage m (rt, s)
  = (Thrown ValidationException,
     (tick (fst (assign_id rt m)),
      DynamoDBStorage.set_table
        (<[(DynamoDBStorage.MESSAGE (ConversationMessage.id (snd (assign_id rt m))),
            DynamoDBStorage.SESSION (ConversationMessage.sessionId m))
           := DynamoDBStorage.MessageItem (snd (assign_id rt m))
                (now (fst (assign_id rt m)))]> (DynamoDBStorage.table s)) s)).
Proof.
  intros Hr Hsid. unfold DynamoDBStorage.saveMessage, assign_id.
  rewrite Dynamo_guarded_ok by done.
  assert (Hq : ∀ w, DynamoDBStorage.ready (snd w) = true →
            DynamoDBStorage.updateSessionInternal (ConversationMessage.sessionId m) w
            = (Thrown ValidationException, w)).
  { intros [rt1 s1] Hr1. unfold DynamoDBStorage.updateSessionInternal.
    apply bind_thrown, (Dynamo_getMessages_query _ rt1 s1 (ConversationMessage.sessionId m) Hr1).
    cbn. by destruct (ConversationMessage.sessionId m). }
  destruct (truthy (Some (ConversationMessage.id m))) as [i|]; cbn [fst snd].
  - unfold bind at 1. cbn [ret].
    unfold bind at 1. cbn [newDate fst snd].
    unfold bind at 1. unfold DynamoDBStorage.PutCommand at 1.
    unfold bind at 1. cbn [get put fst snd].
    apply bind_thrown. by rewrite Hq.
  - unfold bind at 1. unfold bind at 1. cbn [uuidv4 ret fst snd].
    unfold bind at 1. cbn [newDate fst snd].
    unfold bind at 1. unfold DynamoDBStorage.PutCommand at 1.
    unfold bind at 1. cbn [get put fst snd].
    apply bind_thrown. by rewrite Hq.
Qed.

Lemma saveUserMessage_run {B} {backend : MemoryInterface.IMemoryStorage B}
    content md rt (s : MemoryManager.t B) sid :
  truthy (MemoryManager.currentSessionId s) = Some sid →
  MemoryManager.saveUserMessage content md (rt, s)
  = answer s (MemoryInterface.saveMessage
                (ConversationMessage.mk (fresh_uuid rt) sid user content (now rt) md)
                (tick (draw rt), MemoryManager.storage s)).
Proof.
  intros Hs. unfold MemoryManager.saveUserMessage, bind at 1, get. cbn [fst snd].
  rewrite Hs. unfold bind at 1. cbn [uuidv4 fst snd].
  unfold bind at 1. cbn [newDate fst snd].
  unfold bind, MemoryManager.on_storage, answer, with_storage, ret. cbn [fst snd].
  by destruct (MemoryInterface.saveMessage _ _) as [[m'|e] [rt' b']].
Qed.

Lemma saveSystemMessage_run {B} {backend : MemoryInterface.IMemoryStorage B}
    content md rt (s : MemoryManager.t B) sid :
  truthy (MemoryManager.currentSessionId s) = Some sid →
  MemoryManager.saveSystemMessage content md (rt, s)
  = answer s (MemoryInterface.saveMessage
                (ConversationMessage.mk (fresh_uuid rt) sid system content (now rt) md)
                (tick (draw rt), MemoryManager.storage s)).
Proof.
  intros Hs. unfold MemoryManager.saveSystemMessage, bind at 1, get. cbn [fst snd].
  rewrite Hs. unfold bind at 1. cbn [uuidv4 fst snd].
  unfold bind at 1. cbn [newDate fst snd].
  unfold bind, MemoryManager.on_storage, answer, with_storage, ret. cbn [fst snd].
  by destruct (MemoryInterface.saveMessage _ _) as [[m'|e] [rt' b']].
Qed.

Lemma saved_as_intro (s : MemoryManager.t BlobStore) rt msg save :
  ready (MemoryManager.storage s) = true →
  ConversationMessage.id msg ≠ "" →
  save (rt, s) = answer s (LocalStorage.saveMessage msg
                             (tick (draw rt), MemoryManager.storage s)) →
  saved_as s rt (ConversationMessage.id msg) msg save.
Proof.
  intros Hr Hu Hrun.
  pose proof (Local_saveMessage_run msg (tick (draw rt)) (MemoryManager.storage s) Hr) as Hl.
  cbv zeta in Hl. rewrite (assign_id_set _ msg Hu) in Hl. cbn [fst snd] in Hl.
  rewrite Hl in Hrun. cbn [answer] in Hrun.
  eexists _, _. split; [exact Hrun|].
  change S3Storage.getMessage with LocalStorage.getMessage.
  rewrite Local_getMessage_run by done.
  cbn [persisted set_sessions set_messages data messages durable].
  rewrite (find_upsert_message msg). split; [|done].
  eapply (find_Some_elem (has_id (ConversationMessage.id msg))), find_upsert_message.
Qed.

Lemma written_then_rejected_intro (s : MemoryManager.t DynamoDBStorage.State) rt msg save :
  DynamoDBStorage.ready (MemoryManager.storage s) = true →
  ConversationMessage.id msg ≠ "" →
  ConversationMessage.sessionId msg ≠ "" →
  save (rt, s) = answer s (DynamoDBStorage.saveMessage msg
                             (tick (draw rt), MemoryManager.storage s)) →
  written_then_rejected s rt msg save.
Proof.
  intros Hr Hu Hsid Hrun. unfold written_then_rejected.
  rewrite Hrun, (Dynamo_saveMessage_query msg _ _ Hr Hsid).
  by rewrite (assign_id_set _ msg Hu).
Qed.

(** C8: with no current session ([currentSessionId] null; the check
    [!this.currentSessionId] also rejects the empty string)
    [saveUserMessage] and [saveSystemMessage] throw the "no active
    session" error and change nothing.  Otherwise they build the message
    with a fresh identifier, the current session id, the respective role,
    the content, the current time and the metadata, hand it to the
    backend's [saveMessage], and return the message's identifier (or
    propagate the backend's error).  Over an initialized file-backed or
    object-storage backend the call returns the generated identifier, the
    backend holds the message built, its durable blob is written with
    it, and [getMessage] on the backend finds it.  Over an initialized
    wide-column backend the call returns no identifier: the backend's
    [saveMessage] puts the row of the message and then throws
    [ValidationException], because the query by which it recounts the
    session is rejected; the manager propagates that error. *)
Theorem save_user_and_system_message :
  ∀ {B : Type} (backend : MemoryInterface.IMemoryStorage B)
    (content : string) (md : option Metadata) (rt : Runtime) (s : MemoryManager.t B)
    (local : MemoryManager.t BlobStore)
    (wide : MemoryManager.t DynamoDBStorage.State),
    (truthy (MemoryManager.currentSessionId s) = None →
       MemoryManager.saveUserMessage content md (rt, s) = (no_active_session, (rt, s))
       ∧ MemoryManager.saveSystemMessage content md (rt, s) = (no_active_session, (rt, s)))
    ∧ (MemoryManager.currentSessionId s = None →
       truthy (MemoryManager.currentSessionId s) = None)
    ∧ (∀ sid, truthy (MemoryManager.currentSessionId s) = Some sid →
         MemoryManager.currentSessionId s = Some sid
         ∧ MemoryManager.saveUserMessage content md (rt, s)
           = answer s (MemoryInterface.saveMessage
                         (ConversationMessage.mk (fresh_uuid rt) sid user content (now rt) md)
                         (tick (draw rt), MemoryManager.storage s))
         ∧ MemoryManager.saveSystemMessage content md (rt, s)
           = answer s (MemoryInterface.saveMessage
                         (ConversationMessage.mk (fresh_uuid rt) sid system content (now rt) md)
                         (tick (draw rt), MemoryManager.storage s)))
    ∧ (∀ sid,
         truthy (MemoryManager.currentSessionId local) = Some sid →
         ready (MemoryManager.storage local) = true →
         fresh_uuid rt ≠ "" →
         saved_as local rt (fresh_uuid rt)
           (ConversationMessage.mk (fresh_uuid rt) sid user content (now rt) md)
           (MemoryManager.saveUserMessage (backend := LocalStorage_storage) content md)
         ∧ saved_as local rt (fresh_uuid rt)
             (ConversationMessage.mk (fresh_uuid rt) sid system content (now rt) md)
             (MemoryManager.saveSystemMessage (backend := LocalStorage_storage) content md)
         ∧ saved_as local rt (fresh_uuid rt)
             (ConversationMessage.mk (fresh_uuid rt) sid user content (now rt) md)
             (MemoryManager.saveUserMessage (backend := S3Storage_storage) content md)
         ∧ saved_as local rt (fresh_uuid rt)
             (ConversationMessage.mk (fresh_uuid rt) sid system content (now rt) md)
             (MemoryManager.saveSystemMessage (backend := S3Storage_storage) content md))
    ∧ (∀ sid,
         truthy (MemoryManager.currentSessionId wide) = Some sid →
         DynamoDBStorage.ready (MemoryManager.storage wide) = true →
         fresh_uuid rt ≠ "" →
         written_then_rejected wide rt
           (ConversationMessage.mk (fresh_uuid rt) sid user content (now rt) md)
           (MemoryManager.saveUserMessage (backend := DynamoDBStorage_storage) content md)
         ∧ written_then_rejected wide rt
             (ConversationMessage.mk (fresh_uuid rt) sid system content (now rt) md)
             (MemoryManager.saveSystemMessage (backend := DynamoDBStorage_storage)
                content md)).
Proof.
  intros B backend content md rt s local wide.
  split; [|split; [|split; [|split]]].
  - intros Hn. split.
    + unfold MemoryManager.saveUserMessage, bind, get. cbn [fst snd]. by rewrite Hn.
    + unfold MemoryManager.saveSystemMessage, bind, get. cbn [fst snd]. by rewrite Hn.
  - by intros ->.
  - intros sid Hs. split; [|split].
    + destruct (MemoryManager.currentSessionId s) as [[|]|]; by cbn in Hs.
    + by apply saveUserMessage_run.
    + by apply saveSystemMessage_run.
  - intros sid Hs Hr Hu.
    split; [|split; [|split]];
      match goal with
      | |- saved_as _ _ _ ?msg _ => apply (saved_as_intro local rt msg)
      end; try done.
    + by rewrite (saveUserMessage_run (backend := LocalStorage_storage) _ _ _ _ _ Hs).
    + by rewrite (saveSystemMessage_run (backend := LocalStorage_storage) _ _ _ _ _ Hs).
    + by rewrite (saveUserMessage_run (backend := S3Storage_storage) _ _ _ _ _ Hs).
    + by rewrite (saveSystemMessage_run (backend := S3Storage_storage) _ _ _ _ _ Hs).
  - intros sid Hs Hr Hu.
    assert (Hsid : sid ≠ "")
      by (intros ->; destruct (MemoryManager.currentSessionId wide) as [[|]|]; by cbn in Hs).
    split;
      match goal with
      | |- written_then_rejected _ _ ?msg _ =>
          apply (written_then_rejected_intro wide rt msg)
      end; try done.
    + by rewrite (saveUserMessage_run (backend := DynamoDBStorage_storage) _ _ _ _ _ Hs).
    + by rewrite (saveSystemMessage_run (backend := DynamoDBStorage_storage) _ _ _ _ _ Hs).
Qed.

Lemma save_user_and_system_message_witness :
  saved_as (snd manager_on_s1) sample_runtime "generated-id"
    (ConversationMessage.mk "generated-id" "s1" user "hi" 0 None)
    (MemoryManager.saveUserMessage (backend := LocalStorage_storage) "hi" None)
  ∧ written_then_rejected (snd table_manager_on_s1) sample_runtime
      (ConversationMessage.mk "generated-id" "s1" user "hi" 0 None)
      (MemoryManager.saveUserMessage (backend := DynamoDBStorage_storage) "hi" None).
Proof.
  destruct (save_user_and_system_message LocalStorage_storage "hi" None sample_runtime
              (snd manager_on_s1) (snd manager_on_s1) (snd table_manager_on_s1))
    as (_ & _ & _ & Hl & Hd).
  split.
  - exact (proj1 (Hl "s1" eq_refl eq_refl ltac:(discriminate))).
  - exact (proj1 (Hd "s1" eq_refl eq_refl ltac:(discriminate))).
Defined.

(** ** C2: the derived message count *)

Lemma upsert_session_spec sid u rt ss :
  SessionUpdates.id u = None →
  (∃ x, find (session_has_id sid) (snd (upsert_session sid u rt ss)) = Some x
        ∧ ConversationSession.id x = sid
        ∧ ConversationSession.messageCount x = recorded_count sid u ss)
  ∧ (NoDup (ConversationSession.id <$> ss) →
     NoDup (ConversationSession.id <$> snd (upsert_session sid u rt ss))
     ∧ ∀ y, y ∈ snd (upsert_session sid u rt ss) →
            (ConversationSession.id y = sid
             ∧ ConversationSession.messageCount y = recorded_count sid u ss)
            ∨ (y ∈ ss ∧ ConversationSession.id y ≠ sid)).
Proof.
  intros Hid. unfold upsert_session, recorded_count, find.
  destruct (list_find (session_has_id sid) ss) as [[i old]|] eqn:E; cbn [fst snd fmap option_fmap option_map].
  - pose proof E as (Hl & HP & Hlt)%list_find_Some.
    set (x := with_updatedAt (now rt) (SessionUpdates.spread old u)).
    assert (Hx : ConversationSession.id x = sid) by (unfold x; cbn; by rewrite Hid).
    assert (Hc : ConversationSession.messageCount x
                 = default (ConversationSession.messageCount old)
                           (SessionUpdates.messageCount u)) by done.
    split.
    + exists x. split; [|done]. by eapply (find_insert_found (session_has_id sid)).
    + intros Hnd.
      assert (Hli : (ConversationSession.id <$> ss) !! i = Some sid)
        by (by rewrite list_lookup_fmap, Hl; cbn; rewrite HP).
      split.
      * rewrite list_fmap_insert, Hx. by rewrite list_insert_id.
      * intros y [j Hj]%list_elem_of_lookup.
        destruct (decide (j = i)) as [->|Hne].
        -- rewrite list_lookup_insert_eq in Hj by (by eapply lookup_lt_Some).
           injection Hj as <-. by left.
        -- rewrite list_lookup_insert_ne in Hj by done. right.
           split; [apply list_elem_of_lookup; eauto|]. intros Hy.
           apply Hne. eapply (NoDup_lookup _ j i sid); [done| |done].
           by rewrite list_lookup_fmap, Hj; cbn; rewrite Hy.
  - pose proof E as Hall%list_find_None.
    set (x := SessionUpdates.spread
                (ConversationSession.mk sid None (now rt) (now (tick rt)) 1 None) u).
    assert (Hx : ConversationSession.id x = sid) by (unfold x; cbn; by rewrite Hid).
    assert (Hc : ConversationSession.messageCount x
                 = default 1 (SessionUpdates.messageCount u)) by done.
    split.
    + exists x. split; [|done].
      apply (find_snoc_absent (session_has_id sid)); [by apply find_None_list_find|done].
    + intros Hnd. split.
      * rewrite fmap_app.
        change (ConversationSession.id <$> [x]) with [ConversationSession.id x].
        rewrite Hx. apply NoDup_app. split; [done|]. split.
        -- intros z Hz Hz'. apply list_elem_of_singleton in Hz'. subst z.
           apply list_elem_of_fmap in Hz as (y & Hy & Hin).
           rewrite Forall_forall in Hall. by apply (Hall y Hin).
        -- apply NoDup_singleton.
      * intros y [Hy|Hy]%elem_of_app.
        -- right. split; [done|]. rewrite Forall_forall in Hall. by apply Hall.
        -- apply list_elem_of_singleton in Hy. subst y. by left.
Qed.

Lemma filter_insert_irrelevant {A} (P : A → Prop) `{!∀ x, Decision (P x)}
    (l : list A) i old x :
  l !! i = Some old → ¬ P old → ¬ P x → filter P (<[i := x]> l) = filter P l.
Proof.
  intros Hl Hold Hx.
  rewrite insert_take_drop by (by eapply lookup_lt_Some).
  rewrite <-(take_drop_middle l i old Hl) at 3.
  rewrite !filter_app, !filter_cons. by rewrite !decide_False.
Qed.

Lemma filter_delete_irrelevant {A} (P : A → Prop) `{!∀ x, Decision (P x)}
    (l : list A) i old :
  l !! i = Some old → ¬ P old → filter P (delete i l) = filter P l.
Proof.
  intros Hl Hold. rewrite delete_take_drop.
  rewrite <-(take_drop_middle l i old Hl) at 3.
  rewrite !filter_app, !filter_cons. by rewrite decide_False.
Qed.

(** Upserting a message leaves the messages of every other session as
    they were, unless it replaces a message of that session. *)
Lemma of_session_upsert_other sid m ms :
  sid ≠ ConversationMessage.sessionId m →
  (∀ m0, m0 ∈ ms → ConversationMessage.id m0 = ConversationMessage.id m →
         ConversationMessage.sessionId m0 = ConversationMessage.sessionId m) →
  of_session sid (upsert_message m ms) = of_session sid ms.
Proof.
  intros Hne Hsame. unfold of_session, upsert_message.
  destruct (list_find _ ms) as [[i old]|] eqn:E.
  - apply list_find_Some in E as (Hl & HP & _).
    eapply filter_insert_irrelevant; [done| |congruence].
    intros Hold. apply Hne. rewrite <-Hold. apply Hsame; [|done].
    apply list_elem_of_lookup. eauto.
  - rewrite filter_app, filter_cons, decide_False by congruence.
    by rewrite filter_nil, app_nil_r.
Qed.

Lemma of_session_delete_other sid ms i old :
  ms !! i = Some old → sid ≠ ConversationMessage.sessionId old →
  of_session sid (delete i ms) = of_session sid ms.
Proof.
  intros Hl Hne. unfold of_session.
  eapply filter_delete_irrelevant; [done|]. congruence.
Qed.

(** After [updateSessionInternal sid] with the recomputed count, all
    counts are right again, provided they were right for the other
    sessions and the session ids are unique. *)
Lemma counts_ok_upsert sid u rt ss ms ms' :
  SessionUpdates.id u = None →
  recorded_count sid u ss = Z.of_nat (length (of_session sid ms')) →
  NoDup (ConversationSession.id <$> ss) →
  counts_ok_on ss ms →
  (∀ sid', sid' ≠ sid → of_session sid' ms' = of_session sid' ms) →
  NoDup (ConversationSession.id <$> snd (upsert_session sid u rt ss))
  ∧ counts_ok_on (snd (upsert_session sid u rt ss)) ms'.
Proof.
  intros Hid Hcount Hnd Hok Hother.
  destruct (upsert_session_spec sid u rt ss Hid) as [_ Hspec].
  destruct (Hspec Hnd) as [Hnd' Hel]. split; [done|].
  intros y Hy. destruct (Hel y Hy) as [[Hyid Hyc]|[Hin Hne]].
  - by rewrite Hyc, Hyid.
  - rewrite (Hok y Hin). by rewrite Hother.
Qed.

Lemma Local_deleteMessage_run i rt s :
  ready s = true →
  LocalStorage.deleteMessage i (rt, s)
  = match list_find (has_id i) (messages (data s)) with
    | Some (j, m0) =>
        let ms' := delete j (messages (data s)) in
        let up := upsert_session (ConversationMessage.sessionId m0)
                    (recount (ConversationMessage.sessionId m0) ms') rt (sessions (data s)) in
        (Returned tt,
         (tick (fst up), persisted (now (fst up)) (set_sessions (snd up) (set_messages ms' s))))
    | None => (Returned tt, (rt, s))
    end.
Proof.
  intros Hr. unfold LocalStorage.deleteMessage.
  rewrite Local_guarded_ok by done.
  unfold bind at 1. cbn [get fst snd].
  destruct (list_find (has_id i) (messages (data s))) as [[j m0]|]; [|done].
  unfold bind at 1. cbn [put fst snd].
  unfold bind at 1. cbn [get fst snd].
  rewrite (bind_run _ _ _ _ _ (Local_updateSessionInternal_run _ _ _ _)).
  by rewrite Local_saveToFile_run.
Qed.

(** C2 as stated fails for [updateSession]: it merges the fields it is
    given and recomputes nothing.  On a fresh store
    [updateSession("s1", {})] creates the record of ["s1"] with the
    default [messageCount: 1] although no message is stored. *)
Lemma updateSession_does_not_recount :
  ¬ (∀ (w w' : Runtime * BlobStore) (sid : string) (u : SessionUpdates.t),
       ready (snd w) = true →
       LocalStorage.updateSession sid u w = (Returned tt, w') →
       counts_ok (data (snd w'))).
Proof.
  intros H.
  specialize (H empty_store _ "s1" SessionUpdates.none eq_refl eq_refl).
  specialize (H _ (list_elem_of_here _ _)). vm_compute in H. discriminate.
Qed.

Lemma recorded_count_given sid u ss n :
  SessionUpdates.messageCount u = Some n → recorded_count sid u ss = n.
Proof. unfold recorded_count. by intros ->. Qed.

Lemma recount_step sid u rt rt1 t (s : BlobStore) ms' :
  ready s = true →
  SessionUpdates.id u = None →
  SessionUpdates.messageCount u = Some (Z.of_nat (length (of_session sid ms'))) →
  let up := upsert_session sid u rt (sessions (data s)) in
  let w' := (rt1, persisted t (set_sessions (snd up) (set_messages ms' s))) in
  recounted sid w'
  ∧ (count_invariant (rt, s) →
     (∀ sid', sid' ≠ sid → of_session sid' ms' = of_session sid' (messages (data s))) →
     count_invariant w').
Proof.
  intros Hr Hid Hcount up w'.
  destruct (upsert_session_spec sid u rt (sessions (data s)) Hid) as [(x & Hx & _ & Hc) _].
  split.
  - exists x. unfold w'. change S3Storage.getSession with LocalStorage.getSession.
    rewrite Local_getSession_run by done.
    cbn [persisted set_sessions set_messages data sessions messages fst snd].
    unfold up. rewrite Hx. split; [done|]. split; [done|].
    by rewrite Hc, (recorded_count_given _ _ _ _ Hcount).
  - intros [Hnd Hok] Hother. unfold count_invariant, unique_sessions, counts_ok, w'.
    cbn [persisted set_sessions set_messages data sessions messages fst snd] in *.
    apply (counts_ok_upsert sid u rt _ (messages (data s))); try done.
    by apply recorded_count_given.
Qed.

(** C2, amended: on an initialized file-backed or object-storage store,
    - [saveMessage(m)] returns normally and recomputes the count of
      [m]'s session: [getSession(m.sessionId)] then finds a record whose
      [messageCount] is the number of stored messages of that session;
      the other session records are left as they were, so the invariant
      (unique session ids, every [messageCount] right) is kept whenever
      [m] does not replace a stored message of another session;
    - [deleteMessage(id)] returns normally, recomputes the count of the
      removed message's session in the same way, and keeps the invariant;
    - [updateSession(id, updates)] with updates that carry no [id]
      returns normally and recomputes nothing: the record it leaves under
      [id] has the [messageCount] given among the updates, else the one
      recorded before, else [1] for a record it creates; the messages
      are untouched, and the invariant is kept exactly when that value
      is the number of stored messages of [id]. *)
Theorem message_count_maintenance :
  ∀ (w : Runtime * BlobStore),
    ready (snd w) = true →
    (∀ m, ∃ m' w',
        LocalStorage.saveMessage m w = (Returned m', w')
        ∧ S3Storage.saveMessage m w = (Returned m', w')
        ∧ recounted (ConversationMessage.sessionId m) w'
        ∧ (count_invariant w →
           (∀ m0, m0 ∈ messages (data (snd w)) →
                  ConversationMessage.id m0 = ConversationMessage.id m' →
                  ConversationMessage.sessionId m0 = ConversationMessage.sessionId m) →
           count_invariant w'))
    ∧ (∀ i, ∃ w',
        LocalStorage.deleteMessage i w = (Returned tt, w')
        ∧ S3Storage.deleteMessage i w = (Returned tt, w')
        ∧ (∀ m0, LocalStorage.getMessage i w = (Returned (Some m0), w) →
                 recounted (ConversationMessage.sessionId m0) w')
        ∧ (count_invariant w → count_invariant w'))
    ∧ (∀ sid u, SessionUpdates.id u = None →
        ∃ w' x,
          LocalStorage.updateSession sid u w = (Returned tt, w')
          ∧ S3Storage.updateSession sid u w = (Returned tt, w')
          ∧ LocalStorage.getSession sid w' = (Returned (Some x), w')
          ∧ ConversationSession.messageCount x
            = recorded_count sid u (sessions (data (snd w)))
          ∧ messages (data (snd w')) = messages (data (snd w))
          ∧ (count_invariant w →
             (count_invariant w'
              ↔ recorded_count sid u (sessions (data (snd w)))
                = Z.of_nat (length (of_session sid (messages (data (snd w)))))))).
Proof.
  intros [rt s] Hr. cbn [snd] in Hr. split; [|split].
  - intros m.
    pose proof (Local_saveMessage_run m rt s Hr) as Hrun. cbv zeta in Hrun.
    destruct (assign_id rt m) as [rt0 m'] eqn:Ea. cbn [fst snd] in Hrun.
    assert (Hsid : ConversationMessage.sessionId m' = ConversationMessage.sessionId m).
    { pose proof (assign_id_sessionId rt m) as H. by rewrite Ea in H. }
    rewrite Hsid in Hrun.
    eexists m', _. split; [exact Hrun|]. split; [exact Hrun|].
    edestruct (recount_step (ConversationMessage.sessionId m)
                 (count_update (now rt0) (ConversationMessage.sessionId m)
                    (upsert_message m' (messages (data s))))
                 (tick rt0)) as [Hrec Hinv]; [exact Hr|done|done|].
    split; [exact Hrec|].
    intros Hi Hsame. apply Hinv; [exact Hi|].
    intros sid' Hne. apply of_session_upsert_other; [by rewrite Hsid|].
    intros m0 Hin Hm0. rewrite Hsid. by apply Hsame.
  - intros i. rewrite (Local_deleteMessage_run i rt s Hr).
    change S3Storage.deleteMessage with LocalStorage.deleteMessage.
    rewrite (Local_deleteMessage_run i rt s Hr).
    rewrite (Local_getMessage_run i rt s Hr).
    destruct (list_find (has_id i) (messages (data s))) as [[j m0]|] eqn:E.
    + cbv zeta. eexists. split; [done|]. split; [done|].
      pose proof (find_list_find _ _ _ _ E) as Hf.
      apply list_find_Some in E as (Hl & _ & _).
      edestruct (recount_step (ConversationMessage.sessionId m0)
                   (recount (ConversationMessage.sessionId m0) (delete j (messages (data s))))
                   rt) as [Hrec Hinv]; [exact Hr|done|done|].
      split.
      * intros m1 Hm. injection Hm as Hm.
        assert (Heq : Some m0 = Some m1) by exact (eq_trans (eq_sym Hf) Hm).
        injection Heq as <-. exact Hrec.
      * intros Hi. apply Hinv; [exact Hi|].
        intros sid' Hne. by eapply of_session_delete_other.
    + eexists. split; [done|]. split; [done|]. split; [|done].
      intros m0 Hm. injection Hm as Hm.
      pose proof (proj2 (find_None_list_find _ _) E) as Hn.
      exfalso. assert (Heq : None = Some m0) by exact (eq_trans (eq_sym Hn) Hm).
      discriminate Heq.
  - intros sid u Hid.
    pose proof (Local_updateSession_run sid u rt s Hr) as Hrun.
    destruct (upsert_session_spec sid u rt (sessions (data s)) Hid)
      as [(x & Hx & _ & Hc) Hspec].
    eexists _, x. split; [exact Hrun|]. split; [exact Hrun|].
    rewrite Local_getSession_run by done.
    cbn [persisted set_sessions set_messages data sessions messages fst snd].
    rewrite Hx. split; [done|]. split; [done|]. split; [done|].
    intros [Hnd Hok]. unfold count_invariant, unique_sessions, counts_ok.
    cbn [persisted set_sessions set_messages data sessions messages fst snd] in *.
    split.
    + intros [_ Hok']. apply find_Some_elem in Hx as [Hin Hxid].
      rewrite <-Hc, (Hok' x Hin). by rewrite Hxid.
    + intros Hcount. by apply (counts_ok_upsert sid u rt _ (messages (data s))).
Qed.

Lemma message_count_maintenance_witness :
  ∃ m' w',
    LocalStorage.saveMessage hello empty_store = (Returned m', w')
    ∧ recounted "s1" w'.
Proof.
  destruct (message_count_maintenance empty_store eq_refl) as [H _].
  destruct (H hello) as (m' & w' & Hs & _ & Hr & _).
  exists m', w'. split; [exact Hs|exact Hr].
Defined.

(** ** Consequences of the wrong read key in the wide-column class *)

(** X26: the wide-column [deleteMessage] never deletes.  It starts by
    [getMessage], which on a table of the class's layout finds nothing, so
    for every id it returns normally and leaves the table, the message
    with that id included, and the process state as they were. *)
Lemma Dynamo_deleteMessage_noop i rt s :
  DynamoDBStorage.ready s = true → table_wf (DynamoDBStorage.table s) →
  DynamoDBStorage.deleteMessage i (rt, s) = (Returned tt, (rt, s)).
Proof.
  intros Hr Hwf. unfold DynamoDBStorage.deleteMessage.
  rewrite Dynamo_guarded_ok by done.
  by rewrite (bind_run _ _ _ _ _ (Dynamo_getMessage_None i rt s Hr Hwf)).
Qed.

(** X25: the wide-column [saveMessage] never completes for a message
    with a non-empty session id, whether or not the session has a row.
    It assigns the identifier (a fresh one when the message has none),
    reads the clock once, puts the row of the message under
    [(MESSAGE#id, SESSION#sessionId)] and then throws
    [ValidationException]: [updateSessionInternal] starts with
    [getMessages({ sessionId })], whose query the service rejects, so no
    session row is read or written and no count is updated. *)
Lemma Dynamo_saveMessage_rejected m rt s :
  DynamoDBStorage.ready s = true → ConversationMessage.sessionId m ≠ "" →
  ∃ m',
    (ConversationMessage.id m ≠ "" → m' = m)
    ∧ (ConversationMessage.id m = "" →
       m' = ConversationMessage.with_id (fresh_uuid rt) m)
    ∧ DynamoDBStorage.saveMessage m (rt, s)
      = (Thrown ValidationException,
         (tick (fst (assign_id rt m)),
          DynamoDBStorage.set_table
            (<[(DynamoDBStorage.MESSAGE (ConversationMessage.id m'),
                DynamoDBStorage.SESSION (ConversationMessage.sessionId m))
               := DynamoDBStorage.MessageItem m' (now rt)]> (DynamoDBStorage.table s)) s)).
Proof.
  intros Hr Hsid. exists (snd (assign_id rt m)).
  split; [|split].
  - intros Hid. by rewrite assign_id_set.
  - intros Hid. unfold assign_id. by rewrite Hid.
  - rewrite (Dynamo_saveMessage_query m rt s Hr Hsid).
    unfold assign_id. by destruct (truthy _).
Qed.

Lemma Dynamo_saveMessage_rejected_witness :
  DynamoDBStorage.saveMessage hello (initialized session_row_table)
  = (Thrown ValidationException,
     (tick sample_runtime,
      DynamoDBStorage.set_table
        (<[(DynamoDBStorage.MESSAGE "m1", DynamoDBStorage.SESSION "s1")
           := DynamoDBStorage.MessageItem hello 0]> session_row_table)
        (snd (initialized session_row_table)))).
Proof.
  destruct (Dynamo_saveMessage_rejected hello sample_runtime
              (snd (initialized session_row_table)) eq_refl ltac:(discriminate))
    as (m' & Hm & _ & Hs).
  rewrite (Hm ltac:(discriminate)) in Hs. exact Hs.
Defined.

(** * Further properties of the code *)

(** ** Before [initialize] *)

(** X1: before [initialize] has succeeded, every operation of the three
    classes that starts with the readiness check ([saveMessages] on a
    non-empty list included) throws "Storage not initialized" and leaves
    the store, the durable blob and the process state as they were. *)
Theorem operations_fail_before_initialize :
  ∀ (wl : Runtime * BlobStore) (wd : Runtime * DynamoDBStorage.State),
    ready (snd wl) = false →
    DynamoDBStorage.ready (snd wd) = false →
    all_rejected LocalStorage_storage wl
    ∧ all_rejected S3Storage_storage wl
    ∧ all_rejected DynamoDBStorage_storage wd.
Proof.
  intros [rt s] [rt' s'] Hr Hr'. cbn [snd] in *.
  pose proof (Local_not_initialized rt s Hr) as Hl.
  pose proof (Dynamo_not_initialized rt' s' Hr') as Hd.
  split; [exact Hl|]. split; [exact Hl|exact Hd].
Qed.

Lemma operations_fail_before_initialize_witness :
  rejected (LocalStorage.getMessages no_options) fresh_store
  ∧ rejected (DynamoDBStorage.clear) uninitialized_table.
Proof.
  destruct (operations_fail_before_initialize fresh_store uninitialized_table
              eq_refl eq_refl) as (Hl & _ & Hd).
  split.
  - destruct Hl as (_ & _ & H & _). exact (H no_options).
  - destruct Hd as (_ & _ & _ & _ & _ & _ & _ & _ & _ & _ & H). exact H.
Defined.

(** ** Point lookups and deletions in the file-backed store *)

(** X2: on an initialized file-backed or object-storage store
    [getMessage(id)] never throws and changes nothing; it returns null
    exactly when no stored message has that id, and otherwise the first
    stored message with that id. *)
Theorem getMessage_first_match_or_null :
  ∀ (i : string) (w : Runtime * BlobStore),
    ready (snd w) = true →
    ∃ r,
      LocalStorage.getMessage i w = (Returned r, w)
      ∧ S3Storage.getMessage i w = (Returned r, w)
      ∧ (r = None ↔ ∀ m, m ∈ messages (data (snd w)) → ConversationMessage.id m ≠ i)
      ∧ (∀ m, r = Some m →
           ∃ k, messages (data (snd w)) !! k = Some m
                ∧ ConversationMessage.id m = i
                ∧ ∀ j m', messages (data (snd w)) !! j = Some m' → (j < k)%nat →
                          ConversationMessage.id m' ≠ i).
Proof.
  intros i [rt s] Hr. cbn [snd] in *.
  exists (find (has_id i) (messages (data s))).
  split; [by apply Local_getMessage_run|].
  split; [by apply Local_getMessage_run|]. split.
  - rewrite find_None_list_find, list_find_None, Forall_forall. done.
  - intros m Hm. unfold find in Hm.
    destruct (list_find (has_id i) (messages (data s))) as [[k m0]|] eqn:E; [|done].
    cbn in Hm. injection Hm as ->.
    apply list_find_Some in E as (Hl & HP & Hlt). exists k. split; [done|].
    split; [done|]. intros j m' Hj Hjk. by apply (Hlt j m').
Qed.

Lemma getMessage_first_match_or_null_witness :
  ∃ r,
    LocalStorage.getMessage "m1" one_message_store = (Returned r, one_message_store)
    ∧ (r = None ↔ ∀ m, m ∈ [hello] → ConversationMessage.id m ≠ "m1").
Proof.
  destruct (getMessage_first_match_or_null "m1" one_message_store eq_refl)
    as (r & Hg & _ & Hn & _).
  exists r. split; [exact Hg|exact Hn].
Defined.

(** X3: [deleteMessage(id)] for an id that no stored message has returns
    normally and is a no-op: nothing is removed, no session is touched,
    nothing is written to the blob and the clock is not read. *)
Theorem deleteMessage_absent_is_noop :
  ∀ (i : string) (w : Runtime * BlobStore),
    ready (snd w) = true →
    (∀ m, m ∈ messages (data (snd w)) → ConversationMessage.id m ≠ i) →
    LocalStorage.deleteMessage i w = (Returned tt, w)
    ∧ S3Storage.deleteMessage i w = (Returned tt, w).
Proof.
  intros i [rt s] Hr Habs. cbn [snd] in *.
  change S3Storage.deleteMessage with LocalStorage.deleteMessage.
  rewrite (Local_deleteMessage_run i rt s Hr).
  assert (E : list_find (has_id i) (messages (data s)) = None).
  { apply list_find_None, Forall_forall. exact Habs. }
  by rewrite E.
Qed.

Lemma deleteMessage_absent_is_noop_witness :
  LocalStorage.deleteMessage "m2" one_message_store = (Returned tt, one_message_store).
Proof.
  refine (proj1 (deleteMessage_absent_is_noop "m2" one_message_store eq_refl _)).
  intros m Hm. apply list_elem_of_singleton in Hm. subst m. discriminate.
Defined.

(** ** [clear] *)

Lemma Local_clear_run rt s :
  ready s = true →
  LocalStorage.clear (rt, s)
  = (Returned tt,
     (tick (tick rt),
      persisted (now (tick rt))
        (set_data {| messages := []; sessions := []; lastUpdated := now rt |} s))).
Proof. intros H. unfold LocalStorage.clear. by rewrite Local_guarded_ok. Qed.

Lemma delete_all_keys (t : gmap DynamoDBStorage.Key DynamoDBStorage.Item) :
  delete_all (fst <$> map_to_list t) t = ∅.
Proof.
  apply map_eq. intros k. rewrite lookup_empty.
  destruct (delete_all _ t !! k) as [it|] eqn:E; [|done].
  pose proof (delete_all_lookup_Some _ _ _ _ E) as Hk.
  rewrite delete_all_lookup_in in E; [done|].
  apply list_elem_of_fmap. exists (k, it). split; [done|].
  by apply elem_of_map_to_list.
Qed.

Lemma Dynamo_clear_run rt s :
  DynamoDBStorage.ready s = true →
  DynamoDBStorage.clear (rt, s) = (Returned tt, (rt, DynamoDBStorage.set_table ∅ s)).
Proof.
  intros Hr. unfold DynamoDBStorage.clear.
  rewrite Dynamo_guarded_ok by done.
  unfold DynamoDBStorage.rows_where.
  unfold bind at 1. unfold bind at 1. cbn [get ret fst snd].
  assert (E : filter (λ kv : DynamoDBStorage.Key * DynamoDBStorage.Item, True)
                (map_to_list (DynamoDBStorage.table s))
              = map_to_list (DynamoDBStorage.table s)) by apply filter_True_id.
  etrans; [|by rewrite <-(delete_all_keys (DynamoDBStorage.table s))].
  rewrite <-E at 2.
  apply (Dynamo_delete_loop fst).
Qed.

Lemma Dynamo_getStats_empty rt s :
  DynamoDBStorage.ready s = true → DynamoDBStorage.table s = ∅ →
  DynamoDBStorage.getStats (rt, s) = (Returned (no_message_stats 0), (rt, s)).
Proof.
  intros Hr Ht.
  rewrite Dynamo_getStats_run by (by rewrite ?Ht; try apply empty_table_wf).
  unfold stored_messages, stored_sessions. rewrite Ht, map_to_list_empty. cbn.
  by rewrite stats_of_no_messages.
Qed.

(** X4: on an initialized store [clear()] returns normally and leaves an
    empty, still initialized store: no message, no session, the blob
    overwritten with the empty data (file-backed and object-storage
    classes), no row in the table (wide-column class); [getStats] then
    reports zeros and a second [clear()] succeeds and leaves the store
    empty again. *)
Theorem clear_empties_the_store :
  ∀ (wl : Runtime * BlobStore) (wd : Runtime * DynamoDBStorage.State),
    ready (snd wl) = true →
    DynamoDBStorage.ready (snd wd) = true →
    (∃ wl' wl'',
        LocalStorage.clear wl = (Returned tt, wl')
        ∧ S3Storage.clear wl = (Returned tt, wl')
        ∧ messages (data (snd wl')) = [] ∧ sessions (data (snd wl')) = []
        ∧ ready (snd wl') = true
        ∧ durable (snd wl') = Stored (data (snd wl'))
        ∧ LocalStorage.getStats wl' = (Returned (no_message_stats 0), wl')
        ∧ LocalStorage.clear wl' = (Returned tt, wl'')
        ∧ messages (data (snd wl'')) = [] ∧ sessions (data (snd wl'')) = [])
    ∧ (∃ wd',
        DynamoDBStorage.clear wd = (Returned tt, wd')
        ∧ DynamoDBStorage.table (snd wd') = ∅
        ∧ DynamoDBStorage.ready (snd wd') = true
        ∧ DynamoDBStorage.getStats wd' = (Returned (no_message_stats 0), wd')
        ∧ DynamoDBStorage.clear wd' = (Returned tt, wd')).
Proof.
  intros [rt s] [rt' s'] Hr Hr'. cbn [snd] in *. split.
  - eexists _, _. split; [by apply Local_clear_run|].
    split; [by apply Local_clear_run|].
    do 4 (split; [done|]). split.
    + rewrite Local_getStats_run by done. cbn. by rewrite stats_of_no_messages.
    + split; [by apply Local_clear_run|]. done.
  - eexists. split; [by apply Dynamo_clear_run|].
    split; [done|]. split; [done|]. split.
    + by apply Dynamo_getStats_empty.
    + rewrite Dynamo_clear_run by done. by destruct s'.
Qed.

Lemma clear_empties_the_store_witness :
  ∃ wl' wd',
    LocalStorage.clear one_message_store = (Returned tt, wl')
    ∧ messages (data (snd wl')) = []
    ∧ DynamoDBStorage.clear (initialized one_message_table) = (Returned tt, wd')
    ∧ DynamoDBStorage.table (snd wd') = ∅.
Proof.
  destruct (clear_empties_the_store one_message_store (initialized one_message_table)
              eq_refl eq_refl)
    as [(wl' & _ & Hl & _ & Hm & _) (wd' & Hd & Ht & _)].
  exists wl', wd'. split; [exact Hl|]. split; [exact Hm|]. split; [exact Hd|exact Ht].
Defined.

(** ** Effects of the writes of the file-backed store *)

Lemma find_cons {A} (P : A → Prop) `{!∀ x, Decision (P x)} (x : A) (l : list A) :
  find P (x :: l) = if decide (P x) then Some x else find P l.
Proof.
  unfold find. cbn. case_decide; [done|].
  by destruct (list_find P l) as [[i y]|].
Qed.

Lemma find_insert_other {A} (P : A → Prop) `{!∀ x, Decision (P x)} (l : list A) i old x :
  l !! i = Some old → ¬ P old → ¬ P x → find P (<[i := x]> l) = find P l.
Proof.
  revert i. induction l as [|y l IH]; intros i Hl Hold Hx; [done|].
  destruct i as [|i]; cbn in Hl; cbn [insert list_insert].
  - injection Hl as ->. rewrite !find_cons. by rewrite !decide_False.
  - rewrite !find_cons. case_decide; [done|]. by apply IH.
Qed.

Lemma find_delete_other {A} (P : A → Prop) `{!∀ x, Decision (P x)} (l : list A) i old :
  l !! i = Some old → ¬ P old → find P (delete i l) = find P l.
Proof.
  revert i. induction l as [|y l IH]; intros i Hl Hold; [done|].
  destruct i as [|i]; cbn in Hl; cbn [delete list_delete].
  - injection Hl as ->. rewrite find_cons. by rewrite decide_False.
  - rewrite !find_cons. case_decide; [done|]. by apply IH.
Qed.

Lemma find_snoc_other {A} (P : A → Prop) `{!∀ x, Decision (P x)} (l : list A) x :
  ¬ P x → find P (l ++ [x]) = find P l.
Proof.
  intros Hx. induction l as [|y l IH]; cbn [app].
  - rewrite find_cons. by rewrite decide_False.
  - rewrite !find_cons. case_decide; [done|]. exact IH.
Qed.

Lemma find_upsert_message_other j m ms :
  j ≠ ConversationMessage.id m →
  find (has_id j) (upsert_message m ms) = find (has_id j) ms.
Proof.
  intros Hj. unfold upsert_message.
  destruct (list_find _ ms) as [[i old]|] eqn:E.
  - apply list_find_Some in E as (Hl & HP & _).
    apply (find_insert_other (has_id j) ms i old m Hl); unfold has_id in *; congruence.
  - apply find_snoc_other. unfold has_id. congruence.
Qed.

Lemma find_upsert_session_other sid' sid u rt ss :
  SessionUpdates.id u = None → sid' ≠ sid →
  find (session_has_id sid') (snd (upsert_session sid u rt ss))
  = find (session_has_id sid') ss.
Proof.
  intros Hid Hne. unfold upsert_session.
  destruct (list_find _ ss) as [[i old]|] eqn:E; cbn [snd].
  - apply list_find_Some in E as (Hl & HP & _).
    apply (find_insert_other (session_has_id sid') ss i old _ Hl);
      unfold session_has_id in *; cbn; rewrite ?Hid; cbn; congruence.
  - apply find_snoc_other. unfold session_has_id. cbn. rewrite Hid. cbn. congruence.
Qed.

Lemma length_upsert_message m ms :
  length (upsert_message m ms)
  = match find (has_id (ConversationMessage.id m)) ms with
    | Some _ => length ms
    | None => S (length ms)
    end.
Proof.
  unfold upsert_message, find.
  destruct (list_find _ ms) as [[i old]|]; cbn.
  - apply length_insert.
  - rewrite length_app. cbn. lia.
Qed.

Lemma NoDup_upsert_message m ms :
  NoDup (ConversationMessage.id <$> ms) →
  NoDup (ConversationMessage.id <$> upsert_message m ms).
Proof.
  intros Hnd. unfold upsert_message.
  destruct (list_find _ ms) as [[i old]|] eqn:E.
  - apply list_find_Some in E as (Hl & HP & _).
    rewrite list_fmap_insert, list_insert_id; [done|].
    rewrite list_lookup_fmap, Hl. cbn. by rewrite HP.
  - apply list_find_None in E. rewrite fmap_app. cbn.
    apply NoDup_app. split; [done|]. split; [|apply NoDup_singleton].
    intros z Hz Hz'. apply list_elem_of_singleton in Hz'. subst z.
    apply list_elem_of_fmap in Hz as (y & Hy & Hin).
    rewrite Forall_forall in E. by apply (E y Hin).
Qed.

(** The state and the result of [saveMessage] on an initialized store. *)
Lemma Local_saveMessage_effect m rt s :
  ready s = true →
  ∃ rt' s',
    LocalStorage.saveMessage m (rt, s) = (Returned (snd (assign_id rt m)), (rt', s'))
    ∧ ready s' = true
    ∧ messages (data s') = upsert_message (snd (assign_id rt m)) (messages (data s))
    ∧ sessions (data s')
      = snd (upsert_session (ConversationMessage.sessionId m)
               (count_update (now (fst (assign_id rt m))) (ConversationMessage.sessionId m)
                  (upsert_message (snd (assign_id rt m)) (messages (data s))))
               (tick (fst (assign_id rt m))) (sessions (data s)))
    ∧ durable s' = Stored (data s')
    ∧ uuid_draws rt' = uuid_draws (fst (assign_id rt m)).
Proof.
  intros Hr. pose proof (Local_saveMessage_run m rt s Hr) as Hrun. cbv zeta in Hrun.
  rewrite (assign_id_sessionId rt m) in Hrun.
  eexists _, _. split; [exact Hrun|].
  cbn [persisted set_sessions set_messages data ready messages sessions durable].
  do 4 (split; [done|]).
  unfold upsert_session. by destruct (list_find _ _) as [[i old]|].
Qed.

Lemma synced_reloads (w : Runtime * BlobStore) :
  durable (snd w) = Stored (data (snd w)) → reloads w.
Proof.
  intros H. split; [done|]. intros rt.
  unfold LocalStorage.initialize, S3Storage.initialize, LocalStorage.create,
    S3Storage.create, bind, get, put. cbn. by rewrite H.
Qed.

(** X5: every write of the file-backed and object-storage classes goes
    through to the blob.  After [saveMessage], [updateSession],
    [deleteSession], [clear], and [deleteMessage] of a stored message, on
    an initialized store, the blob holds exactly the data in memory, and
    a new instance constructed over that blob holds the same messages and
    sessions once initialized. *)
Theorem writes_reach_the_blob :
  ∀ (w : Runtime * BlobStore),
    ready (snd w) = true →
    (∀ m, ∃ m' w', LocalStorage.saveMessage m w = (Returned m', w')
                   ∧ S3Storage.saveMessage m w = (Returned m', w') ∧ reloads w')
    ∧ (∀ sid u, ∃ w', LocalStorage.updateSession sid u w = (Returned tt, w')
                      ∧ S3Storage.updateSession sid u w = (Returned tt, w') ∧ reloads w')
    ∧ (∀ i m0, LocalStorage.getMessage i w = (Returned (Some m0), w) →
               ∃ w', LocalStorage.deleteMessage i w = (Returned tt, w')
                     ∧ S3Storage.deleteMessage i w = (Returned tt, w') ∧ reloads w')
    ∧ (∀ sid, ∃ w', LocalStorage.deleteSession sid w = (Returned tt, w')
                    ∧ S3Storage.deleteSession sid w = (Returned tt, w') ∧ reloads w')
    ∧ (∃ w', LocalStorage.clear w = (Returned tt, w')
             ∧ S3Storage.clear w = (Returned tt, w') ∧ reloads w').
Proof.
  intros [rt s] Hr. cbn [snd] in Hr. split; [|split; [|split; [|split]]].
  - intros m. destruct (Local_saveMessage_effect m rt s Hr)
      as (rt' & s' & Hs & _ & _ & _ & Hd & _).
    eexists _, _. split; [exact Hs|]. split; [exact Hs|]. by apply synced_reloads.
  - intros sid u. eexists. split; [by apply Local_updateSession_run|].
    split; [by apply Local_updateSession_run|]. by apply synced_reloads.
  - intros i m0 Hg. rewrite Local_getMessage_run in Hg by done. injection Hg as Hg.
    change S3Storage.deleteMessage with LocalStorage.deleteMessage.
    rewrite (Local_deleteMessage_run i rt s Hr).
    destruct (list_find (has_id i) (messages (data s))) as [[j m1]|] eqn:E.
    + cbv zeta. eexists. split; [done|]. split; [done|]. by apply synced_reloads.
    + exfalso. pose proof (proj2 (find_None_list_find _ _) E) as Hn.
      assert (Heq : None = Some m0) by exact (eq_trans (eq_sym Hn) Hg).
      discriminate Heq.
  - intros sid. eexists. split; [by apply Local_deleteSession_run|].
    split; [by apply Local_deleteSession_run|]. by apply synced_reloads.
  - eexists. split; [by apply Local_clear_run|].
    split; [by apply Local_clear_run|]. by apply synced_reloads.
Qed.

Lemma writes_reach_the_blob_witness :
  ∃ m' w', LocalStorage.saveMessage hello empty_store = (Returned m', w') ∧ reloads w'.
Proof.
  destruct (writes_reach_the_blob empty_store eq_refl) as [H _].
  destruct (H hello) as (m' & w' & Hs & _ & Hrel).
  exists m', w'. split; [exact Hs|exact Hrel].
Defined.

(** X6: [saveMessage] touches one message and one session.  On an
    initialized store it returns the message as stored; every other id
    still looks up to what it did before, every other session id still
    looks up to the record it had, the number of stored messages grows by
    one when the id was new and stays the same when it replaced a
    message, and the store stays initialized. *)
Theorem saveMessage_touches_one_message_and_session :
  ∀ (m : Message) (w : Runtime * BlobStore),
    ready (snd w) = true →
    ∃ m' w',
      LocalStorage.saveMessage m w = (Returned m', w')
      ∧ S3Storage.saveMessage m w = (Returned m', w')
      ∧ ready (snd w') = true
      ∧ LocalStorage.getMessage (ConversationMessage.id m') w' = (Returned (Some m'), w')
      ∧ (∀ j, j ≠ ConversationMessage.id m' →
              fst (LocalStorage.getMessage j w') = fst (LocalStorage.getMessage j w))
      ∧ (∀ sid, sid ≠ ConversationMessage.sessionId m →
                fst (LocalStorage.getSession sid w') = fst (LocalStorage.getSession sid w))
      ∧ length (messages (data (snd w')))
        = match fst (LocalStorage.getMessage (ConversationMessage.id m') w) with
          | Returned (Some _) => length (messages (data (snd w)))
          | _ => S (length (messages (data (snd w))))
          end.
Proof.
  intros m [rt s] Hr. cbn [snd] in Hr.
  destruct (Local_saveMessage_effect m rt s Hr) as (rt' & s' & Hs & Hr' & Hm & Hss & _ & _).
  eexists _, _. split; [exact Hs|]. split; [exact Hs|]. cbn [snd fst].
  split; [done|].
  split; [|split; [|split]].
  - rewrite Local_getMessage_run by done. rewrite Hm. by rewrite find_upsert_message.
  - intros j Hj. rewrite !Local_getMessage_run by done. cbn [fst].
    rewrite Hm. by rewrite find_upsert_message_other.
  - intros sid Hsid. rewrite !Local_getSession_run by done. cbn [fst].
    rewrite Hss. by rewrite find_upsert_session_other.
  - rewrite Local_getMessage_run by done. cbn [fst].
    rewrite Hm, length_upsert_message.
    by destruct (find _ _).
Qed.

Lemma saveMessage_touches_one_message_and_session_witness :
  ∃ m' w',
    LocalStorage.saveMessage hello one_session_store = (Returned m', w')
    ∧ length (messages (data (snd w'))) = 1%nat.
Proof.
  destruct (saveMessage_touches_one_message_and_session hello one_session_store eq_refl)
    as (m' & w' & Hs & _ & _ & _ & _ & _ & Hlen).
  exists m', w'. split; [exact Hs|].
  assert (Em : m' = hello).
  { assert (E : Returned m' = Returned hello)
      by exact (eq_trans (eq_sym (f_equal fst Hs)) eq_refl).
    by injection E. }
  rewrite Hlen, Em. reflexivity.
Defined.

(** X7: [saveMessage] draws an identifier only for a message without
    one.  When [message.id] is empty it stores and returns the message
    under the next generated identifier, which [getMessage] then finds;
    when [message.id] is set it returns the message unchanged and draws
    nothing. *)
Theorem saveMessage_generates_missing_id :
  ∀ (m : Message) (w : Runtime * BlobStore),
    ready (snd w) = true →
    ∃ m' w',
      LocalStorage.saveMessage m w = (Returned m', w')
      ∧ S3Storage.saveMessage m w = (Returned m', w')
      ∧ (ConversationMessage.id m = "" →
         m' = ConversationMessage.with_id (fresh_uuid (fst w)) m
         ∧ uuid_draws (fst w') = S (uuid_draws (fst w))
         ∧ LocalStorage.getMessage (fresh_uuid (fst w)) w' = (Returned (Some m'), w'))
      ∧ (ConversationMessage.id m ≠ "" →
         m' = m ∧ uuid_draws (fst w') = uuid_draws (fst w)).
Proof.
  intros m [rt s] Hr. cbn [snd] in Hr.
  destruct (Local_saveMessage_effect m rt s Hr) as (rt' & s' & Hs & Hr' & Hm & _ & _ & Hu).
  eexists _, _. split; [exact Hs|]. split; [exact Hs|]. cbn [fst snd]. split.
  - intros Hid. assert (Ea : assign_id rt m
                             = (draw rt, ConversationMessage.with_id (fresh_uuid rt) m)).
    { unfold assign_id. by rewrite Hid. }
    rewrite Ea in *. cbn [fst snd] in *. split; [done|]. split; [done|].
    rewrite Local_getMessage_run by done. rewrite Hm.
    by rewrite (find_upsert_message (ConversationMessage.with_id (fresh_uuid rt) m)).
  - intros Hid. rewrite (assign_id_set rt m Hid) in *. by split.
Qed.

Lemma saveMessage_generates_missing_id_witness :
  ∃ m' w',
    LocalStorage.saveMessage (ConversationMessage.with_id "" hello) empty_store
    = (Returned m', w')
    ∧ m' = ConversationMessage.with_id "generated-id" hello.
Proof.
  destruct (saveMessage_generates_missing_id (ConversationMessage.with_id "" hello)
              empty_store eq_refl) as (m' & w' & Hs & _ & Hgen & _).
  exists m', w'. split; [exact Hs|]. exact (proj1 (Hgen eq_refl)).
Defined.

(** ** Unique message ids *)

Lemma find_delete_found i ms j m0 :
  NoDup (ConversationMessage.id <$> ms) →
  list_find (has_id i) ms = Some (j, m0) →
  find (has_id i) (delete j ms) = None.
Proof.
  intros Hnd (Hl & HP & _)%list_find_Some.
  apply find_None_list_find, list_find_None, Forall_forall.
  intros m' [k Hk]%list_elem_of_lookup Hm'.
  assert (Hj : (ConversationMessage.id <$> ms) !! j = Some i)
    by (by rewrite list_lookup_fmap, Hl; cbn; rewrite HP).
  destruct (decide (k < j)%nat) as [Hlt|Hge].
  - rewrite list_lookup_delete_lt in Hk by done.
    assert (k = j); [|lia].
    eapply (NoDup_lookup _ k j i); [done| |done].
    by rewrite list_lookup_fmap, Hk; cbn; rewrite Hm'.
  - rewrite list_lookup_delete_ge in Hk by lia.
    assert (S k = j); [|lia].
    eapply (NoDup_lookup _ (S k) j i); [done| |done].
    by rewrite list_lookup_fmap, Hk; cbn; rewrite Hm'.
Qed.

(** X8: message ids stay unique, so a deleted message is gone.  On an
    initialized store whose messages have pairwise different ids,
    [saveMessage], [deleteMessage], [deleteSession] and [updateSession]
    keep the ids pairwise different; after [deleteMessage(id)]
    [getMessage(id)] returns null and every other id looks up to what it
    did before. *)
Theorem message_ids_stay_unique :
  ∀ (w : Runtime * BlobStore),
    ready (snd w) = true →
    unique_messages (data (snd w)) →
    (∀ m, ∃ m' w', LocalStorage.saveMessage m w = (Returned m', w')
                   ∧ S3Storage.saveMessage m w = (Returned m', w')
                   ∧ unique_messages (data (snd w')))
    ∧ (∀ i, ∃ w', LocalStorage.deleteMessage i w = (Returned tt, w')
                  ∧ S3Storage.deleteMessage i w = (Returned tt, w')
                  ∧ unique_messages (data (snd w'))
                  ∧ LocalStorage.getMessage i w' = (Returned None, w')
                  ∧ ∀ j, j ≠ i →
                         fst (LocalStorage.getMessage j w') = fst (LocalStorage.getMessage j w))
    ∧ (∀ sid, ∃ w', LocalStorage.deleteSession sid w = (Returned tt, w')
                    ∧ S3Storage.deleteSession sid w = (Returned tt, w')
                    ∧ unique_messages (data (snd w')))
    ∧ (∀ sid u, ∃ w', LocalStorage.updateSession sid u w = (Returned tt, w')
                      ∧ S3Storage.updateSession sid u w = (Returned tt, w')
                      ∧ unique_messages (data (snd w'))).
Proof.
  intros [rt s] Hr Hu. cbn [snd] in Hr, Hu. unfold unique_messages in *.
  split; [|split; [|split]].
  - intros m. destruct (Local_saveMessage_effect m rt s Hr)
      as (rt' & s' & Hs & _ & Hm & _).
    eexists _, _. split; [exact Hs|]. split; [exact Hs|]. cbn [snd].
    rewrite Hm. by apply NoDup_upsert_message.
  - intros i. change S3Storage.deleteMessage with LocalStorage.deleteMessage.
    rewrite (Local_deleteMessage_run i rt s Hr).
    destruct (list_find (has_id i) (messages (data s))) as [[j m0]|] eqn:E.
    + cbv zeta. eexists. split; [done|]. split; [done|]. cbn [snd].
      cbn [persisted set_sessions set_messages data messages].
      split; [|split].
      * rewrite list_fmap_delete. eapply sublist_NoDup; [exact Hu|apply sublist_delete].
      * rewrite Local_getMessage_run by done.
        cbn [persisted set_sessions set_messages data messages].
        by rewrite (find_delete_found i _ j m0 Hu E).
      * intros j' Hj'. rewrite !Local_getMessage_run by done.
        cbn [persisted set_sessions set_messages data messages fst].
        apply list_find_Some in E as (Hl & HP & _).
        rewrite (find_delete_other (has_id j') _ j m0 Hl); [done|].
        unfold has_id in *. congruence.
    + eexists. split; [done|]. split; [done|]. cbn [snd]. split; [done|].
      split; [|done]. rewrite Local_getMessage_run by done.
      by rewrite (proj2 (find_None_list_find (has_id i) _) E).
  - intros sid. eexists. split; [by apply Local_deleteSession_run|].
    split; [by apply Local_deleteSession_run|].
    cbn [snd persisted set_sessions set_messages data messages].
    eapply sublist_NoDup; [exact Hu|]. apply fmap_sublist, sublist_filter.
  - intros sid u. eexists. split; [by apply Local_updateSession_run|].
    split; [by apply Local_updateSession_run|]. done.
Qed.

Lemma message_ids_stay_unique_witness :
  ∃ w', LocalStorage.deleteMessage "m1" one_message_store = (Returned tt, w')
        ∧ LocalStorage.getMessage "m1" w' = (Returned None, w').
Proof.
  assert (Hu : unique_messages (data (snd one_message_store))).
  { unfold unique_messages. cbn. apply NoDup_singleton. }
  destruct (message_ids_stay_unique one_message_store eq_refl Hu) as (_ & H & _).
  destruct (H "m1") as (w' & Hd & _ & _ & Hg & _).
  exists w'. split; [exact Hd|exact Hg].
Defined.

(** ** [saveMessages] *)

Lemma Local_saveMessages_effect ms :
  ∀ rt s,
    ready s = true →
    Forall (λ m, ConversationMessage.id m ≠ "") ms →
    NoDup (ConversationMessage.id <$> ms) →
    ∃ rt' s',
      LocalStorage.saveMessages ms (rt, s) = (Returned tt, (rt', s'))
      ∧ ready s' = true
      ∧ (∀ m, m ∈ ms →
              find (has_id (ConversationMessage.id m)) (messages (data s')) = Some m)
      ∧ (∀ j, j ∉ ConversationMessage.id <$> ms →
              find (has_id j) (messages (data s')) = find (has_id j) (messages (data s))).
Proof.
  induction ms as [|m ms IH]; intros rt s Hr Hid Hnd.
  - exists rt, s. split; [done|]. split; [done|]. split; [|done].
    intros m Hm. by apply elem_of_nil in Hm.
  - apply Forall_cons in Hid as [Hm Hid]. rewrite fmap_cons in Hnd.
    apply NoDup_cons in Hnd as [Hnotin Hnd].
    destruct (Local_saveMessage_effect m rt s Hr) as (rt1 & s1 & Hs & Hr1 & Hm1 & _).
    rewrite (assign_id_set rt m Hm) in Hs, Hm1. cbn [snd] in Hs, Hm1.
    destruct (IH rt1 s1 Hr1 Hid Hnd) as (rt' & s' & Hrun & Hr' & Hall & Hframe).
    exists rt', s'. split.
    { unfold LocalStorage.saveMessages in *. cbn [for_of].
      rewrite (bind_run _ _ _ tt (rt1, s1)); [exact Hrun|].
      by rewrite (bind_run _ _ _ _ _ Hs). }
    split; [done|]. split.
    + intros m' [->|Hin]%elem_of_cons.
      * rewrite (Hframe _ Hnotin), Hm1. apply find_upsert_message.
      * by apply Hall.
    + intros j Hj. rewrite fmap_cons in Hj. apply not_elem_of_cons in Hj as [Hne Hj].
      rewrite (Hframe j Hj), Hm1. by apply find_upsert_message_other.
Qed.

(** X9: [saveMessages] saves a batch one by one.  On an initialized
    store, for messages that all carry an id and whose ids differ
    pairwise, it returns normally, every message of the batch is then
    found by [getMessage] under its id, and ids outside the batch look up
    to what they did before. *)
Theorem saveMessages_stores_every_message :
  ∀ (ms : list Message) (w : Runtime * BlobStore),
    ready (snd w) = true →
    Forall (λ m, ConversationMessage.id m ≠ "") ms →
    NoDup (ConversationMessage.id <$> ms) →
    ∃ w',
      LocalStorage.saveMessages ms w = (Returned tt, w')
      ∧ S3Storage.saveMessages ms w = (Returned tt, w')
      ∧ (∀ m, m ∈ ms →
              LocalStorage.getMessage (ConversationMessage.id m) w' = (Returned (Some m), w'))
      ∧ (∀ j, j ∉ ConversationMessage.id <$> ms →
              fst (LocalStorage.getMessage j w') = fst (LocalStorage.getMessage j w)).
Proof.
  intros ms [rt s] Hr Hid Hnd. cbn [snd] in Hr.
  destruct (Local_saveMessages_effect ms rt s Hr Hid Hnd)
    as (rt' & s' & Hrun & Hr' & Hall & Hframe).
  exists (rt', s'). split; [exact Hrun|]. split; [exact Hrun|]. split.
  - intros m Hm. rewrite Local_getMessage_run by done. by rewrite (Hall m Hm).
  - intros j Hj. rewrite !Local_getMessage_run by done. cbn [fst].
    by rewrite (Hframe j Hj).
Qed.

Lemma saveMessages_stores_every_message_witness :
  ∃ w',
    LocalStorage.saveMessages [hello; reply] empty_store = (Returned tt, w')
    ∧ LocalStorage.getMessage "m1" w' = (Returned (Some hello), w')
    ∧ LocalStorage.getMessage "m2" w' = (Returned (Some reply), w').
Proof.
  assert (Hid : Forall (λ m, ConversationMessage.id m ≠ "") [hello; reply])
    by (repeat constructor; discriminate).
  assert (Hnd : NoDup (ConversationMessage.id <$> [hello; reply])).
  { cbn. apply NoDup_cons. split; [|apply NoDup_singleton].
    intros H. apply list_elem_of_singleton in H. discriminate. }
  destruct (saveMessages_stores_every_message [hello; reply] empty_store eq_refl Hid Hnd)
    as (w' & Hs & _ & Hall & _).
  exists w'. split; [exact Hs|]. split.
  - apply (Hall hello), list_elem_of_here.
  - apply (Hall reply), list_elem_of_further, list_elem_of_here.
Defined.

(** ** [deleteSession] leaves the other sessions alone *)

Lemma find_filter_implied {A} (P Q : A → Prop)
    `{!∀ x, Decision (P x)} `{!∀ x, Decision (Q x)} (l : list A) :
  (∀ x, P x → Q x) → find P (filter Q l) = find P l.
Proof.
  intros HPQ. induction l as [|x l IH]; [done|].
  rewrite filter_cons, find_cons. destruct (decide (Q x)) as [HQ|HQ].
  - rewrite find_cons. by rewrite IH.
  - rewrite decide_False by (intros HP; by apply HQ, HPQ). exact IH.
Qed.

(** X10: [deleteSession(s)] removes the messages and the record of [s]
    and nothing else.  On an initialized store the messages left are
    exactly those of the other sessions, the session records left are
    exactly those with another id, every other session id looks up to the
    record it had, and when the store had unique session ids and right
    message counts (resp. unique message ids) it still has them. *)
Theorem deleteSession_keeps_other_sessions :
  ∀ (sid : string) (w : Runtime * BlobStore),
    ready (snd w) = true →
    ∃ w',
      LocalStorage.deleteSession sid w = (Returned tt, w')
      ∧ S3Storage.deleteSession sid w = (Returned tt, w')
      ∧ (∀ m, m ∈ messages (data (snd w'))
              ↔ m ∈ messages (data (snd w)) ∧ ConversationMessage.sessionId m ≠ sid)
      ∧ (∀ x, x ∈ sessions (data (snd w'))
              ↔ x ∈ sessions (data (snd w)) ∧ ConversationSession.id x ≠ sid)
      ∧ (∀ sid', sid' ≠ sid →
           fst (LocalStorage.getSession sid' w') = fst (LocalStorage.getSession sid' w)
           ∧ of_session sid' (messages (data (snd w')))
             = of_session sid' (messages (data (snd w))))
      ∧ (count_invariant w → count_invariant w').
Proof.
  intros sid [rt s] Hr. cbn [snd] in Hr.
  eexists. split; [by apply Local_deleteSession_run|].
  split; [by apply Local_deleteSession_run|].
  cbn [snd persisted set_sessions set_messages data messages sessions].
  assert (Hother : ∀ sid', sid' ≠ sid →
            of_session sid'
              (filter (λ m, ConversationMessage.sessionId m ≠ sid) (messages (data s)))
            = of_session sid' (messages (data s))).
  { intros sid' Hne. unfold of_session. apply list_filter_filter_l. congruence. }
  split; [|split; [|split; [|]]].
  - intros m. rewrite list_elem_of_filter. tauto.
  - intros x. rewrite list_elem_of_filter. tauto.
  - intros sid' Hne. split; [|by apply Hother].
    rewrite !Local_getSession_run by done.
    cbn [fst persisted set_sessions set_messages data messages sessions].
    rewrite (find_filter_implied (session_has_id sid')); [done|].
    unfold session_has_id. congruence.
  - intros [Hnd Hok]. unfold count_invariant, unique_sessions, counts_ok in *.
    cbn [snd persisted set_sessions set_messages data messages sessions] in *. split.
    + eapply sublist_NoDup; [exact Hnd|]. apply fmap_sublist, sublist_filter.
    + intros x [Hx Hin]%list_elem_of_filter.
      rewrite (Hok x Hin). by rewrite Hother.
Qed.

Lemma deleteSession_keeps_other_sessions_witness :
  ∃ w',
    LocalStorage.deleteSession "s2" one_message_store = (Returned tt, w')
    ∧ ∀ m, m ∈ messages (data (snd w'))
           ↔ m ∈ [hello] ∧ ConversationMessage.sessionId m ≠ "s2".
Proof.
  destruct (deleteSession_keeps_other_sessions "s2" one_message_store eq_refl)
    as (w' & Hd & _ & Hm & _).
  exists w'. split; [exact Hd|exact Hm].
Defined.

(** ** [updateSession] on a stored session *)

Lemma Dynamo_updateSession_run sid u rt s old :
  DynamoDBStorage.ready s = true →
  DynamoDBStorage.table s
    !! (DynamoDBStorage.SESSION sid, DynamoDBStorage.SESSION sid)
    ≫= DynamoDBStorage.item_session = Some old →
  DynamoDBStorage.updateSession sid u (rt, s)
  = (Returned tt,
     (tick rt,
      DynamoDBStorage.set_table
        (<[(DynamoDBStorage.SESSION sid, DynamoDBStorage.SESSION sid)
           := DynamoDBStorage.SessionItem
                (under_id sid (with_updatedAt (now rt) (SessionUpdates.spread old u)))]>
           (DynamoDBStorage.table s)) s)).
Proof.
  intros Hr Hold. unfold DynamoDBStorage.updateSession.
  rewrite Dynamo_guarded_ok by done.
  rewrite (bind_run _ _ _ _ _ (Dynamo_getSession_run sid rt s Hr)).
  rewrite Hold. done.
Qed.

(** X11: [updateSession(id, updates)] for a stored session.  In the
    file-backed and object-storage classes the first record with that id
    is replaced, in its place, by the record merged with the updates,
    [updatedAt] stamped with the current time whatever [updatedAt] the
    updates carry; the other records, the number of records and the
    messages are as before, and the blob is written with the result.
    When the updates carry no id, [getSession(id)] then returns the
    merged record and [getSession] of every other id answers as before
    (updates that carry an id change the id of the record, so these two
    need not hold for them).  The wide-column class writes the merged
    record under the requested id even when the updates carry another
    one, [getSession(id)] returns it, and no other row changes. *)
Theorem updateSession_merges_into_stored_session :
  ∀ (sid : string) (u : SessionUpdates.t)
    (wl : Runtime * BlobStore) (wd : Runtime * DynamoDBStorage.State)
    (oldl oldd : Session),
    LocalStorage.getSession sid wl = (Returned (Some oldl), wl) →
    DynamoDBStorage.getSession sid wd = (Returned (Some oldd), wd) →
    (∃ wl' i,
       LocalStorage.updateSession sid u wl = (Returned tt, wl')
       ∧ S3Storage.updateSession sid u wl = (Returned tt, wl')
       ∧ sessions (data (snd wl)) !! i = Some oldl
       ∧ (∀ j x, sessions (data (snd wl)) !! j = Some x → (j < i)%nat →
                 ConversationSession.id x ≠ sid)
       ∧ sessions (data (snd wl'))
         = <[i := with_updatedAt (now (fst wl)) (SessionUpdates.spread oldl u)]>
             (sessions (data (snd wl)))
       ∧ length (sessions (data (snd wl'))) = length (sessions (data (snd wl)))
       ∧ messages (data (snd wl')) = messages (data (snd wl))
       ∧ durable (snd wl') = Stored (data (snd wl'))
       ∧ (SessionUpdates.id u = None →
          LocalStorage.getSession sid wl'
          = (Returned (Some (with_updatedAt (now (fst wl)) (SessionUpdates.spread oldl u))),
             wl')
          ∧ ∀ sid', sid' ≠ sid →
              fst (LocalStorage.getSession sid' wl') = fst (LocalStorage.getSession sid' wl)))
    ∧ (∃ wd',
         DynamoDBStorage.updateSession sid u wd = (Returned tt, wd')
         ∧ DynamoDBStorage.getSession sid wd'
           = (Returned (Some (under_id sid
                                (with_updatedAt (now (fst wd)) (SessionUpdates.spread oldd u)))),
              wd')
         ∧ ∀ k, k ≠ (DynamoDBStorage.SESSION sid, DynamoDBStorage.SESSION sid) →
                DynamoDBStorage.table (snd wd') !! k = DynamoDBStorage.table (snd wd) !! k).
Proof.
  intros sid u [rt s] [rt' s'] oldl oldd Hl Hd. cbn [fst snd]. split.
  - assert (Hr : ready s = true).
    { destruct (ready s) eqn:E; [done|].
      unfold LocalStorage.getSession in Hl.
      rewrite (Local_guarded_fail _ rt s E) in Hl. discriminate. }
    rewrite Local_getSession_run in Hl by done. injection Hl as Hl.
    unfold find in Hl.
    destruct (list_find (session_has_id sid) (sessions (data s))) as [[i old]|] eqn:E;
      [|done].
    cbn in Hl. injection Hl as ->.
    pose proof (Local_updateSession_run sid u rt s Hr) as Hrun.
    pose proof (find_upsert_session_other) as Hother.
    specialize (λ sid' Hid, Hother sid' sid u rt (sessions (data s)) Hid).
    unfold upsert_session in Hrun, Hother. rewrite E in Hrun, Hother.
    cbn [fst snd] in Hrun, Hother.
    pose proof E as (Hi & HP & Hlt)%list_find_Some.
    eexists _, i. split; [exact Hrun|]. split; [exact Hrun|].
    cbn [snd persisted set_sessions data sessions messages durable].
    split; [exact Hi|]. split; [intros j x Hj Hji; by apply (Hlt j x)|].
    split; [done|]. split; [apply length_insert|]. split; [done|]. split; [done|].
    intros Hid. split.
    + rewrite Local_getSession_run by done.
      cbn [persisted set_sessions data sessions messages].
      rewrite (find_insert_found (session_has_id sid) _ i oldl _ E); [done|].
      unfold session_has_id in *. cbn. by rewrite Hid.
    + intros sid' Hne. rewrite !Local_getSession_run by done.
      cbn [fst persisted set_sessions data sessions messages].
      by rewrite Hother.
  - assert (Hr : DynamoDBStorage.ready s' = true).
    { destruct (DynamoDBStorage.ready s') eqn:E; [done|].
      unfold DynamoDBStorage.getSession in Hd.
      rewrite (Dynamo_guarded_fail _ rt' s' E) in Hd. discriminate. }
    rewrite Dynamo_getSession_run in Hd by done. injection Hd as Hd.
    eexists. split; [by apply Dynamo_updateSession_run|]. split.
    + rewrite Dynamo_getSession_run by done.
      cbn [DynamoDBStorage.set_table DynamoDBStorage.table].
      by rewrite lookup_insert_eq.
    + intros k Hk. cbn [snd DynamoDBStorage.set_table DynamoDBStorage.table].
      by rewrite lookup_insert_ne.
Qed.

Lemma updateSession_merges_into_stored_session_witness :
  ∃ wl',
    LocalStorage.updateSession "s1" retitle one_session_store = (Returned tt, wl')
    ∧ sessions (data (snd wl')) = [ConversationSession.mk "s1" (Some "T") 0 0 0 None]
    ∧ LocalStorage.getSession "s1" wl'
      = (Returned (Some (ConversationSession.mk "s1" (Some "T") 0 0 0 None)), wl').
Proof.
  destruct (updateSession_merges_into_stored_session "s1" retitle
              one_session_store (initialized session_row_table)
              (session_s1 0) (session_s1 0) eq_refl ltac:(vm_compute; reflexivity))
    as [(wl' & i & Hu & _ & Hi & _ & Hs & _ & _ & _ & Hg) _].
  exists wl'. split; [exact Hu|].
  assert (Ei : i = 0%nat).
  { destruct i as [|[|i]]; [done|discriminate Hi..]. }
  subst i. split; [exact Hs|].
  exact (proj1 (Hg eq_refl)).
Defined.

(** ** [getSessions] *)

Lemma sort_insert_sorted {A} (cmp : A → A → Z) (R : A → A → Prop) x l :
  (∀ a b, cmp a b ≤ 0 → R a b) → (∀ a b, ¬ cmp a b ≤ 0 → R b a) →
  (∀ a b c, R a b → R b c → R a c) →
  StronglySorted R l → StronglySorted R (sort_insert cmp x l).
Proof.
  intros Hle Hgt Htrans. induction 1 as [|y l Hl IH Hy]; cbn.
  - repeat constructor.
  - case_decide as Hc.
    + constructor; [by constructor|].
      constructor; [by apply Hle|].
      eapply Forall_impl; [exact Hy|]. intros z Hz. eapply Htrans; [|exact Hz].
      by apply Hle.
    + constructor; [done|].
      rewrite (sort_insert_Permutation cmp x l).
      constructor; [by apply Hgt|done].
Qed.

Lemma sort_sorted {A} (cmp : A → A → Z) (R : A → A → Prop) l :
  (∀ a b, cmp a b ≤ 0 → R a b) → (∀ a b, ¬ cmp a b ≤ 0 → R b a) →
  (∀ a b c, R a b → R b c → R a c) →
  StronglySorted R (sort cmp l).
Proof.
  intros Hle Hgt Htrans. induction l as [|x l IH]; cbn; [constructor|].
  by apply sort_insert_sorted.
Qed.

Lemma sort_newest_first (l : list Session) :
  StronglySorted newest_first
    (sort (λ a b, ConversationSession.updatedAt b - ConversationSession.updatedAt a) l).
Proof. apply sort_sorted; unfold newest_first; intros; lia. Qed.

(** X12: on an initialized store [getSessions()] returns every stored
    session record exactly once, most recently updated first, and changes
    nothing; for the wide-column class this holds on a table whose rows
    are as the class writes them. *)
Theorem getSessions_newest_first :
  (∀ (w : Runtime * BlobStore),
     ready (snd w) = true →
     ∃ l, LocalStorage.getSessions w = (Returned l, w)
          ∧ S3Storage.getSessions w = (Returned l, w)
          ∧ l ≡ₚ sessions (data (snd w))
          ∧ StronglySorted newest_first l)
  ∧ (∀ (w : Runtime * DynamoDBStorage.State),
       DynamoDBStorage.ready (snd w) = true →
       table_wf (DynamoDBStorage.table (snd w)) →
       ∃ l, DynamoDBStorage.getSessions w = (Returned l, w)
            ∧ l ≡ₚ stored_sessions (DynamoDBStorage.table (snd w))
            ∧ StronglySorted newest_first l).
Proof.
  split.
  - intros [rt s] Hr. cbn [snd] in *. eexists.
    split; [by apply Local_getSessions_run|].
    split; [by apply Local_getSessions_run|].
    split; [apply sort_Permutation|apply sort_newest_first].
  - intros [rt s] Hr Hwf. cbn [snd] in *. eexists.
    split; [by apply Dynamo_getSessions_run|].
    split; [apply sort_Permutation|apply sort_newest_first].
Qed.

Lemma getSessions_newest_first_witness :
  (∃ l, LocalStorage.getSessions two_session_store = (Returned l, two_session_store)
        ∧ StronglySorted newest_first l)
  ∧ (∃ l, DynamoDBStorage.getSessions (initialized session_row_table)
          = (Returned l, initialized session_row_table)
          ∧ StronglySorted newest_first l).
Proof.
  destruct getSessions_newest_first as [Hl Hd]. split.
  - destruct (Hl two_session_store eq_refl) as (l & Hg & _ & _ & Hs).
    exists l. split; [exact Hg|exact Hs].
  - destruct (Hd (initialized session_row_table) eq_refl session_row_table_wf)
      as (l & Hg & _ & Hs).
    exists l. split; [exact Hg|exact Hs].
Defined.

(** ** [getStats] on a store with messages *)

Lemma foldl_min_spec (l : list Z) : ∀ a,
  foldl Z.min a l ∈ a :: l ∧ ∀ t, t ∈ a :: l → foldl Z.min a l ≤ t.
Proof.
  induction l as [|b l IH]; intros a; cbn [foldl].
  - split; [apply list_elem_of_here|].
    intros t Ht. apply list_elem_of_singleton in Ht. lia.
  - destruct (IH (Z.min a b)) as [Hin Hle]. split.
    + apply elem_of_cons in Hin as [Hin|Hin].
      * rewrite Hin. destruct (Z.min_spec a b) as [[_ ->]|[_ ->]].
        -- apply list_elem_of_here.
        -- apply list_elem_of_further, list_elem_of_here.
      * by do 2 apply list_elem_of_further.
    + intros t Ht.
      assert (H0 : foldl Z.min (Z.min a b) l ≤ Z.min a b) by apply Hle, list_elem_of_here.
      apply elem_of_cons in Ht as [->|Ht]; [lia|].
      apply elem_of_cons in Ht as [->|Ht]; [lia|].
      by apply Hle, list_elem_of_further.
Qed.

Lemma foldl_max_spec (l : list Z) : ∀ a,
  foldl Z.max a l ∈ a :: l ∧ ∀ t, t ∈ a :: l → t ≤ foldl Z.max a l.
Proof.
  induction l as [|b l IH]; intros a; cbn [foldl].
  - split; [apply list_elem_of_here|].
    intros t Ht. apply list_elem_of_singleton in Ht. lia.
  - destruct (IH (Z.max a b)) as [Hin Hle]. split.
    + apply elem_of_cons in Hin as [Hin|Hin].
      * rewrite Hin. destruct (Z.max_spec a b) as [[_ ->]|[_ ->]].
        -- apply list_elem_of_further, list_elem_of_here.
        -- apply list_elem_of_here.
      * by do 2 apply list_elem_of_further.
    + intros t Ht.
      assert (H0 : Z.max a b ≤ foldl Z.max (Z.max a b) l) by apply Hle, list_elem_of_here.
      apply elem_of_cons in Ht as [->|Ht]; [lia|].
      apply elem_of_cons in Ht as [->|Ht]; [lia|].
      by apply Hle, list_elem_of_further.
Qed.

Lemma stats_record_extremes n ms k :
  ms ≠ [] →
  ∃ lo hi, oldestMessage (stats_record n ms k) = Some lo
           ∧ newestMessage (stats_record n ms k) = Some hi
           ∧ extremes ms lo hi.
Proof.
  intros Hne. destruct ms as [|m ms]; [done|].
  unfold stats_record. cbn [oldestMessage newestMessage fmap list_fmap min_of max_of].
  set (ts := ConversationMessage.timestamp <$> ms).
  change (list_fmap _ _ ConversationMessage.timestamp ms) with ts.
  destruct (foldl_min_spec ts (ConversationMessage.timestamp m)) as [Hmin Hle].
  destruct (foldl_max_spec ts (ConversationMessage.timestamp m)) as [Hmax Hge].
  eexists _, _. split; [done|]. split; [done|].
  change (ConversationMessage.timestamp m :: ts)
    with (ConversationMessage.timestamp <$> m :: ms) in *.
  split; [|split].
  - apply list_elem_of_fmap in Hmin as (x & Hx & Hin). by exists x.
  - apply list_elem_of_fmap in Hmax as (x & Hx & Hin). by exists x.
  - intros x Hx. split.
    + apply Hle, list_elem_of_fmap. by exists x.
    + apply Hge, list_elem_of_fmap. by exists x.
Qed.

(** X13: on an initialized file-backed or object-storage store that holds
    at least one message, [getStats()] depends on whether the engine
    accepts a call with one argument per stored message.  If it does,
    [getStats()] returns, changes nothing, and reports the numbers of
    session records and of messages, as oldest and newest message the
    least and the greatest timestamp among the stored messages, and as
    average the double-precision quotient of the number of messages by
    the number of session records, or [0] when there is no session
    record.  If it does not, [Math.min(...timestamps)] fails:
    [getStats()] throws [RangeError] and changes nothing. *)
Theorem getStats_with_messages :
  ∀ (w : Runtime * BlobStore),
    ready (snd w) = true →
    messages (data (snd w)) ≠ [] →
    (spreadable (fst w) (messages (data (snd w))) →
     ∃ st lo hi,
       LocalStorage.getStats w = (Returned st, w)
       ∧ S3Storage.getStats w = (Returned st, w)
       ∧ totalSessions st = Z.of_nat (length (sessions (data (snd w))))
       ∧ totalMessages st = Z.of_nat (length (messages (data (snd w))))
       ∧ oldestMessage st = Some lo
       ∧ newestMessage st = Some hi
       ∧ extremes (messages (data (snd w))) lo hi
       ∧ averageMessagesPerSession st
         = if decide (sessions (data (snd w)) = [])
           then 0%float
           else (number (totalMessages st) / number (totalSessions st))%float)
    ∧ (¬ spreadable (fst w) (messages (data (snd w))) →
       LocalStorage.getStats w = (Thrown RangeError, w)
       ∧ S3Storage.getStats w = (Thrown RangeError, w)).
Proof.
  intros [rt s] Hr Hne. cbn [fst snd] in *.
  change S3Storage.getStats with LocalStorage.getStats.
  rewrite Local_getStats_run by done. split.
  - intros Hsp.
    destruct (stats_record_extremes (Z.of_nat (length (sessions (data s))))
                (messages (data s)) (Z.of_nat (length (messages (data s)))) Hne)
      as (lo & hi & Hlo & Hhi & Hex).
    eexists _, lo, hi. split; [by apply stats_of_run|].
    split; [by apply stats_of_run|].
    split; [done|]. split; [done|]. split; [exact Hlo|]. split; [exact Hhi|].
    split; [exact Hex|].
    unfold stats_record, average.
    cbn [averageMessagesPerSession totalMessages totalSessions].
    destruct (sessions (data s)) as [|x ss]; cbn [length].
    + by rewrite decide_False by (cbn; lia).
    + rewrite decide_True by lia. by rewrite decide_False.
  - intros Hsp. split; by apply stats_of_overflow.
Qed.

Lemma getStats_with_messages_witness :
  ∃ st,
    LocalStorage.getStats three_session_store = (Returned st, three_session_store)
    ∧ totalSessions st = 3 ∧ totalMessages st = 1
    ∧ oldestMessage st = Some 5 ∧ newestMessage st = Some 5
    ∧ averageMessagesPerSession st = 0x1.5555555555555p-2%float.
Proof.
  destruct (getStats_with_messages three_session_store eq_refl ltac:(discriminate))
    as [H _].
  destruct (H ltac:(unfold spreadable; cbn; lia))
    as (st & lo & hi & Hg & _).
  exists st. split; [exact Hg|].
  assert (E : st = stats_record 3 [hello] 1).
  { vm_compute in Hg. by injection Hg as <-. }
  rewrite E. repeat split; vm_compute; reflexivity.
Defined.

(** ** Consecutive pages *)

Lemma slice_take_drop {A} (O L : Z) (l : list A) :
  0 ≤ O → 0 ≤ L → slice O (O + L) l = take (Z.to_nat L) (drop (Z.to_nat O) l).
Proof.
  intros HO HL. unfold slice. rewrite !decide_False by lia.
  destruct (decide (O ≤ Z.of_nat (length l))).
  - replace (Z.min O (Z.of_nat (length l))) with O by lia.
    destruct (decide (O + L ≤ Z.of_nat (length l))).
    + f_equal. lia.
    + rewrite !take_ge; [done|rewrite length_drop; lia..].
  - rewrite !drop_ge by lia. by rewrite !take_nil.
Qed.

Lemma paginate_page o O L l :
  0 ≤ O → 0 < L →
  paginate (with_page o O L) l
  = {| r_messages := take (Z.to_nat L) (drop (Z.to_nat O) l);
       r_total := Z.of_nat (length l);
       r_hasMore := bool_decide (O + L < Z.of_nat (length l)) |}.
Proof.
  intros HO HL. unfold paginate. cbn [q_offset q_limit with_page or_default].
  rewrite (decide_False (P := L = 0)) by lia.
  assert (E : (if decide (O = 0) then 0 else O) = O) by (case_decide; lia).
  rewrite E. by rewrite slice_take_drop by lia.
Qed.

(** X14: pages of [getMessages] tile the sorted matches.  For an offset
    [O >= 0] and limits [L, L' > 0], on an initialized file-backed or
    object-storage store, the page at offset [O] with limit [L] followed
    by the page at offset [O + L] with limit [L'] is the page at offset
    [O] with limit [L + L']; [hasMore] of the first page is true exactly
    when the page that follows it is not empty, and all pages report the
    same total. *)
Theorem consecutive_pages_tile :
  ∀ (o : MemoryQueryOptions) (O L L' : Z) (w : Runtime * BlobStore),
    ready (snd w) = true →
    0 ≤ O → 0 < L → 0 < L' →
    ∃ p1 p2 p12,
      LocalStorage.getMessages (with_page o O L) w = (Returned p1, w)
      ∧ S3Storage.getMessages (with_page o O L) w = (Returned p1, w)
      ∧ LocalStorage.getMessages (with_page o (O + L) L') w = (Returned p2, w)
      ∧ LocalStorage.getMessages (with_page o O (L + L')) w = (Returned p12, w)
      ∧ r_messages p12 = r_messages p1 ++ r_messages p2
      ∧ (r_hasMore p1 = true ↔ r_messages p2 ≠ [])
      ∧ r_total p1 = r_total p2 ∧ r_total p1 = r_total p12.
Proof.
  intros o O L L' [rt s] Hr HO HL HL'. cbn [snd] in *.
  set (all := sort by_timestamp (candidates o (messages (data s)))).
  assert (Hrun : ∀ O' L'', 0 ≤ O' → 0 < L'' →
            LocalStorage.getMessages (with_page o O' L'') (rt, s)
            = (Returned {| r_messages := take (Z.to_nat L'') (drop (Z.to_nat O') all);
                           r_total := Z.of_nat (length all);
                           r_hasMore := bool_decide (O' + L'' < Z.of_nat (length all)) |},
               (rt, s))).
  { intros O' L'' HO' HL''. rewrite Local_getMessages_run by done.
    change (candidates (with_page o O' L'') (messages (data s)))
      with (candidates o (messages (data s))).
    fold all. by rewrite paginate_page. }
  eexists _, _, _. split; [by apply Hrun|]. split; [by apply Hrun|].
  split; [apply Hrun; lia|]. split; [apply Hrun; lia|].
  cbn [r_messages r_hasMore r_total]. split; [|split; [|done]].
  - replace (Z.to_nat (O + L)) with (Z.to_nat O + Z.to_nat L)%nat by lia.
    rewrite <-drop_drop.
    replace (Z.to_nat (L + L')) with (Z.to_nat L + Z.to_nat L')%nat by lia.
    by rewrite take_take_drop.
  - rewrite bool_decide_eq_true. split.
    + intros Hlt Hnil. apply (f_equal length) in Hnil.
      rewrite length_take, length_drop in Hnil. cbn in Hnil. lia.
    + intros Hne. destruct (decide (O + L < Z.of_nat (length all))); [done|].
      exfalso. apply Hne. rewrite drop_ge by lia. apply take_nil.
Qed.

Lemma consecutive_pages_tile_witness :
  ∃ p1 p2,
    LocalStorage.getMessages (with_page no_options 0 1) two_session_store
    = (Returned p1, two_session_store)
    ∧ LocalStorage.getMessages (with_page no_options (0 + 1) 1) two_session_store
      = (Returned p2, two_session_store)
    ∧ (r_hasMore p1 = true ↔ r_messages p2 ≠ []).
Proof.
  destruct (consecutive_pages_tile no_options 0 1 1 two_session_store eq_refl
              ltac:(lia) ltac:(lia) ltac:(lia))
    as (p1 & p2 & p12 & H1 & _ & H2 & _ & _ & Hm & _).
  exists p1, p2. split; [exact H1|]. split; [exact H2|exact Hm].
Defined.

(** ** The wide-column class never writes a first session row *)

Lemma no_session_row_insert sid t k it :
  no_session_row sid t →
  k ≠ (DynamoDBStorage.SESSION sid, DynamoDBStorage.SESSION sid) →
  no_session_row sid (<[k := it]> t).
Proof. intros Ht Hk. unfold no_session_row. by rewrite lookup_insert_ne. Qed.

Lemma no_session_row_delete sid t k :
  no_session_row sid t → no_session_row sid (delete k t).
Proof. intros Ht. unfold no_session_row. apply lookup_delete_None. by right. Qed.

Lemma message_key_not_session_key m sid :
  (DynamoDBStorage.MESSAGE (ConversationMessage.id m),
   DynamoDBStorage.SESSION (ConversationMessage.sessionId m))
  ≠ (DynamoDBStorage.SESSION sid, DynamoDBStorage.SESSION sid).
Proof.
  intros E. apply (f_equal fst) in E. cbn [fst] in E.
  by apply MESSAGE_not_SESSION in E.
Qed.

Lemma no_session_row_updateSession sid sid' u :
  preserves (on_table (no_session_row sid)) (DynamoDBStorage.updateSession sid' u).
Proof.
  intros [rt s] [Hr HJ]. cbn [snd] in *. unfold DynamoDBStorage.updateSession.
  rewrite Dynamo_guarded_ok by done.
  rewrite (bind_run _ _ _ _ _ (Dynamo_getSession_run sid' rt s Hr)).
  destruct (DynamoDBStorage.table s
              !! (DynamoDBStorage.SESSION sid', DynamoDBStorage.SESSION sid')
              ≫= DynamoDBStorage.item_session) as [old|] eqn:E.
  - split; [done|]. cbn. apply no_session_row_insert; [done|].
    intros Hk. apply (f_equal fst) in Hk. cbn [fst] in Hk.
    apply SESSION_inj in Hk. subst sid'. unfold no_session_row in HJ.
    by rewrite HJ in E.
  - done.
Qed.

Lemma no_session_row_updateSessionInternal sid sid' :
  preserves (on_table (no_session_row sid)) (DynamoDBStorage.updateSessionInternal sid').
Proof.
  unfold DynamoDBStorage.updateSessionInternal.
  apply preserves_bind; [apply preserves_getMessages|intros res].
  apply preserves_bind; [apply preserves_getSession|intros x].
  apply preserves_bind.
  { destruct x; [apply preserves_ret|].
    apply preserves_bind; [apply preserves_newDate|intros _].
    apply preserves_bind; [apply preserves_newDate|intros _]. apply preserves_ret. }
  intros _. apply preserves_bind; [apply preserves_newDate|intros t].
  apply no_session_row_updateSession.
Qed.

Lemma no_session_row_saveMessage sid m :
  preserves (on_table (no_session_row sid)) (DynamoDBStorage.saveMessage m).
Proof.
  unfold DynamoDBStorage.saveMessage.
  apply preserves_bind; [apply preserves_check_ready|intros _].
  apply preserves_bind.
  { destruct (truthy _); [apply preserves_ret|].
    apply preserves_bind; [apply preserves_uuidv4|intros u]. apply preserves_ret. }
  intros m'. apply preserves_bind; [apply preserves_newDate|intros t].
  apply preserves_bind.
  { apply (preserves_PutCommand (no_session_row sid)
             (λ k _, k ≠ (DynamoDBStorage.SESSION sid, DynamoDBStorage.SESSION sid))).
    - intros t0 k it. apply no_session_row_insert.
    - apply message_key_not_session_key. }
  intros _. apply preserves_bind; [apply no_session_row_updateSessionInternal|intros _].
  apply preserves_ret.
Qed.

(** X15: the wide-column class never writes the first row of a session.
    [updateSession] is the only place that writes a session row and it
    does so only after [getSession] found one, so on an initialized table
    without a row for session [sid] no operation of the class leaves one
    behind, whether it returns or throws. *)
Theorem Dynamo_never_creates_session_row :
  ∀ (sid : string),
    (∀ m, preserves (on_table (no_session_row sid)) (DynamoDBStorage.saveMessage m))
    ∧ (∀ ms, preserves (on_table (no_session_row sid)) (DynamoDBStorage.saveMessages ms))
    ∧ (∀ sid' u, preserves (on_table (no_session_row sid))
                   (DynamoDBStorage.updateSession sid' u))
    ∧ (∀ i, preserves (on_table (no_session_row sid)) (DynamoDBStorage.deleteMessage i))
    ∧ (∀ sid', preserves (on_table (no_session_row sid))
                 (DynamoDBStorage.deleteSession sid'))
    ∧ preserves (on_table (no_session_row sid)) DynamoDBStorage.clear.
Proof.
  intros sid. split; [|split; [|split; [|split; [|split]]]].
  - apply no_session_row_saveMessage.
  - intros ms. unfold DynamoDBStorage.saveMessages. apply preserves_for_of. intros m.
    apply preserves_bind; [apply no_session_row_saveMessage|intros _]. apply preserves_ret.
  - apply no_session_row_updateSession.
  - intros i. unfold DynamoDBStorage.deleteMessage.
    apply preserves_bind; [apply preserves_check_ready|intros _].
    apply preserves_bind; [apply preserves_getMessage|intros [m|]]; [|apply preserves_ret].
    apply preserves_bind; [|intros _; apply no_session_row_updateSessionInternal].
    apply preserves_DeleteCommand. intros t k. apply no_session_row_delete.
  - intros sid'. apply preserves_deleteSession. intros t k. apply no_session_row_delete.
  - apply preserves_clear. intros t k. apply no_session_row_delete.
Qed.

Lemma Dynamo_never_creates_session_row_witness :
  on_table (no_session_row "s2")
    (snd (snd (DynamoDBStorage.saveMessage hello_s2 (initialized session_row_table)))).
Proof.
  destruct (Dynamo_never_creates_session_row "s2") as [H _].
  apply (H hello_s2 (initialized session_row_table)).
  split; [reflexivity|vm_compute; reflexivity].
Defined.

Lemma Dynamo_keeps_table_wf_witness :
  on_table table_wf
    (snd (snd (DynamoDBStorage.deleteSession "s1" (initialized one_message_table)))).
Proof.
  destruct Dynamo_keeps_table_wf as (_ & _ & _ & _ & H & _).
  apply (H "s1" (initialized one_message_table)).
  split; [reflexivity|apply one_message_table_wf].
Defined.

Lemma Dynamo_deleteMessage_noop_witness :
  DynamoDBStorage.deleteMessage "m1" (initialized one_message_table)
  = (Returned tt, initialized one_message_table).
Proof.
  exact (Dynamo_deleteMessage_noop "m1" sample_runtime
           (snd (initialized one_message_table)) eq_refl one_message_table_wf).
Defined.

(** ** The manager: history *)

Lemma candidates_of_session sid limit ms :
  sid ≠ "" →
  candidates {| q_sessionId := Some sid; q_limit := limit; q_offset := None;
                q_startDate := None; q_endDate := None; q_role := None |} ms
  = of_session sid ms.
Proof.
  intros Hsid. unfold candidates, filter_endDate, filter_startDate, filter_role,
    filter_sessionId. cbn. by destruct sid.
Qed.

Lemma manager_eta {B} (s : MemoryManager.t B) :
  {| MemoryManager.storage := MemoryManager.storage s;
     MemoryManager.currentSessionId := MemoryManager.currentSessionId s;
     MemoryManager.ready := MemoryManager.ready s |} = s.
Proof. by destruct s. Qed.

Lemma Local_getSessionHistory_run sid limit rt (s : MemoryManager.t BlobStore) :
  ready (MemoryManager.storage s) = true → sid ≠ "" →
  MemoryManager.getSessionHistory (backend := LocalStorage_storage) sid limit (rt, s)
  = (Returned
       (r_messages
          (paginate {| q_sessionId := Some sid; q_limit := limit; q_offset := None;
                       q_startDate := None; q_endDate := None; q_role := None |}
             (sort by_timestamp
                (of_session sid (messages (data (MemoryManager.storage s))))))),
     (rt, s)).
Proof.
  intros Hr Hsid. unfold MemoryManager.getSessionHistory, bind, MemoryManager.on_storage.
  cbn [fst snd MemoryInterface.getMessages LocalStorage_storage].
  rewrite Local_getMessages_run by done.
  rewrite candidates_of_session by done. unfold ret. by rewrite manager_eta.
Qed.

Lemma getCurrentSessionHistory_active {B} {backend : MemoryInterface.IMemoryStorage B}
    limit rt (s : MemoryManager.t B) sid :
  truthy (MemoryManager.currentSessionId s) = Some sid →
  MemoryManager.getCurrentSessionHistory limit (rt, s)
  = MemoryManager.getSessionHistory sid limit (rt, s).
Proof.
  intros Hs. unfold MemoryManager.getCurrentSessionHistory, bind at 1, get.
  cbn [fst snd]. by rewrite Hs.
Qed.

Lemma getCurrentSessionHistory_inactive {B} {backend : MemoryInterface.IMemoryStorage B}
    limit rt (s : MemoryManager.t B) :
  truthy (MemoryManager.currentSessionId s) = None →
  MemoryManager.getCurrentSessionHistory limit (rt, s) = (no_active_session, (rt, s)).
Proof.
  intros Hs. unfold MemoryManager.getCurrentSessionHistory, bind, get.
  cbn [fst snd]. by rewrite Hs.
Qed.

(** X16: the history of a session is oldest first, and a limit keeps the
    oldest messages.  Over an initialized file-backed or object-storage
    backend, [getSessionHistory(id)] for a non-empty id returns the stored
    messages of that session in ascending order of timestamp and changes
    nothing; with a limit [L > 0] it returns the first [L] of them, and a
    limit of [0] counts as no limit.  [getCurrentSessionHistory] is the
    same call for the current session. *)
Theorem session_history_oldest_first :
  ∀ (s : MemoryManager.t BlobStore) (rt : Runtime) (sid : string),
    ready (MemoryManager.storage s) = true →
    sid ≠ "" →
    ∃ all,
      all ≡ₚ of_session sid (messages (data (MemoryManager.storage s)))
      ∧ StronglySorted ascending all
      ∧ MemoryManager.getSessionHistory (backend := LocalStorage_storage) sid None (rt, s)
        = (Returned all, (rt, s))
      ∧ MemoryManager.getSessionHistory (backend := LocalStorage_storage) sid (Some 0) (rt, s)
        = (Returned all, (rt, s))
      ∧ (∀ L, 0 < L →
           MemoryManager.getSessionHistory (backend := LocalStorage_storage) sid (Some L) (rt, s)
           = (Returned (take (Z.to_nat L) all), (rt, s)))
      ∧ (∀ limit,
           MemoryManager.getSessionHistory (backend := S3Storage_storage) sid limit (rt, s)
           = MemoryManager.getSessionHistory (backend := LocalStorage_storage) sid limit (rt, s))
      ∧ (MemoryManager.currentSessionId s = Some sid →
         ∀ limit,
           MemoryManager.getCurrentSessionHistory (backend := LocalStorage_storage) limit (rt, s)
           = MemoryManager.getSessionHistory (backend := LocalStorage_storage) sid limit (rt, s)).
Proof.
  intros s rt sid Hr Hsid.
  exists (sort by_timestamp (of_session sid (messages (data (MemoryManager.storage s))))).
  split; [apply sort_Permutation|]. split; [apply sort_ascending|].
  split; [|split; [|split; [|split]]].
  - rewrite Local_getSessionHistory_run by done. by rewrite unpaginated.
  - rewrite Local_getSessionHistory_run by done.
    unfold paginate. cbn [q_offset q_limit or_default r_messages].
    rewrite decide_True by done. by rewrite slice_all.
  - intros L HL. rewrite Local_getSessionHistory_run by done.
    unfold paginate. cbn [q_offset q_limit or_default r_messages].
    rewrite decide_False by lia. by rewrite slice_take_drop by lia.
  - done.
  - intros Hcur limit. apply getCurrentSessionHistory_active.
    rewrite Hcur. cbn. by destruct sid.
Qed.

Lemma session_history_oldest_first_witness :
  MemoryManager.getCurrentSessionHistory (backend := LocalStorage_storage) (Some 1)
    manager_with_history
  = (Returned [hello], manager_with_history).
Proof.
  destruct (session_history_oldest_first (snd manager_with_history) sample_runtime "s1"
              eq_refl ltac:(discriminate)) as (all & _ & _ & Hall & _ & HL & _ & Hcur).
  assert (E : all = [hello; reply]).
  { vm_compute in Hall. by injection Hall as <-. }
  rewrite E in HL.
  exact (eq_trans (Hcur eq_refl (Some 1)) (HL 1 ltac:(lia))).
Defined.

(** ** The manager: the session pointer *)

Lemma saveAssistantMessage_inactive {B} {backend : MemoryInterface.IMemoryStorage B}
    content md rt (s : MemoryManager.t B) :
  truthy (MemoryManager.currentSessionId s) = None →
  MemoryManager.saveAssistantMessage content md (rt, s) = (no_active_session, (rt, s)).
Proof.
  intros Hs. unfold MemoryManager.saveAssistantMessage, bind, get.
  cbn [fst snd]. by rewrite Hs.
Qed.

Lemma saveUserMessage_inactive {B} {backend : MemoryInterface.IMemoryStorage B}
    content md rt (s : MemoryManager.t B) :
  truthy (MemoryManager.currentSessionId s) = None →
  MemoryManager.saveUserMessage content md (rt, s) = (no_active_session, (rt, s)).
Proof.
  intros Hs. unfold MemoryManager.saveUserMessage, bind, get.
  cbn [fst snd]. by rewrite Hs.
Qed.

Lemma loadMemoryVariables_inactive {B} {backend : MemoryInterface.IMemoryStorage B}
    rt (s : MemoryManager.t B) :
  truthy (MemoryManager.currentSessionId s) = None →
  MemoryManager.loadMemoryVariables (rt, s) = (no_active_session, (rt, s)).
Proof.
  intros Hs. unfold MemoryManager.loadMemoryVariables.
  by rewrite (bind_thrown _ _ _ _ _ (getCurrentSessionHistory_inactive None rt s Hs)).
Qed.

(** X17: the manager drops its session pointer when the current session
    goes away.  When the backend's [deleteSession(id)] returns, the
    manager's [deleteSession(id)] returns with the pointer reset to null if
    it pointed at [id] and untouched otherwise; when the backend's
    [clear()] returns, the manager's [clear()] (also through the LangChain
    adapter) returns with the pointer reset to null.  When the backend
    throws, the manager throws the same error and keeps the pointer.  With
    the pointer null, [saveAssistantMessage], [getCurrentSessionHistory]
    and [loadMemoryVariables] throw the "no active session" error and
    change nothing. *)
Theorem manager_session_pointer :
  ∀ {B : Type} (backend : MemoryInterface.IMemoryStorage B)
    (s : MemoryManager.t B) (rt rt' : Runtime) (b' : B),
    (∀ sid,
       MemoryInterface.deleteSession sid (rt, MemoryManager.storage s)
       = (Returned tt, (rt', b')) →
       MemoryManager.deleteSession sid (rt, s)
       = (Returned tt,
          (rt', with_pointer
                  (if decide (MemoryManager.currentSessionId s = Some sid)
                   then None else MemoryManager.currentSessionId s)
                  (with_storage b' s))))
    ∧ (∀ sid e,
         MemoryInterface.deleteSession sid (rt, MemoryManager.storage s)
         = (Thrown e, (rt', b')) →
         MemoryManager.deleteSession sid (rt, s) = (Thrown e, (rt', with_storage b' s)))
    ∧ (MemoryInterface.clear (rt, MemoryManager.storage s) = (Returned tt, (rt', b')) →
       MemoryManager.clear (rt, s) = (Returned tt, (rt', with_pointer None (with_storage b' s)))
       ∧ MemoryManager.langChainClear (rt, s)
         = (Returned tt, (rt', with_pointer None (with_storage b' s))))
    ∧ (∀ e,
         MemoryInterface.clear (rt, MemoryManager.storage s) = (Thrown e, (rt', b')) →
         MemoryManager.clear (rt, s) = (Thrown e, (rt', with_storage b' s)))
    ∧ (∀ p content md limit,
         MemoryManager.saveAssistantMessage content md (rt', with_pointer None p)
         = (no_active_session, (rt', with_pointer None p))
         ∧ MemoryManager.getCurrentSessionHistory limit (rt', with_pointer None p)
           = (no_active_session, (rt', with_pointer None p))
         ∧ MemoryManager.loadMemoryVariables (rt', with_pointer None p)
           = (no_active_session, (rt', with_pointer None p))).
Proof.
  intros B backend s rt rt' b'.
  split; [|split; [|split; [|split]]].
  - intros sid H. unfold MemoryManager.deleteSession, bind, MemoryManager.on_storage, get.
    cbn [fst snd]. rewrite H. cbn [MemoryManager.currentSessionId fst snd].
    by destruct (decide (MemoryManager.currentSessionId s = Some sid)).
  - intros sid e H. unfold MemoryManager.deleteSession, bind, MemoryManager.on_storage.
    cbn [fst snd]. by rewrite H.
  - intros H. unfold MemoryManager.langChainClear, MemoryManager.clear, bind,
      MemoryManager.on_storage, get. cbn [fst snd]. by rewrite H.
  - intros e H. unfold MemoryManager.clear, bind, MemoryManager.on_storage.
    cbn [fst snd]. by rewrite H.
  - intros p content md limit. split; [|split].
    + by apply saveAssistantMessage_inactive.
    + by apply getCurrentSessionHistory_inactive.
    + by apply loadMemoryVariables_inactive.
Qed.

Lemma manager_session_pointer_witness :
  ∃ w',
    MemoryManager.deleteSession (backend := LocalStorage_storage) "s1" manager_with_history
    = (Returned tt, w')
    ∧ MemoryManager.currentSessionId (snd w') = None.
Proof.
  destruct (manager_session_pointer LocalStorage_storage (snd manager_with_history)
              sample_runtime
              (fst (snd (LocalStorage.deleteSession "s1" two_session_store)))
              (snd (snd (LocalStorage.deleteSession "s1" two_session_store))))
    as (H & _).
  eexists. split; [exact (H "s1" ltac:(vm_compute; reflexivity))|reflexivity].
Defined.

(** ** The LangChain adapter: [saveContext] *)

(** X18: [saveContext] never throws: whatever the backend and the session
    state, it returns normally, errors of the two saves being caught.  In
    particular, with no active session it saves nothing and reports
    nothing: the state is left exactly as it was, even for a non-empty
    input and output. *)
Theorem saveContext_swallows_errors :
  ∀ {B : Type} (backend : MemoryInterface.IMemoryStorage B)
    (i : InputValues) (o : OutputValues) (rt : Runtime) (s : MemoryManager.t B),
    (∃ w', MemoryManager.saveContext i o (rt, s) = (Returned tt, w'))
    ∧ (truthy (MemoryManager.currentSessionId s) = None →
       MemoryManager.saveContext i o (rt, s) = (Returned tt, (rt, s))).
Proof.
  intros B backend i o rt s. split.
  - unfold MemoryManager.saveContext, try_catch.
    destruct (bind _ _ (rt, s)) as [[[]|e] w']; eauto.
  - intros Hs. unfold MemoryManager.saveContext, try_catch.
    destruct (truthy (iv_input i)) as [input|].
    + unfold bind at 1. unfold bind at 1.
      by rewrite (saveUserMessage_inactive input None rt s Hs).
    + unfold bind at 1. cbn [ret].
      destruct (truthy (or_else _ _)) as [output|]; [|done].
      unfold bind at 1. cbn [setTimeout ret]. unfold bind at 1.
      by rewrite (saveAssistantMessage_inactive output None rt s Hs).
Qed.

Lemma saveContext_swallows_errors_witness :
  MemoryManager.saveContext (backend := LocalStorage_storage)
    {| iv_input := Some "hi" |}
    {| ov_output := Some "hello"; ov_response := None; ov_text := None; ov_result := None |}
    (sample_runtime, MemoryManager.create (snd empty_store))
  = (Returned tt, (sample_runtime, MemoryManager.create (snd empty_store))).
Proof.
  exact (proj2 (saveContext_swallows_errors LocalStorage_storage _ _ sample_runtime
                  (MemoryManager.create (snd empty_store))) eq_refl).
Defined.

(** ** The LangChain adapter: a conversation turn *)

Lemma advanced_upsert_session sid u rt ss :
  advanced 0 rt (fst (upsert_session sid u rt ss)).
Proof.
  unfold upsert_session, advanced.
  destruct (list_find _ ss) as [[i old]|]; cbn; repeat split; lia.
Qed.

Lemma Local_saveMessage_fresh m rt s :
  ready s = true →
  ConversationMessage.id m ≠ "" →
  (∀ m', m' ∈ messages (data s) → ConversationMessage.id m' ≠ ConversationMessage.id m) →
  ∃ rt' s',
    LocalStorage.saveMessage m (rt, s) = (Returned m, (rt', s'))
    ∧ advanced 0 rt rt'
    ∧ ready s' = true
    ∧ messages (data s') = messages (data s) ++ [m]
    ∧ durable s' = Stored (data s').
Proof.
  intros Hr Hid Hfresh.
  pose proof (Local_saveMessage_run m rt s Hr) as Hrun. cbv zeta in Hrun.
  rewrite (assign_id_set rt m Hid) in Hrun. cbn [fst snd] in Hrun.
  assert (E : upsert_message m (messages (data s)) = messages (data s) ++ [m]).
  { unfold upsert_message.
    assert (Hn : list_find (has_id (ConversationMessage.id m)) (messages (data s)) = None)
      by (by apply list_find_None, Forall_forall).
    by rewrite Hn. }
  rewrite E in Hrun. eexists _, _. split; [exact Hrun|].
  cbn [persisted set_sessions set_messages data ready messages sessions durable].
  split; [|done].
  destruct (advanced_upsert_session (ConversationMessage.sessionId m)
              (count_update (now rt) (ConversationMessage.sessionId m)
                 (messages (data s) ++ [m]))
              (tick rt) (sessions (data s))) as (Hc & Hu & Hd & Hlt).
  unfold advanced. cbn [tick clock uuid_source uuid_draws clock_reads] in *.
  repeat split; [done|done|lia|lia].
Qed.

Lemma saveAssistantMessage_run {B} {backend : MemoryInterface.IMemoryStorage B}
    content md rt (s : MemoryManager.t B) sid :
  truthy (MemoryManager.currentSessionId s) = Some sid →
  MemoryManager.saveAssistantMessage content md (rt, s)
  = answer s (MemoryInterface.saveMessage
                (ConversationMessage.mk (fresh_uuid rt) sid assistant content (now rt) md)
                (tick (draw rt), MemoryManager.storage s)).
Proof.
  intros Hs. unfold MemoryManager.saveAssistantMessage, bind at 1, get. cbn [fst snd].
  rewrite Hs. unfold bind at 1. cbn [setTimeout ret].
  unfold bind at 1. cbn [uuidv4 fst snd].
  unfold bind at 1. cbn [newDate fst snd].
  unfold bind, MemoryManager.on_storage, answer, with_storage, ret. cbn [fst snd].
  by destruct (MemoryInterface.saveMessage _ _) as [[m'|e] [rt' b']].
Qed.

Lemma saveContext_turn_run i o q a rt (s : MemoryManager.t BlobStore) sid :
  truthy (MemoryManager.currentSessionId s) = Some sid →
  ready (MemoryManager.storage s) = true →
  truthy (iv_input i) = Some q →
  chosen_output o = Some a →
  fresh_uuid rt ≠ "" → fresh_uuid (draw rt) ≠ "" → fresh_uuid rt ≠ fresh_uuid (draw rt) →
  (∀ m, m ∈ messages (data (MemoryManager.storage s)) →
        ConversationMessage.id m ≠ fresh_uuid rt
        ∧ ConversationMessage.id m ≠ fresh_uuid (draw rt)) →
  ∃ rt1 rt2 b2,
    MemoryManager.saveContext (backend := LocalStorage_storage) i o (rt, s)
    = (Returned tt, (rt2, with_storage b2 s))
    ∧ advanced 1 rt rt1 ∧ advanced 1 rt1 rt2
    ∧ ready b2 = true
    ∧ messages (data b2)
      = messages (data (MemoryManager.storage s))
          ++ [turn_user rt sid q; turn_assistant rt sid a (now rt1)]
    ∧ durable b2 = Stored (data b2).
Proof.
  intros Hs Hr Hq Ha Hu1 Hu2 Hne Hfresh.
  set (m1 := turn_user rt sid q).
  destruct (Local_saveMessage_fresh m1 (tick (draw rt)) (MemoryManager.storage s) Hr Hu1)
    as (rt1 & b1 & Hsave1 & Hadv1 & Hr1 & Hm1 & _).
  { intros m' Hm'. by apply Hfresh. }
  assert (Hrun1 : MemoryManager.saveUserMessage (backend := LocalStorage_storage) q None (rt, s)
                  = (Returned (fresh_uuid rt), (rt1, with_storage b1 s))).
  { rewrite (saveUserMessage_run (backend := LocalStorage_storage) q None rt s sid Hs).
    cbn [MemoryInterface.saveMessage LocalStorage_storage]. fold (turn_user rt sid q).
    fold m1. by rewrite Hsave1. }
  assert (Hadv1' : advanced 1 rt rt1).
  { destruct Hadv1 as (Hc & Hsrc & Hd & Hlt). unfold advanced.
    cbn [tick draw clock uuid_source uuid_draws clock_reads] in *.
    repeat split; [done|done|lia|lia]. }
  assert (Hid2 : fresh_uuid rt1 = fresh_uuid (draw rt)).
  { destruct Hadv1' as (_ & Hsrc & Hd & _). unfold fresh_uuid.
    rewrite Hsrc, Hd. cbn [draw uuid_source uuid_draws]. f_equal. lia. }
  set (m2 := turn_assistant rt sid a (now rt1)).
  assert (Hu2' : ConversationMessage.id m2 ≠ "") by done.
  destruct (Local_saveMessage_fresh m2 (tick (draw rt1)) b1 Hr1 Hu2')
    as (rt2 & b2 & Hsave2 & Hadv2 & Hr2 & Hm2 & Hd2).
  { intros m' Hm'. rewrite Hm1 in Hm'. apply elem_of_app in Hm' as [Hm'|Hm'].
    - by apply Hfresh.
    - apply list_elem_of_singleton in Hm'. subst m'. done. }
  assert (Hrun2 : MemoryManager.saveAssistantMessage (backend := LocalStorage_storage) a None
                    (rt1, with_storage b1 s)
                  = (Returned (fresh_uuid (draw rt)), (rt2, with_storage b2 s))).
  { rewrite (saveAssistantMessage_run (backend := LocalStorage_storage) a None rt1
               (with_storage b1 s) sid Hs).
    cbn [MemoryInterface.saveMessage LocalStorage_storage with_storage MemoryManager.storage].
    rewrite Hid2. fold (turn_assistant rt sid a (now rt1)). fold m2. by rewrite Hsave2. }
  exists rt1, rt2, b2. split.
  { unfold MemoryManager.saveContext, try_catch. rewrite Hq.
    fold (chosen_output o). rewrite Ha.
    rewrite (bind_run _ _ _ tt (rt1, with_storage b1 s)).
    2:{ by rewrite (bind_run _ _ _ _ _ Hrun1). }
    unfold bind at 1. cbn [setTimeout ret].
    by rewrite (bind_run _ _ _ _ _ Hrun2). }
  split; [done|]. split.
  { destruct Hadv2 as (Hc & Hsrc & Hd & Hlt). unfold advanced.
    cbn [tick draw clock uuid_source uuid_draws clock_reads] in *.
    repeat split; [done|done|lia|lia]. }
  split; [done|]. split; [|done].
  rewrite Hm2, Hm1. by rewrite <-app_assoc.
Qed.

(** X19: a conversation turn.  With an active session over an initialized
    file-backed backend, [saveContext] with a non-empty input and a
    non-empty output appends two messages to the stored ones, the user
    message first and the assistant message second, both in the current
    session, with the two identifiers drawn (taken to be non-empty,
    different and unused) and with timestamps read from the clock in that
    order; the result is written to the blob and the session pointer is
    kept. *)
Theorem saveContext_appends_turn :
  ∀ (i : InputValues) (o : OutputValues) (q a : string) (rt : Runtime)
    (s : MemoryManager.t BlobStore) (sid : string),
    truthy (MemoryManager.currentSessionId s) = Some sid →
    ready (MemoryManager.storage s) = true →
    truthy (iv_input i) = Some q →
    chosen_output o = Some a →
    fresh_uuid rt ≠ "" → fresh_uuid (draw rt) ≠ "" →
    fresh_uuid rt ≠ fresh_uuid (draw rt) →
    (∀ m, m ∈ messages (data (MemoryManager.storage s)) →
          ConversationMessage.id m ≠ fresh_uuid rt
          ∧ ConversationMessage.id m ≠ fresh_uuid (draw rt)) →
    ∃ rt2 b2 n,
      MemoryManager.saveContext (backend := LocalStorage_storage) i o (rt, s)
      = (Returned tt, (rt2, with_storage b2 s))
      ∧ (clock_reads rt < n)%nat
      ∧ messages (data b2)
        = messages (data (MemoryManager.storage s))
            ++ [turn_user rt sid q; turn_assistant rt sid a (clock rt n)]
      ∧ ready b2 = true
      ∧ durable b2 = Stored (data b2).
Proof.
  intros i o q a rt s sid Hs Hr Hq Ha Hu1 Hu2 Hne Hfresh.
  destruct (saveContext_turn_run i o q a rt s sid Hs Hr Hq Ha Hu1 Hu2 Hne Hfresh)
    as (rt1 & rt2 & b2 & Hrun & (Hc & _ & _ & Hlt) & _ & Hr2 & Hm & Hd).
  exists rt2, b2, (clock_reads rt1). split; [exact Hrun|]. split; [exact Hlt|].
  split; [|done]. rewrite Hm. unfold now. by rewrite Hc.
Qed.

Lemma saveContext_appends_turn_witness :
  ∃ rt2 b2 n,
    MemoryManager.saveContext (backend := LocalStorage_storage)
      {| iv_input := Some "hi" |}
      {| ov_output := None; ov_response := Some "hello"; ov_text := None; ov_result := None |}
      (counting_runtime, snd manager_on_s1)
    = (Returned tt, (rt2, with_storage b2 (snd manager_on_s1)))
    ∧ messages (data b2)
      = [turn_user counting_runtime "s1" "hi";
         turn_assistant counting_runtime "s1" "hello" (clock counting_runtime n)].
Proof.
  destruct (saveContext_appends_turn
              {| iv_input := Some "hi" |}
              {| ov_output := None; ov_response := Some "hello";
                 ov_text := None; ov_result := None |}
              "hi" "hello" counting_runtime (snd manager_on_s1) "s1"
              eq_refl eq_refl eq_refl eq_refl
              ltac:(discriminate) ltac:(discriminate) ltac:(discriminate))
    as (rt2 & b2 & n & Hrun & _ & Hm & _).
  { intros m Hm. by apply elem_of_nil in Hm. }
  exists rt2, b2, n. split; [exact Hrun|exact Hm].
Defined.

(** ** The LangChain adapter: the history after a turn *)

Lemma sort_insert_app_tail {A} (cmp : A → A → Z) x (l : list A) b tail :
  cmp x b ≤ 0 →
  sort_insert cmp x (l ++ b :: tail) = sort_insert cmp x l ++ b :: tail.
Proof.
  intros Hb. induction l as [|y l IH]; cbn.
  - by rewrite decide_True.
  - case_decide; [done|]. by rewrite IH.
Qed.

Lemma sort_app_tail (l : list Message) m1 m2 :
  (∀ x, x ∈ l → ConversationMessage.timestamp x ≤ ConversationMessage.timestamp m1) →
  ConversationMessage.timestamp m1 ≤ ConversationMessage.timestamp m2 →
  sort by_timestamp (l ++ [m1; m2]) = sort by_timestamp l ++ [m1; m2].
Proof.
  intros Hl H12. induction l as [|x l IH].
  - cbn. rewrite decide_True; [done|]. unfold by_timestamp. lia.
  - cbn [app sort foldr]. fold (sort by_timestamp (l ++ [m1; m2])).
    fold (sort by_timestamp l).
    rewrite IH by (intros y Hy; by apply Hl, list_elem_of_further).
    apply sort_insert_app_tail. unfold by_timestamp.
    specialize (Hl x (list_elem_of_here _ _)). lia.
Qed.

(** X20: the history after a turn.  Under the conditions of a
    conversation turn, when moreover the clock never goes back and no
    stored message of the session is newer than the current time,
    [loadMemoryVariables] after [saveContext] returns the former history
    of the session followed by the user message and the assistant message
    of the turn, and as [history] string the lines [role: content] of
    these messages joined by newlines. *)
Theorem history_after_turn :
  ∀ (i : InputValues) (o : OutputValues) (q a : string) (rt : Runtime)
    (s : MemoryManager.t BlobStore) (sid : string),
    truthy (MemoryManager.currentSessionId s) = Some sid →
    ready (MemoryManager.storage s) = true →
    truthy (iv_input i) = Some q →
    chosen_output o = Some a →
    fresh_uuid rt ≠ "" → fresh_uuid (draw rt) ≠ "" →
    fresh_uuid rt ≠ fresh_uuid (draw rt) →
    (∀ m, m ∈ messages (data (MemoryManager.storage s)) →
          ConversationMessage.id m ≠ fresh_uuid rt
          ∧ ConversationMessage.id m ≠ fresh_uuid (draw rt)) →
    monotone_clock rt →
    (∀ m, m ∈ of_session sid (messages (data (MemoryManager.storage s))) →
          ConversationMessage.timestamp m ≤ now rt) →
    ∃ w2 before t2,
      MemoryManager.saveContext (backend := LocalStorage_storage) i o (rt, s)
      = (Returned tt, w2)
      ∧ MemoryManager.getCurrentSessionHistory (backend := LocalStorage_storage) None (rt, s)
        = (Returned before, (rt, s))
      ∧ MemoryManager.loadMemoryVariables (backend := LocalStorage_storage) w2
        = (Returned
             {| mv_history :=
                  String.concat (String (Ascii.ascii_of_nat 10) "")
                    (history_line
                       <$> before ++ [turn_user rt sid q; turn_assistant rt sid a t2]);
                mv_messages := before ++ [turn_user rt sid q; turn_assistant rt sid a t2] |},
           w2).
Proof.
  intros i o q a rt s sid Hs Hr Hq Ha Hu1 Hu2 Hne Hfresh Hmono Hold.
  assert (Hsid : sid ≠ "").
  { intros ->. destruct (MemoryManager.currentSessionId s) as [[|]|]; by cbn in Hs. }
  destruct (saveContext_turn_run i o q a rt s sid Hs Hr Hq Ha Hu1 Hu2 Hne Hfresh)
    as (rt1 & rt2 & b2 & Hrun & (Hc & _ & _ & Hlt) & _ & Hr2 & Hm & Hd).
  exists (rt2, with_storage b2 s),
    (sort by_timestamp (of_session sid (messages (data (MemoryManager.storage s))))),
    (now rt1).
  split; [exact Hrun|]. split.
  { rewrite (getCurrentSessionHistory_active None rt s sid Hs).
    rewrite Local_getSessionHistory_run by done. by rewrite unpaginated. }
  unfold MemoryManager.loadMemoryVariables.
  rewrite (bind_run _ _ _
             (sort by_timestamp (of_session sid (messages (data (MemoryManager.storage s))))
                ++ [turn_user rt sid q; turn_assistant rt sid a (now rt1)])
             (rt2, with_storage b2 s)); [done|].
  rewrite (getCurrentSessionHistory_active None rt2 (with_storage b2 s) sid Hs).
  rewrite Local_getSessionHistory_run by done.
  rewrite unpaginated by done. do 2 f_equal.
  cbn [with_storage MemoryManager.storage]. rewrite Hm.
  unfold of_session at 1. rewrite filter_app.
  rewrite (filter_cons_True _ (turn_user rt sid q)) by done.
  rewrite (filter_cons_True _ (turn_assistant rt sid a (now rt1))) by done.
  rewrite filter_nil. fold (of_session sid (messages (data (MemoryManager.storage s)))).
  apply sort_app_tail.
  - intros x Hx. by apply Hold.
  - cbn. unfold now. rewrite Hc. apply Hmono. lia.
Qed.

Lemma history_after_turn_witness :
  ∃ w2 mv,
    MemoryManager.saveContext (backend := LocalStorage_storage)
      {| iv_input := Some "hi" |}
      {| ov_output := Some "hello"; ov_response := None; ov_text := None; ov_result := None |}
      (counting_runtime, snd manager_on_s1)
    = (Returned tt, w2)
    ∧ MemoryManager.loadMemoryVariables (backend := LocalStorage_storage) w2
      = (Returned mv, w2)
    ∧ mv_history mv = "user: hi" +:+ String (Ascii.ascii_of_nat 10) "assistant: hello".
Proof.
  destruct (history_after_turn
              {| iv_input := Some "hi" |}
              {| ov_output := Some "hello"; ov_response := None;
                 ov_text := None; ov_result := None |}
              "hi" "hello" counting_runtime (snd manager_on_s1) "s1"
              eq_refl eq_refl eq_refl eq_refl
              ltac:(discriminate) ltac:(discriminate) ltac:(discriminate))
    as (w2 & before & t2 & Hrun & Hbefore & Hload).
  { intros m Hm. by apply elem_of_nil in Hm. }
  { intros x y Hxy. cbn. lia. }
  { intros m Hm. by apply elem_of_nil in Hm. }
  assert (E : before = []).
  { vm_compute in Hbefore. by injection Hbefore as <-. }
  rewrite E in Hload. eexists w2, _. split; [exact Hrun|]. split; [exact Hload|].
  vm_compute. reflexivity.
Defined.

(** ** The manager: [startSession] *)

Lemma startSession_run {B} {backend : MemoryInterface.IMemoryStorage B}
    sessionId title rt (s : MemoryManager.t B) i :
  MemoryManager.ready s = true → truthy sessionId = Some i →
  MemoryManager.startSession sessionId title (rt, s)
  = (Returned i, (rt, with_pointer (Some i) s)).
Proof.
  intros Hr Hi. unfold MemoryManager.startSession, bind at 1, get. cbn [fst snd].
  rewrite Hr, Hi. done.
Qed.

(** X21: [startSession(id, title)] on an initialized manager returns [id]
    and makes it the current session; a manager that is not initialized
    throws and changes nothing.  Once the promise chain that it starts has
    settled, the file-backed backend holds a record for [id]: the one it
    had, with nothing written, or else a new one with the given title and
    a message count of [0].  The wide-column backend is left as it was
    whether or not it has a row for [id], the failure of its
    [updateSession] going unobserved.  Without an id the manager draws
    one. *)
Theorem startSession_ensures_session_record :
  ∀ (sid : string) (title : option string) (rt : Runtime)
    (sl : MemoryManager.t BlobStore) (sd : MemoryManager.t DynamoDBStorage.State),
    sid ≠ "" →
    MemoryManager.ready sl = true → ready (MemoryManager.storage sl) = true →
    MemoryManager.ready sd = true →
    DynamoDBStorage.ready (MemoryManager.storage sd) = true →
    (∃ rt' b' x,
        startSession_settled (backend := LocalStorage_storage) (Some sid) title (rt, sl)
        = (Returned sid, (rt', with_pointer (Some sid) (with_storage b' sl)))
        ∧ LocalStorage.getSession sid (rt', b') = (Returned (Some x), (rt', b'))
        ∧ messages (data b') = messages (data (MemoryManager.storage sl))
        ∧ match find (session_has_id sid) (sessions (data (MemoryManager.storage sl))) with
          | Some x0 => x = x0 ∧ rt' = rt ∧ b' = MemoryManager.storage sl
          | None =>
              x = ConversationSession.mk sid title (now rt) (now (tick rt)) 0 None
              ∧ sessions (data b') = sessions (data (MemoryManager.storage sl)) ++ [x]
              ∧ durable b' = Stored (data b')
          end)
    ∧ startSession_settled (Some sid) title (rt, sd)
      = (Returned sid, (rt, with_pointer (Some sid) sd))
    ∧ MemoryManager.startSession None title (rt, sl)
      = (Returned (fresh_uuid rt), (draw rt, with_pointer (Some (fresh_uuid rt)) sl))
    ∧ (∀ (s0 : MemoryManager.t BlobStore) sessionId,
         MemoryManager.ready s0 = false →
         startSession_settled sessionId title (rt, s0)
         = (Thrown (Error "Memory manager not initialized"), (rt, s0))).
Proof.
  intros sid title rt sl sd Hsid Hml Hrl Hmd Hrd.
  assert (Ht : truthy (Some sid) = Some sid) by (by destruct sid).
  split; [|split; [|split]].
  - unfold startSession_settled.
    rewrite (bind_run _ _ _ _ _ (startSession_run (Some sid) title rt sl sid Hml Ht)).
    unfold bind at 1, unawaited.
    unfold bind at 1, MemoryManager.on_storage at 1.
    cbn [fst snd with_pointer MemoryManager.storage MemoryInterface.getSession
         LocalStorage_storage].
    rewrite Local_getSession_run by done.
    destruct (find (session_has_id sid) (sessions (data (MemoryManager.storage sl))))
      as [x0|] eqn:E.
    + exists rt, (MemoryManager.storage sl), x0.
      cbn [MemoryManager.startSession_then ret snd fst MemoryManager.currentSessionId
           MemoryManager.ready MemoryManager.storage].
      split; [by destruct sl|].
      rewrite Local_getSession_run by done. by rewrite E.
    + cbn [MemoryManager.startSession_then MemoryManager.currentSessionId
           MemoryManager.ready MemoryManager.storage].
      unfold MemoryManager.on_storage.
      cbn [fst snd MemoryManager.storage MemoryInterface.updateSession LocalStorage_storage].
      rewrite Local_updateSession_run by done.
      rewrite (upsert_session_absent _ _ _ _ E). cbn [fst snd ret].
      eexists _, _, _. split; [reflexivity|].
      cbn [persisted set_sessions data sessions messages durable].
      split; [|done].
      rewrite Local_getSession_run by done.
      cbn [persisted set_sessions data sessions messages].
      by rewrite (find_snoc_absent (session_has_id sid) _ _ E).
  - unfold startSession_settled.
    rewrite (bind_run _ _ _ _ _ (startSession_run (Some sid) title rt sd sid Hmd Ht)).
    unfold bind at 1, unawaited.
    unfold bind at 1, MemoryManager.on_storage at 1.
    cbn [fst snd with_pointer MemoryManager.storage MemoryInterface.getSession
         DynamoDBStorage_storage].
    rewrite Dynamo_getSession_run by done.
    destruct (DynamoDBStorage.table (MemoryManager.storage sd)
                !! (DynamoDBStorage.SESSION sid, DynamoDBStorage.SESSION sid)
                ≫= DynamoDBStorage.item_session) as [x0|] eqn:E.
    + cbn [MemoryManager.startSession_then ret snd fst MemoryManager.currentSessionId
           MemoryManager.ready MemoryManager.storage].
      by destruct sd.
    + cbn [MemoryManager.startSession_then MemoryManager.currentSessionId
           MemoryManager.ready MemoryManager.storage].
      unfold MemoryManager.on_storage.
      cbn [fst snd MemoryManager.storage MemoryInterface.updateSession
           DynamoDBStorage_storage].
      unfold DynamoDBStorage.updateSession.
      rewrite Dynamo_guarded_ok by done.
      rewrite (bind_run _ _ _ _ _ (Dynamo_getSession_run sid rt _ Hrd)).
      rewrite E. cbn [throw snd fst ret MemoryManager.currentSessionId
                      MemoryManager.ready MemoryManager.storage].
      by destruct sd.
  - unfold MemoryManager.startSession, bind at 1, get. cbn [fst snd]. by rewrite Hml.
  - intros s0 sessionId Hr0. unfold startSession_settled, MemoryManager.startSession.
    unfold bind at 1. unfold bind at 1. unfold get. cbn [fst snd]. by rewrite Hr0.
Qed.

Lemma startSession_ensures_session_record_witness :
  ∃ rt' b' x,
    startSession_settled (backend := LocalStorage_storage) (Some "s3") (Some "Chat")
      manager_with_history
    = (Returned "s3",
       (rt', with_pointer (Some "s3") (with_storage b' (snd manager_with_history))))
    ∧ LocalStorage.getSession "s3" (rt', b') = (Returned (Some x), (rt', b'))
    ∧ ConversationSession.title x = Some "Chat"
    ∧ ConversationSession.messageCount x = 0.
Proof.
  destruct (startSession_ensures_session_record "s3" (Some "Chat") sample_runtime
              (snd manager_with_history)
              {| MemoryManager.storage := snd (initialized empty_table);
                 MemoryManager.currentSessionId := None;
                 MemoryManager.ready := true |}
              ltac:(discriminate) eq_refl eq_refl eq_refl eq_refl)
    as ((rt' & b' & x & Hrun & Hget & _ & Hx) & _).
  exists rt', b', x. split; [exact Hrun|]. split; [exact Hget|].
  change (find (session_has_id "s3")
            (sessions (data (MemoryManager.storage (snd manager_with_history)))))
    with (@None Session) in Hx.
  destruct Hx as (-> & _). split; reflexivity.
Defined.

(** ** The manager: [initialize] and [isReady] *)

(** X22: a manager is ready only after its own [initialize] succeeded.
    A manager constructed over a new file-backed store is not ready and
    has no current session.  If the file is absent or holds stored data,
    [initialize] returns and leaves the manager ready, with no current
    session, over the data of the file (none if absent); if the file
    cannot be read, [initialize] throws and the manager stays not ready,
    so that [startSession] throws. *)
Theorem manager_ready_after_initialize :
  ∀ (file : Durable) (rt : Runtime),
    MemoryManager.isReady (snd (new_manager file rt)) = false
    ∧ MemoryManager.getCurrentSessionId (snd (new_manager file rt)) = None
    ∧ (file ≠ Unreadable →
       ∃ w1,
         MemoryManager.initialize (backend := LocalStorage_storage) (new_manager file rt)
         = (Returned tt, w1)
         ∧ MemoryManager.isReady (snd w1) = true
         ∧ MemoryManager.getCurrentSessionId (snd w1) = None
         ∧ messages (data (MemoryManager.storage (snd w1)))
           = match file with Stored d => messages d | _ => [] end
         ∧ sessions (data (MemoryManager.storage (snd w1)))
           = match file with Stored d => sessions d | _ => [] end)
    ∧ (file = Unreadable →
       ∃ e w1,
         MemoryManager.initialize (backend := LocalStorage_storage) (new_manager file rt)
         = (Thrown e, w1)
         ∧ MemoryManager.isReady (snd w1) = false
         ∧ ∀ sessionId title,
             MemoryManager.startSession sessionId title w1
             = (Thrown (Error "Memory manager not initialized"), w1)).
Proof.
  intros file rt. split; [done|]. split; [done|]. split.
  - intros Hfile. destruct file as [| |d]; [|done|]; eexists; (split; [reflexivity|done]).
  - intros ->. eexists _, _. split; [reflexivity|]. split; [done|]. done.
Qed.

Lemma manager_ready_after_initialize_witness :
  ∃ w1,
    MemoryManager.initialize (backend := LocalStorage_storage)
      (new_manager (Stored (data (snd one_message_store))) sample_runtime)
    = (Returned tt, w1)
    ∧ MemoryManager.isReady (snd w1) = true
    ∧ messages (data (MemoryManager.storage (snd w1))) = [hello].
Proof.
  destruct (manager_ready_after_initialize (Stored (data (snd one_message_store)))
              sample_runtime) as (_ & _ & H & _).
  destruct (H ltac:(discriminate)) as (w1 & Hi & Hr & _ & Hm & _).
  exists w1. split; [exact Hi|]. split; [exact Hr|exact Hm].
Defined.

(** ** The factory *)

Lemma truthy_Some x y : truthy x = Some y → x = Some y ∧ y ≠ "".
Proof. destruct x as [[|c s]|]; cbn; intros [= <-]; done. Qed.

Lemma or_string_nonempty x d : d ≠ "" → Factory.or_string x d ≠ "".
Proof.
  intros Hd. unfold Factory.or_string.
  destruct (truthy x) as [y|] eqn:E; cbn; [|done].
  by apply truthy_Some in E as [_ Hy].
Qed.

Lemma or_string_default x d y :
  Factory.or_string x d = y → (truthy x = None ∧ y = d) ∨ (x = Some y ∧ y ≠ "").
Proof.
  unfold Factory.or_string. destruct (truthy x) as [z|] eqn:E; cbn; intros <-.
  - right. by apply truthy_Some.
  - by left.
Qed.

(** X23: [createMemoryManagerFromEnv] builds a configuration only from
    usable settings.  The storage type is [MEMORY_STORAGE_TYPE], or
    [local] when that is unset or empty.  A local configuration always
    results for [local], with a non-empty path and encoding; an
    object-storage or wide-column configuration results exactly when both
    the bucket (table) and the region are set and non-empty, and carries
    them; otherwise the function throws, as it does for any other storage
    type. *)
Theorem createMemoryManagerFromEnv_outcomes :
  ∀ (env : gmap string string),
    match Factory.createMemoryManagerFromEnv env with
    | Returned (Factory.local c) =>
        (unset env "MEMORY_STORAGE_TYPE" ∨ env !! "MEMORY_STORAGE_TYPE" = Some "local")
        ∧ Factory.filePath c ≠ "" ∧ Factory.encoding c ≠ ""
        ∧ (Factory.prettyPrint c = true ↔ env !! "MEMORY_FILE_PRETTY_PRINT" = Some "true")
    | Returned (Factory.s3 c) =>
        env !! "MEMORY_STORAGE_TYPE" = Some "s3"
        ∧ env !! "MEMORY_S3_BUCKET" = Some (Factory.bucketName c)
        ∧ Factory.bucketName c ≠ ""
        ∧ env !! "MEMORY_S3_REGION" = Some (Factory.s3_region c)
        ∧ Factory.s3_region c ≠ ""
        ∧ Factory.prefix c ≠ ""
    | Returned (Factory.dynamodb c) =>
        env !! "MEMORY_STORAGE_TYPE" = Some "dynamodb"
        ∧ env !! "MEMORY_DYNAMODB_TABLE" = Some (Factory.tableName c)
        ∧ Factory.tableName c ≠ ""
        ∧ env !! "MEMORY_DYNAMODB_REGION" = Some (Factory.ddb_region c)
        ∧ Factory.ddb_region c ≠ ""
    | Thrown _ =>
        (env !! "MEMORY_STORAGE_TYPE" = Some "s3"
         ∧ (unset env "MEMORY_S3_BUCKET" ∨ unset env "MEMORY_S3_REGION"))
        ∨ (env !! "MEMORY_STORAGE_TYPE" = Some "dynamodb"
           ∧ (unset env "MEMORY_DYNAMODB_TABLE" ∨ unset env "MEMORY_DYNAMODB_REGION"))
        ∨ (∃ t, env !! "MEMORY_STORAGE_TYPE" = Some t
                ∧ t ≠ "" ∧ t ≠ "local" ∧ t ≠ "s3" ∧ t ≠ "dynamodb")
    end.
Proof.
  intros env. unfold Factory.createMemoryManagerFromEnv, unset.
  destruct (or_string_default (env !! "MEMORY_STORAGE_TYPE") "local" _ eq_refl)
    as [[Hty Hdef]|[Hty Hne]].
  - rewrite Hdef. rewrite decide_True by done.
    cbn [Factory.createLocalMemoryManager Factory.filePath Factory.encoding
         Factory.prettyPrint default].
    split; [by left|]. split; [by apply or_string_nonempty|].
    split; [by apply or_string_nonempty|]. apply bool_decide_eq_true.
  - set (t := Factory.or_string (env !! "MEMORY_STORAGE_TYPE") "local") in *.
    destruct (decide (t = "local")) as [Ht|Ht].
    { cbn [Factory.createLocalMemoryManager Factory.filePath Factory.encoding
           Factory.prettyPrint default].
      split; [right; by rewrite Hty, Ht|]. split; [by apply or_string_nonempty|].
      split; [by apply or_string_nonempty|]. apply bool_decide_eq_true. }
    destruct (decide (t = "s3")) as [Ht3|Ht3].
    { rewrite Ht3 in Hty.
      destruct (truthy (env !! "MEMORY_S3_BUCKET")) as [b|] eqn:Eb;
        [|left; split; [done|by left]].
      destruct (truthy (env !! "MEMORY_S3_REGION")) as [r|] eqn:Er;
        [|left; split; [done|by right]].
      apply truthy_Some in Eb as [Eb Hb]. apply truthy_Some in Er as [Er Hr'].
      cbn [Factory.createS3MemoryManager Factory.bucketName Factory.s3_region Factory.prefix].
      do 5 (split; [done|]). by apply or_string_nonempty. }
    destruct (decide (t = "dynamodb")) as [Htd|Htd].
    { rewrite Htd in Hty.
      destruct (truthy (env !! "MEMORY_DYNAMODB_TABLE")) as [b|] eqn:Eb;
        [|right; left; split; [done|by left]].
      destruct (truthy (env !! "MEMORY_DYNAMODB_REGION")) as [r|] eqn:Er;
        [|right; left; split; [done|by right]].
      apply truthy_Some in Eb as [Eb Hb]. apply truthy_Some in Er as [Er Hr'].
      cbn [Factory.createDynamoDBMemoryManager Factory.tableName Factory.ddb_region].
      done. }
    right; right. by exists t.
Qed.
